(** * Task-Management-System: the task record, the store handler and the
      task repository, embedded in Rocq.

    The development follows the Python sources file by file:
    - [validators.py]        -> module [Validators]
    - [task.py]              -> the [Task] record, its constructor, setters,
                                [to_dict] and [from_dict]
    - [database_handler.py]  -> module [DatabaseHandler]
    - [task_manager.py]      -> module [TaskManager]
    - [cli.py]               -> module [CLI] (the parts that compute)

    Python objects live in a heap of [Task] records addressed by location, so
    that the dictionary [_tasks] and the list [_task_list] of the manager can
    share one object, as they do in the source.  Every method is a computation
    in a state-and-exception monad [M]: it receives the world, returns either a
    value or a raised exception, and the world it leaves behind (Python does not
    roll back on [raise]). *)

From Stdlib Require Import ZArith Lia Ascii String Sorted Permutation.
From stdpp Require Import base option list functions sorting gmap strings.

Local Open Scope string_scope.
Local Open Scope list_scope.
Local Open Scope Z_scope.

(** ** Strings

    [str] values are modelled by [string]; the characters are the ASCII ones,
    on which [str.lower] maps [A-Z] to [a-z] and [str.strip] removes the
    characters for which [str.isspace] holds. *)

Module Str.

Definition is_upper (c : ascii) : bool :=
(65 <=? Z.of_nat (nat_of_ascii c)) && (Z.of_nat (nat_of_ascii c) <=? 90).

Definition lower_char (c : ascii) : ascii :=
if is_upper c then ascii_of_nat (nat_of_ascii c + 32) else c.

(** [s.lower()] *)
Fixpoint lower (s : string) : string :=
match s with
| EmptyString => EmptyString
| String c s' => String (lower_char c) (lower s')
end.

(** [str.isspace] on one ASCII character: TAB, LF, VT, FF, CR, the four
  separators FS, GS, RS, US and the space. *)
Definition is_space (c : ascii) : bool :=
let n := Z.of_nat (nat_of_ascii c) in
((9 <=? n) && (n <=? 13)) || ((28 <=? n) && (n <=? 32)).

Fixpoint lstrip (s : string) : string :=
match s with
| EmptyString => EmptyString
| String c s' => if is_space c then lstrip s' else s
end.

Fixpoint rstrip (s : string) : string :=
match s with
| EmptyString => EmptyString
| String c s' =>
    match rstrip s' with
    | EmptyString => if is_space c then EmptyString else String c EmptyString
    | r => String c r
    end
end.

(** [s.strip()] *)
Definition strip (s : string) : string := rstrip (lstrip s).

(** [s.startswith(p)] *)
Fixpoint startswith (s p : string) : bool :=
match p, s with
| EmptyString, _ => true
| String _ _, EmptyString => false
| String b p', String a s' => if Ascii.eqb a b then startswith s' p' else false
end.

(** [s[:n]] *)
Fixpoint take (n : nat) (s : string) : string :=
match n, s with
| O, _ => EmptyString
| S _, EmptyString => EmptyString
| S n', String c s' => String c (take n' s')
end.

(** [a < b] on strings: lexicographic on the code points. *)
Fixpoint ltb (a b : string) : bool :=
match a, b with
| _, EmptyString => false
| EmptyString, String _ _ => true
| String x a', String y b' =>
    if (nat_of_ascii x <? nat_of_ascii y)%nat then true
    else if (nat_of_ascii y <? nat_of_ascii x)%nat then false
    else ltb a' b'
end.

(** Truth value of a string: [if s:] holds for the non-empty ones. *)
Definition truthy (s : string) : bool :=
match s with EmptyString => false | _ => true end.

(** [', '.join(l)] *)
Fixpoint join (sep : string) (l : list string) : string :=
match l with
| [] => EmptyString
| [x] => x
| x :: rest => x +:+ sep +:+ join sep rest
end.

End Str.

(** ** Date-times

    A naive [datetime]: its seven fields.  Python compares two naive date-times
    field by field, from the year down to the microsecond; [d.date()] keeps the
    first three fields. *)

Record datetime := mk_datetime {
  year : Z; month : Z; day : Z;
  hour : Z; minute : Z; second : Z; microsecond : Z
}.

#[global] Instance datetime_eq_dec : EqDecision datetime.
Proof. solve_decision. Defined.

Definition date_of (d : datetime) : Z * Z * Z := (year d, month d, day d).

Definition datetime_fields (d : datetime) : list Z :=
  [year d; month d; day d; hour d; minute d; second d; microsecond d].

Fixpoint lex_ltb (a b : list Z) : bool :=
  match a, b with
  | _, [] => false
  | [], _ :: _ => true
  | x :: a', y :: b' =>
      if x <? y then true else if y <? x then false else lex_ltb a' b'
  end.

(** [a < b] on date-times *)
Definition datetime_ltb (a b : datetime) : bool :=
  lex_ltb (datetime_fields a) (datetime_fields b).

(** ** Dynamic values

    The values that occur in a stored document and in the arguments whose
    dynamic type the code inspects: a string, a date-time, or [None]. *)

Inductive value :=
| VStr (s : string)
| VDatetime (d : datetime)
| VNone.

#[global] Instance value_eq_dec : EqDecision value.
Proof. solve_decision. Defined.

(** A document of the collection, and every other [dict] with string keys. *)
Abbreviation document := (gmap string value).

(** ** Exceptions *)

Inductive exn :=
| ValueError (msg : string)
| TypeError (msg : string)
| KeyError (msg : string)
| ConnectionError (msg : string)
| DuplicateKeyError (msg : string)   (* pymongo.errors.DuplicateKeyError *)
| OperationFailure (msg : string)    (* pymongo.errors.OperationFailure *)
| Exception (msg : string).

(** [str(e)]; for a [KeyError] it is the quoted key. *)
Definition exn_str (e : exn) : string :=
  match e with
  | ValueError m | TypeError m | ConnectionError m
  | DuplicateKeyError m | OperationFailure m | Exception m => m
  | KeyError k => "'" +:+ k +:+ "'"
  end.

(** [isinstance(e, ValueError)] *)
Definition is_ValueError (e : exn) : bool :=
  match e with ValueError _ => true | _ => false end.

Inductive outcome (A : Type) :=
| Return (a : A)
| Raise (e : exn).
Arguments Return {A} a.
Arguments Raise {A} e.

(** ** validators.py *)

Module Validators.

Definition validate_title (title : string) : outcome string :=
if negb (Str.truthy title) || negb (Str.truthy (Str.strip title))
then Raise (ValueError "Title cannot be empty")
else Return (Str.strip title).

Definition valid_priorities : list string := ["Low"; "Medium"; "High"].

Definition priority_map : gmap string string :=
<["low" := "Low"]> (<["medium" := "Medium"]> (<["high" := "High"]> ∅)).

Definition validate_priority (priority : string) : outcome string :=
let priority_lower := Str.lower (Str.strip priority) in
match priority_map !! priority_lower with
| Some p => Return p
| None =>
    match List.find (fun v => String.eqb (Str.lower v) priority_lower)
                    valid_priorities with
    | Some v => Return v
    | None => Raise (ValueError ("Priority must be one of: "
                                 +:+ Str.join ", " valid_priorities))
    end
end.

Definition valid_statuses : list string := ["Pending"; "In Progress"; "Completed"].

Definition status_map : gmap string string :=
<["pending" := "Pending"]>
  (<["in progress" := "In Progress"]> (<["completed" := "Completed"]> ∅)).

Definition validate_status (status : string) : outcome string :=
let status_lower := Str.lower (Str.strip status) in
match status_map !! status_lower with
| Some s => Return s
| None =>
    match List.find (fun v => String.eqb (Str.lower v) status_lower)
                    valid_statuses with
    | Some v => Return v
    | None => Raise (ValueError ("Status must be one of: "
                                 +:+ Str.join ", " valid_statuses))
    end
end.

(** [description.strip() if description and description.strip() else ""] *)
Definition validate_description (description : option string) : string :=
match description with
| Some d =>
    if Str.truthy d && Str.truthy (Str.strip d) then Str.strip d else ""
| None => ""
end.

Definition validate_task_id (task_id : string) : outcome string :=
  if negb (Str.truthy task_id) || negb (Str.truthy (Str.strip task_id))
  then Raise (ValueError "Task ID cannot be empty")
  else Return (Str.strip task_id).

Definition valid_choices : list string := ["1"; "2"; "3"; "4"; "5"].

Definition validate_sort_choice (choice : string) : outcome string :=
  let choice := Str.strip choice in
  if negb (Str.truthy choice) then Return "1"
  else if negb (bool_decide (choice ∈ valid_choices))
  then Raise (ValueError "Sort choice must be between 1 and 5")
  else Return choice.

Definition valid_confirmations : list string := ["yes"; "y"; "no"; "n"; ""].

Definition validate_confirmation (confirm : string) : outcome bool :=
  let confirm := Str.lower (Str.strip confirm) in
  if negb (bool_decide (confirm ∈ valid_confirmations))
  then Raise (ValueError "Confirmation must be 'yes' or 'no'")
  else Return (bool_decide (confirm ∈ ["yes"; "y"])).

End Validators.

(** ** task.py: the record *)

Record Task := mk_Task {
  _task_id : string;
  _title : string;
  _description : string;
  _due_date : datetime;
  _priority : string;
  _status : string;
  _created_at : datetime
}.

#[global] Instance Task_eq_dec : EqDecision Task.
Proof. solve_decision. Defined.

Definition VALID_PRIORITIES : list string := ["Low"; "Medium"; "High"].
Definition VALID_STATUSES : list string := ["Pending"; "In Progress"; "Completed"].

Definition set_title (v : string) (t : Task) : Task :=
  mk_Task (_task_id t) v (_description t) (_due_date t) (_priority t) (_status t) (_created_at t).
Definition set_description (v : string) (t : Task) : Task :=
  mk_Task (_task_id t) (_title t) v (_due_date t) (_priority t) (_status t) (_created_at t).
Definition set_due_date (v : datetime) (t : Task) : Task :=
  mk_Task (_task_id t) (_title t) (_description t) v (_priority t) (_status t) (_created_at t).
Definition set_priority (v : string) (t : Task) : Task :=
  mk_Task (_task_id t) (_title t) (_description t) (_due_date t) v (_status t) (_created_at t).
Definition set_status (v : string) (t : Task) : Task :=
  mk_Task (_task_id t) (_title t) (_description t) (_due_date t) (_priority t) v (_created_at t).

(** ** The world

    [heap] holds the [Task] objects: it gives the fields of the object at each
    location, and [heap_next] is the next location to be handed out (objects are
    never freed).  The store is the MongoDB collection behind the handler:
    [db_alive] is what [is_connected] finds out from the server, [db_fault] is
    the error a collection operation meets on the server side (if any), and
    [db_collection] holds the documents in their natural order.  [_tasks] is the
    manager's dictionary, kept in insertion order as Python dictionaries are,
    [_task_list] its list.  The clock and the UUID generator are sources the
    program draws from: the [n]-th draw of each is fixed by the world. *)

Abbreviation loc := nat.

Record World := mk_World {
  heap : loc -> Task;
  heap_next : loc;
  db_alive : bool;
  db_fault : option string;
  db_collection : list document;
  _tasks : list (string * loc);
  _task_list : list loc;
  clock : nat -> datetime;
  clock_pos : nat;
  uuid_src : nat -> string;
  uuid_pos : nat
}.

Definition with_heap (h : loc -> Task) (n : loc) (w : World) : World :=
  mk_World h n (db_alive w) (db_fault w) (db_collection w) (_tasks w) (_task_list w)
           (clock w) (clock_pos w) (uuid_src w) (uuid_pos w).
Definition with_collection (c : list document) (w : World) : World :=
  mk_World (heap w) (heap_next w) (db_alive w) (db_fault w) c (_tasks w) (_task_list w)
           (clock w) (clock_pos w) (uuid_src w) (uuid_pos w).
Definition with_tasks (d : list (string * loc)) (w : World) : World :=
  mk_World (heap w) (heap_next w) (db_alive w) (db_fault w) (db_collection w) d (_task_list w)
           (clock w) (clock_pos w) (uuid_src w) (uuid_pos w).
Definition with_task_list (l : list loc) (w : World) : World :=
  mk_World (heap w) (heap_next w) (db_alive w) (db_fault w) (db_collection w) (_tasks w) l
           (clock w) (clock_pos w) (uuid_src w) (uuid_pos w).
Definition with_clock_pos (n : nat) (w : World) : World :=
  mk_World (heap w) (heap_next w) (db_alive w) (db_fault w) (db_collection w) (_tasks w) (_task_list w)
           (clock w) n (uuid_src w) (uuid_pos w).
Definition with_uuid_pos (n : nat) (w : World) : World :=
  mk_World (heap w) (heap_next w) (db_alive w) (db_fault w) (db_collection w) (_tasks w) (_task_list w)
           (clock w) (clock_pos w) (uuid_src w) n.

(** ** The monad of methods *)

Definition M (A : Type) : Type := World -> outcome A * World.

#[global] Instance M_ret : MRet M := fun A a w => (Return a, w).
#[global] Instance M_bind : MBind M := fun A B f m w =>
  match m w with
  | (Return a, w') => f a w'
  | (Raise e, w') => (Raise e, w')
  end.

Definition raise {A} (e : exn) : M A := fun w => (Raise e, w).

(** [try: m  except Exception as e: h e] *)
Definition try_except {A} (m : M A) (h : exn -> M A) : M A := fun w =>
  match m w with
  | (Return a, w') => (Return a, w')
  | (Raise e, w') => h e w'
  end.

(** A pure function that may raise, called from a method. *)
Definition lift {A} (o : outcome A) : M A := fun w => (o, w).

Definition get {A} (f : World -> A) : M A := fun w => (Return (f w), w).
Definition modify (f : World -> World) : M unit := fun w => (Return tt, f w).

(** [for x in l: body x] *)
Fixpoint for_each {A} (l : list A) (body : A -> M unit) : M unit :=
  match l with
  | [] => mret tt
  | x :: l' => body x ;; for_each l' body
  end.

(** [[f x for x in l]] where [f] is a method *)
Fixpoint map_M {A B} (f : A -> M B) (l : list A) : M (list B) :=
  match l with
  | [] => mret []
  | x :: l' => y ← f x; ys ← map_M f l'; mret (y :: ys)
  end.

(** [datetime.now()] *)
Definition datetime_now : M datetime := fun w =>
  (Return (clock w (clock_pos w)), with_clock_pos (S (clock_pos w)) w).

(** [str(uuid.uuid4())] *)
Definition uuid4 : M string := fun w =>
  (Return (uuid_src w (uuid_pos w)), with_uuid_pos (S (uuid_pos w)) w).

(** ** task.py: the methods *)

(** The fields of the object at [l]. *)
Definition read (l : loc) : M Task := get (fun w => heap w l).

Definition write (l : loc) (f : Task -> Task) : M unit :=
  modify (fun w => with_heap (<[l := f (heap w l)]> (heap w)) (heap_next w) w).

(** A new object holding [t]. *)
Definition alloc (t : Task) : M loc := fun w =>
  (Return (heap_next w), with_heap (<[heap_next w := t]> (heap w)) (S (heap_next w)) w).

(** [Task(task_id, title, description, due_date, priority, status, created_at)];
    an omitted [status] or [created_at] is [None] here. *)
Definition Task_init (task_id title description : string) (due_date : datetime)
    (priority : string) (status : option string) (created_at : option datetime)
    : M loc :=
  created ← match created_at with
            | Some c => mret c        (* a date-time is always true *)
            | None => datetime_now
            end;
  alloc (mk_Task task_id title description due_date priority
                 (default "Pending" status) created).

Definition Task_set_title (l : loc) (v : string) : M unit :=
  if negb (Str.truthy v) || negb (Str.truthy (Str.strip v))
  then raise (ValueError "Title cannot be empty")
  else write l (set_title (Str.strip v)).

Definition Task_set_description (l : loc) (v : string) : M unit :=
  write l (set_description (if Str.truthy v then v else "")).

(** The setter checks [isinstance(value, datetime)]. *)
Definition Task_set_due_date (l : loc) (v : value) : M unit :=
  match v with
  | VDatetime d => write l (set_due_date d)
  | _ => raise (TypeError "Due date must be a datetime object")
  end.

Definition Task_set_priority (l : loc) (v : string) : M unit :=
  if bool_decide (v ∈ VALID_PRIORITIES)
  then write l (set_priority v)
  else raise (ValueError ("Priority must be one of: " +:+ Str.join ", " VALID_PRIORITIES)).

Definition Task_set_status (l : loc) (v : string) : M unit :=
  if bool_decide (v ∈ VALID_STATUSES)
  then write l (set_status v)
  else raise (ValueError ("Status must be one of: " +:+ Str.join ", " VALID_STATUSES)).

Definition to_dict_fields (t : Task) : document :=
  <["task_id" := VStr (_task_id t)]>
  (<["title" := VStr (_title t)]>
  (<["description" := VStr (_description t)]>
  (<["due_date" := VDatetime (_due_date t)]>
  (<["priority" := VStr (_priority t)]>
  (<["status" := VStr (_status t)]>
  (<["created_at" := VDatetime (_created_at t)]> ∅)))))).

Definition Task_to_dict (l : loc) : M document :=
  t ← read l; mret (to_dict_fields t).

(** [data[k]], for a field annotated [str]. *)
Definition item_str (data : document) (k : string) : M string :=
  match data !! k with
  | None => raise (KeyError k)
  | Some (VStr s) => mret s
  | Some _ => raise (TypeError (k +:+ " is not a str"))
  end.

(** [data[k]], for a field annotated [datetime]. *)
Definition item_datetime (data : document) (k : string) : M datetime :=
  match data !! k with
  | None => raise (KeyError k)
  | Some (VDatetime d) => mret d
  | Some _ => raise (TypeError (k +:+ " is not a datetime"))
  end.

(** [Task.from_dict(data)].  The record is typed as the constructor is
    annotated; a document whose value has another dynamic type than the
    annotation of its field is rejected with a [TypeError], where Python would
    build an ill-typed object.  [data.get("status", "Pending")] and
    [data.get("created_at")] tolerate a missing key. *)
Definition Task_from_dict (data : document) : M loc :=
  task_id ← item_str data "task_id";
  title ← item_str data "title";
  description ← item_str data "description";
  due_date ← item_datetime data "due_date";
  priority ← item_str data "priority";
  status ← match data !! "status" with
           | None => mret "Pending"
           | Some (VStr s) => mret s
           | Some _ => raise (TypeError "status is not a str")
           end;
  created_at ← match data !! "created_at" with
               | None | Some VNone | Some (VStr EmptyString) => mret None
               | Some (VDatetime d) => mret (Some d)
               | Some (VStr _) => raise (TypeError "created_at is not a datetime")
               end;
  Task_init task_id title description due_date priority (Some status) created_at.

(** ** Python dictionaries with [str] keys

    Insertion-ordered: assigning to a new key appends the entry, assigning to
    an existing key replaces the value in place, [del] removes the entry. *)

Module PyDict.
Section Ops.
Context {V : Type}.

Fixpoint getitem (k : string) (d : list (string * V)) : option V :=
match d with
| [] => None
| (k', v) :: d' => if String.eqb k' k then Some v else getitem k d'
end.

(** [k in d] *)
Definition contains (k : string) (d : list (string * V)) : bool :=
match getitem k d with Some _ => true | None => false end.

(** [d[k] = v] *)
Fixpoint setitem (k : string) (v : V) (d : list (string * V)) : list (string * V) :=
match d with
| [] => [(k, v)]
| (k', v') :: d' =>
  if String.eqb k' k then (k', v) :: d' else (k', v') :: setitem k v d'
end.

(** [del d[k]], defined when [k in d] *)
Fixpoint delitem (k : string) (d : list (string * V)) : list (string * V) :=
match d with
| [] => []
| (k', v') :: d' =>
  if String.eqb k' k then d' else (k', v') :: delitem k d'
end.

Definition keys (d : list (string * V)) : list string := map fst d.
Definition values (d : list (string * V)) : list V := map snd d.
End Ops.
End PyDict.

(** ** database_handler.py

    The collection is the one opened by [connect], which also creates the
    unique index on [task_id]; the operations of pymongo on it are modelled by
    [insert_one], [find], [find_one], [update_one], [delete_one] and
    [count_documents].  Documents are kept as they are written (the [_id] the
    server adds is left out; [result.pop("_id", None)] is the deletion of that
    key). *)

Module DatabaseHandler.

(** The value the unique index sees in a document. *)
Definition doc_key (d : document) : value := default VNone (d !! "task_id").

(** The filter [{"task_id": task_id}] *)
Definition matches (task_id : string) (d : document) : bool :=
bool_decide (d !! "task_id" = Some (VStr task_id)).

(** Every operation on the collection goes to the server, where it may fail. *)
Definition on_server : M unit := fun w =>
match db_fault w with
| Some msg => (Raise (OperationFailure msg), w)
| None => (Return tt, w)
end.

Definition insert_one (doc : document) : M unit :=
on_server ;;
c ← get db_collection;
if existsb (fun d => bool_decide (doc_key d = doc_key doc)) c
then raise (DuplicateKeyError "duplicate key error collection: tasks index: task_id")
else modify (with_collection (c ++ [doc])).

Definition find : M (list document) :=
on_server ;; get db_collection.

Definition find_one (task_id : string) : M (option document) :=
on_server ;; c ← get db_collection; mret (List.find (matches task_id) c).

(** The first matching document, updated by [$set]. *)
Fixpoint set_first (task_id : string) (upd : document) (c : list document)
: list document * bool :=
match c with
| [] => ([], false)
| d :: c' =>
    if matches task_id d
    then ((upd ∪ d) :: c', bool_decide (upd ∪ d ≠ d))
    else let '(c'', m) := set_first task_id upd c' in (d :: c'', m)
end.

(** [update_one({"task_id": task_id}, {"$set": upd}).modified_count > 0];
  [upd] does not carry the indexed field. *)
Definition update_one (task_id : string) (upd : document) : M bool :=
on_server ;;
c ← get db_collection;
let '(c', modified) := set_first task_id upd c in
modify (with_collection c') ;; mret modified.

Fixpoint remove_first (task_id : string) (c : list document)
: list document * bool :=
match c with
| [] => ([], false)
| d :: c' =>
    if matches task_id d then (c', true)
    else let '(c'', m) := remove_first task_id c' in (d :: c'', m)
end.

(** [delete_one({"task_id": task_id}).deleted_count > 0] *)
Definition delete_one (task_id : string) : M bool :=
on_server ;;
c ← get db_collection;
let '(c', deleted) := remove_first task_id c in
modify (with_collection c') ;; mret deleted.

Definition count_documents (task_id : string) : M nat :=
on_server ;; c ← get db_collection;
mret (length (List.filter (matches task_id) c)).

Definition is_connected : M bool := get db_alive.

Definition insert_task (task : loc) : M bool :=
connected ← is_connected;
if negb connected then raise (ConnectionError "Database not connected")
else
  try_except
    (task_dict ← Task_to_dict task;
     insert_one task_dict ;;
     mret true)
    (fun e =>
       match e with
       | DuplicateKeyError _ =>
           t ← read task;
           raise (ValueError ("Task with ID " +:+ _task_id t +:+ " already exists"))
       | _ => raise (Exception ("Failed to insert task: " +:+ exn_str e))
       end).

Definition get_task_by_id (task_id : string) : M (option loc) :=
connected ← is_connected;
if negb connected then raise (ConnectionError "Database not connected")
else
  try_except
    (result ← find_one task_id;
     match result with
     | Some doc => t ← Task_from_dict (delete "_id" doc); mret (Some t)
     | None => mret None
     end)
    (fun e => raise (Exception ("Failed to retrieve task: " +:+ exn_str e))).

Definition get_all_tasks : M (list loc) :=
connected ← is_connected;
if negb connected then raise (ConnectionError "Database not connected")
else
  try_except
    (results ← find;
     map_M (fun result => Task_from_dict (delete "_id" result)) results)
    (fun e => raise (Exception ("Failed to retrieve tasks: " +:+ exn_str e))).

Definition update_task (task_id : string) (update_data : document) : M bool :=
connected ← is_connected;
if negb connected then raise (ConnectionError "Database not connected")
else
  try_except
    (update_one task_id update_data)
    (fun e => raise (Exception ("Failed to update task: " +:+ exn_str e))).

Definition delete_task (task_id : string) : M bool :=
connected ← is_connected;
if negb connected then raise (ConnectionError "Database not connected")
else
  try_except
    (delete_one task_id)
    (fun e => raise (Exception ("Failed to delete task: " +:+ exn_str e))).

Definition task_exists (task_id : string) : M bool :=
connected ← is_connected;
if negb connected then raise (ConnectionError "Database not connected")
else
  try_except
    (n ← count_documents task_id; mret (0 <? n)%nat)
    (fun e => raise (Exception ("Failed to check task existence: " +:+ exn_str e))).

End DatabaseHandler.

(** ** The built-in [sorted]

    [sorted(l, key=k, reverse=r)] is a stable sort that compares the keys with
    [<] only.  It is modelled by a stable insertion sort; with [reverse] the
    list is reversed, sorted, and reversed again, which is how the built-in
    keeps equal elements in their input order.  The keys computed by
    [get_sort_key] are integers, strings or date-times. *)

Inductive sort_key :=
| KInt (n : Z)
| KStr (s : string)
| KDatetime (d : datetime).

#[global] Instance sort_key_eq_dec : EqDecision sort_key.
Proof. solve_decision. Defined.

(** [a < b] on keys.  Keys of two different types do not compare in Python
    (a [TypeError]); one sort never produces them, see [get_sort_key]. *)
Definition key_ltb (a b : sort_key) : bool :=
  match a, b with
  | KInt x, KInt y => x <? y
  | KStr x, KStr y => Str.ltb x y
  | KDatetime x, KDatetime y => datetime_ltb x y
  | _, _ => false
  end.

Section Sorted.
Context {A : Type} (key : A -> sort_key).

Fixpoint insert_sorted (x : A) (l : list A) : list A :=
match l with
| [] => [x]
| y :: l' =>
    if key_ltb (key y) (key x) then y :: insert_sorted x l' else x :: y :: l'
end.

Definition stable_sort (l : list A) : list A := foldr insert_sorted [] l.

Definition sorted (reverse : bool) (l : list A) : list A :=
if reverse then rev (stable_sort (rev l)) else stable_sort l.
End Sorted.

(** ** task_manager.py *)

Module TaskManager.

(** [TaskManager(db_handler)]: both containers start empty. *)
Definition init : M unit :=
modify (fun w => with_task_list [] (with_tasks [] w)).

Definition load_tasks_from_db : M bool :=
try_except
  (tasks ← DatabaseHandler.get_all_tasks;
   modify (with_tasks []) ;;
   modify (with_task_list []) ;;
   for_each tasks (fun task =>
     t ← read task;
     modify (fun w => with_tasks (PyDict.setitem (_task_id t) task (_tasks w)) w) ;;
     modify (fun w => with_task_list (_task_list w ++ [task]) w)) ;;
   mret true)
  (fun e => mret false).

Definition add_task (title description : string) (due_date : datetime)
  (priority : string) (status : option string) : M loc :=
title ← lift (Validators.validate_title title);
let description := Validators.validate_description (Some description) in
priority ← lift (Validators.validate_priority priority);
status ← lift (Validators.validate_status (default "Pending" status));
task_id ← uuid4;
task ← Task_init task_id title description due_date priority (Some status) None;
try_except
  (DatabaseHandler.insert_task task ;;
   modify (fun w => with_tasks (PyDict.setitem task_id task (_tasks w)) w) ;;
   modify (fun w => with_task_list (_task_list w ++ [task]) w) ;;
   mret task)
  (fun e =>
     if is_ValueError e
     then raise (ValueError ("Cannot add task: " +:+ exn_str e))
     else raise (Exception ("Database error: " +:+ exn_str e))).

(** The partial match of [get_task]: the first entry, in the order of the
  dictionary, whose key starts with the given text once both are lowered. *)
Fixpoint first_partial (task_id_lower : string) (items : list (string * loc))
: option loc :=
match items with
| [] => None
| (full_id, task) :: rest =>
    if Str.startswith (Str.lower full_id) task_id_lower
    then Some task
    else first_partial task_id_lower rest
end.

Definition get_task (task_id : string) : M (option loc) :=
d ← get _tasks;
if PyDict.contains task_id d
then mret (PyDict.getitem task_id d)
else mret (first_partial (Str.lower task_id) d).

Definition get_all_tasks : M (list loc) := get _task_list.

Definition update_task (task_id : string) (title description : option string)
  (due_date : value) (priority status : option string) : M bool :=
found ← get_task task_id;
match found with
| None => mret false
| Some task =>
    t ← read task;
    let full_task_id := _task_id t in
    let update_data : document := ∅ in
    update_data ←
      match title with
      | Some title =>
          v ← lift (Validators.validate_title title);
          Task_set_title task v ;;
          t ← read task;
          mret (<["title" := VStr (_title t)]> update_data)
      | None => mret update_data
      end;
    update_data ←
      match description with
      | Some description =>
          Task_set_description task
            (Validators.validate_description (Some description)) ;;
          t ← read task;
          mret (<["description" := VStr (_description t)]> update_data)
      | None => mret update_data
      end;
    update_data ←
      match due_date with
      | VNone => mret update_data
      | _ =>
          Task_set_due_date task due_date ;;
          mret (<["due_date" := due_date]> update_data)
      end;
    update_data ←
      match priority with
      | Some priority =>
          v ← lift (Validators.validate_priority priority);
          Task_set_priority task v ;;
          t ← read task;
          mret (<["priority" := VStr (_priority t)]> update_data)
      | None => mret update_data
      end;
    update_data ←
      match status with
      | Some status =>
          v ← lift (Validators.validate_status status);
          Task_set_status task v ;;
          t ← read task;
          mret (<["status" := VStr (_status t)]> update_data)
      | None => mret update_data
      end;
    try_except
      ((if bool_decide (update_data ≠ ∅)
        then DatabaseHandler.update_task full_task_id update_data ;; mret tt
        else mret tt) ;;
       mret true)
      (fun e => raise (Exception ("Database error: " +:+ exn_str e)))
end.

Definition mark_completed (task_id : string) : M bool :=
update_task task_id None None VNone None (Some "Completed").

Definition delete_task (task_id : string) : M bool :=
found ← get_task task_id;
match found with
| None => mret false
| Some task =>
    t ← read task;
    let full_task_id := _task_id t in
    try_except
      (DatabaseHandler.delete_task full_task_id ;;
       d ← get _tasks;
       (if PyDict.contains full_task_id d
        then modify (with_tasks (PyDict.delitem full_task_id d))
        else raise (KeyError full_task_id)) ;;
       modify (fun w =>
         with_task_list
           (List.filter
              (fun t => negb (String.eqb (_task_id (heap w t)) full_task_id))
              (_task_list w)) w) ;;
       mret true)
      (fun e => raise (Exception ("Database error: " +:+ exn_str e)))
end.

(** [[t for t in filtered if p t]] *)
Definition comprehension (p : Task -> bool) (filtered : list loc) : M (list loc) :=
h ← get heap; mret (List.filter (fun t => p (h t)) filtered).

Definition filter_tasks (priority status : option string)
  (due_date due_date_before due_date_after : option datetime) : M (list loc) :=
filtered ← get _task_list;
filtered ←
  match priority with
  | Some priority =>
      if Str.truthy priority then
        priority ← lift (Validators.validate_priority priority);
        comprehension (fun t => String.eqb (_priority t) priority) filtered
      else mret filtered
  | None => mret filtered
  end;
filtered ←
  match status with
  | Some status =>
      if Str.truthy status then
        status ← lift (Validators.validate_status status);
        comprehension (fun t => String.eqb (_status t) status) filtered
      else mret filtered
  | None => mret filtered
  end;
filtered ←
  match due_date with
  | Some due_date =>
      comprehension
        (fun t => bool_decide (date_of (_due_date t) = date_of due_date))
        filtered
  | None => mret filtered
  end;
filtered ←
  match due_date_before with
  | Some due_date_before =>
      comprehension
        (fun t => datetime_ltb (_due_date t) due_date_before) filtered
  | None => mret filtered
  end;
filtered ←
  match due_date_after with
  | Some due_date_after =>
      comprehension
        (fun t => datetime_ltb due_date_after (_due_date t)) filtered
  | None => mret filtered
  end;
mret filtered.

Definition valid_sort_fields : list string :=
["created_at"; "due_date"; "priority"; "status"; "title"].

Definition priority_order : gmap string Z :=
<["High" := 3]> (<["Medium" := 2]> (<["Low" := 1]> ∅)).

Definition status_order : gmap string Z :=
<["Pending" := 1]> (<["In Progress" := 2]> (<["Completed" := 3]> ∅)).

(** [getattr(task, sort_by)], reached for the two date-time fields only. *)
Definition getattr_datetime (task : Task) (name : string) : datetime :=
if String.eqb name "due_date" then _due_date task
else _created_at task.

Definition get_sort_key (sort_by : string) (task : Task) : sort_key :=
if String.eqb sort_by "priority"
then KInt (default 0 (priority_order !! _priority task))
else if String.eqb sort_by "status"
then KInt (default 0 (status_order !! _status task))
else if String.eqb sort_by "title"
then KStr (Str.lower (_title task))
else KDatetime (getattr_datetime task sort_by).

Definition sort_tasks (tasks : list loc) (sort_by : string) (reverse : bool)
: M (list loc) :=
if negb (bool_decide (sort_by ∈ valid_sort_fields))
then raise (ValueError ("Invalid sort field. Must be one of: "
                        +:+ Str.join ", " valid_sort_fields))
else
  h ← get heap;
  mret (sorted (fun task => get_sort_key sort_by (h task)) reverse tasks).

Definition get_task_count : M nat :=
l ← get _task_list; mret (length l).

End TaskManager.

(** ** cli.py

    The parts of the command-line interface that compute: what [list_tasks]
    hands to the display for the two lines typed at its prompts, and the
    statistics one period of the background thread produces.  The lines read
    by [input] are arguments, what [print] writes is left out. *)

Module CLI.

(** What [list_tasks] ends with: the message that there is no task, the list
    passed to [display_tasks], or the error message of its handler. *)
Inductive shown :=
| NoTasks
| Listed (tasks : list loc)
| ErrorShown (msg : string).

Definition sort_map : gmap string string :=
  <["1" := "created_at"]> (<["2" := "due_date"]> (<["3" := "priority"]>
  (<["4" := "status"]> (<["5" := "title"]> ∅)))).

Definition list_tasks (sort_choice_line reverse_line : string) : M shown :=
  try_except
    (tasks ← TaskManager.get_all_tasks;
     match tasks with
     | [] => mret NoTasks
     | _ =>
         let sort_choice_input := Str.strip sort_choice_line in
         sort_choice ←
           try_except
             (lift (Validators.validate_sort_choice sort_choice_input))
             (fun e => if is_ValueError e then mret "1" else raise e);
         let sort_by := default "created_at" (sort_map !! sort_choice) in
         let reverse := String.eqb (Str.lower (Str.strip reverse_line)) "y" in
         sorted_tasks ← TaskManager.sort_tasks tasks sort_by reverse;
         mret (Listed sorted_tasks)
     end)
    (fun e => mret (ErrorShown ("Error listing tasks: " +:+ exn_str e))).

(** The dictionary stored in [_background_stats]. *)
Record stats := mk_stats {
  timestamp : datetime;
  total : nat;
  completed : nat;
  in_progress : nat;
  pending : nat;
  overdue : nat;
  high_priority_pending : nat
}.

(** [sum(1 for t in tasks if p t)] *)
Definition count (p : Task -> bool) (tasks : list loc) : M nat :=
  h ← get heap; mret (length (List.filter (fun t => p (h t)) tasks)).

(** One period of [background_task_cleanup], after the wait: the statistics it
    stores, or [None] when it stores nothing.  The period is taken as one step,
    with no operation of the foreground in between. *)
Definition background_period : M (option stats) :=
  try_except
    (tasks ← TaskManager.get_all_tasks;
     match tasks with
     | [] => mret None
     | _ =>
         let total_tasks := length tasks in
         completed ← count (fun t => String.eqb (_status t) "Completed") tasks;
         in_progress ← count (fun t => String.eqb (_status t) "In Progress") tasks;
         pending ← count (fun t => String.eqb (_status t) "Pending") tasks;
         now ← datetime_now;
         overdue ← count (fun t => datetime_ltb (_due_date t) now
                                   && negb (String.eqb (_status t) "Completed")) tasks;
         high_priority ← count (fun t => String.eqb (_priority t) "High"
                                         && negb (String.eqb (_status t) "Completed")) tasks;
         stamp ← datetime_now;
         mret (Some (mk_stats stamp total_tasks completed in_progress pending
                              overdue high_priority))
     end)
    (fun e => mret None).

(** What [delete_task] of the interface ends with: no id was entered, the id
    resolves to no task, the task was deleted, the manager reported a failure,
    the deletion was not confirmed, or the error message of its handlers. *)
Inductive deletion :=
| NoId
| NotFound
| Deleted
| DeleteFailed
| Cancelled
| DeleteError (msg : string).

(** [delete_task] for the id [get_input] returned and the line typed at the
    confirmation prompt. *)
Definition delete_task (task_id confirm_line : string) : M deletion :=
  try_except
    (tasks ← TaskManager.get_all_tasks;
     if negb (Str.truthy task_id) then mret NoId
     else
       task ← TaskManager.get_task task_id;
       match task with
       | None => mret NotFound
       | Some _ =>
           let confirm_input := Str.strip confirm_line in
           confirm ←
             try_except
               (lift (Validators.validate_confirmation confirm_input))
               (fun e => if is_ValueError e then mret false else raise e);
           if (confirm : bool) then
             deleted ← TaskManager.delete_task task_id;
             if (deleted : bool) then mret Deleted else mret DeleteFailed
           else mret Cancelled
       end)
    (fun e =>
       if is_ValueError e then mret (DeleteError ("Error: " +:+ exn_str e))
       else mret (DeleteError ("Error deleting task: " +:+ exn_str e))).

End CLI.

(** * Vocabulary of the properties *)

(** ** Sample worlds *)

(** The clock of the sample worlds. *)
Definition sample_clock (n : nat) : datetime :=
  mk_datetime 2025 1 1 9 0 (Z.of_nat n) 0.

(** The ids the generator hands out in the sample worlds. *)
Definition sample_uuid (n : nat) : string :=
  match n with
  | O => "abcdefgh-0000-4000-8000-000000000001"
  | 1%nat => "0c0ffee0-0000-4000-8000-000000000002"
  | 2%nat => "ABCDEFGH-0000-4000-8000-000000000003"
  | _ => "deadbeef-0000-4000-8000-000000000004"
  end.

(** What the unallocated locations of the sample worlds hold. *)
Definition blank_task : Task :=
  mk_Task "" "" "" (mk_datetime 1 1 1 0 0 0 0) "" "" (mk_datetime 1 1 1 0 0 0 0).

(** No object, a live and empty store, an empty manager. *)
Definition empty_world : World :=
  mk_World (fun _ => blank_task) 0 true None [] [] [] sample_clock 0 sample_uuid 0.

(** A store nobody answers at, behind a manager that still caches one task. *)
Definition offline_world : World :=
  mk_World
    (fun _ => mk_Task "0c0ffee0" "Write report" "" (mk_datetime 2024 1 10 0 0 0 0)
                      "High" "Pending" (mk_datetime 2024 1 1 8 0 0 0))
    1 false None [] [("0c0ffee0", 0%nat)] [0%nat] sample_clock 0 sample_uuid 0.

(** A cache of two tasks, the second of which has the empty string as id. *)
Definition empty_id_world : World :=
  mk_World
    (fun l => match l with
              | O => mk_Task "a1" "First" "" (mk_datetime 2024 1 10 0 0 0 0)
                             "High" "Pending" (mk_datetime 2024 1 1 8 0 0 0)
              | _ => mk_Task "" "Second" "" (mk_datetime 2024 1 11 0 0 0 0)
                             "Low" "Pending" (mk_datetime 2024 1 2 8 0 0 0)
              end)
    2 true None [] [("a1", 0%nat); ("", 1%nat)] [0%nat; 1%nat]
    sample_clock 0 sample_uuid 0.

(** The cache after two tasks were added to an empty store. *)
Definition two_task_world : World :=
  snd (TaskManager.add_task "Pay rent" "" (mk_datetime 2024 1 5 0 0 0 0) "medium" None
    (snd (TaskManager.add_task "Write report" "draft" (mk_datetime 2024 1 10 0 0 0 0)
            "High" None empty_world))).

(** The three tasks of the scenario of the specification: T1 (High, due on the
    10th), T2 (Low, due on the 5th), T3 (High, due on the 1st), added in this
    order to an empty store. *)
Definition three_task_world : World :=
  snd (TaskManager.add_task "T3" "" (mk_datetime 2024 1 1 0 0 0 0) "High" None
    (snd (TaskManager.add_task "T2" "" (mk_datetime 2024 1 5 0 0 0 0) "Low" None
      (snd (TaskManager.add_task "T1" "" (mk_datetime 2024 1 10 0 0 0 0) "High" None
              empty_world))))).

(** ** Frames *)

(** [allocates w w'] holds when [w'] differs from [w] by new objects and clock
    draws only: every object of [w] is intact, and so are the store and the
    manager's containers. *)
Record allocates (w w' : World) : Prop := mk_allocates {
  al_next : (heap_next w <= heap_next w')%nat;
  al_heap : forall l, (l < heap_next w)%nat -> heap w' l = heap w l;
  al_alive : db_alive w' = db_alive w;
  al_fault : db_fault w' = db_fault w;
  al_collection : db_collection w' = db_collection w;
  al_tasks : _tasks w' = _tasks w;
  al_task_list : _task_list w' = _task_list w;
  al_clock : clock w' = clock w;
  al_uuid_src : uuid_src w' = uuid_src w;
  al_uuid_pos : uuid_pos w' = uuid_pos w
}.

(** [cache_only w w'] holds when [w'] differs from [w] in the manager's two
    containers only. *)
Record cache_only (w w' : World) : Prop := mk_cache_only {
  co_heap : heap w' = heap w;
  co_next : heap_next w' = heap_next w;
  co_alive : db_alive w' = db_alive w;
  co_fault : db_fault w' = db_fault w;
  co_collection : db_collection w' = db_collection w;
  co_clock : clock w' = clock w;
  co_clock_pos : clock_pos w' = clock_pos w;
  co_uuid_src : uuid_src w' = uuid_src w;
  co_uuid_pos : uuid_pos w' = uuid_pos w
}.

(** [mutates task f w w'] holds when [w'] is [w] with the object at [task]
    replaced by [f] of it: no other object, and nothing of the store or of the
    manager's containers, differs. *)
Record mutates (task : loc) (f : Task -> Task) (w w' : World) : Prop := mk_mutates {
  mu_here : heap w' task = f (heap w task);
  mu_others : forall l, l <> task -> heap w' l = heap w l;
  mu_next : heap_next w' = heap_next w;
  mu_alive : db_alive w' = db_alive w;
  mu_fault : db_fault w' = db_fault w;
  mu_collection : db_collection w' = db_collection w;
  mu_tasks : _tasks w' = _tasks w;
  mu_task_list : _task_list w' = _task_list w;
  mu_clock : clock w' = clock w;
  mu_clock_pos : clock_pos w' = clock_pos w;
  mu_uuid_src : uuid_src w' = uuid_src w;
  mu_uuid_pos : uuid_pos w' = uuid_pos w
}.

(** [store_only w w'] holds when [w'] differs from [w] in the collection of the
    store only. *)
Record store_only (w w' : World) : Prop := mk_store_only {
  so_heap : heap w' = heap w;
  so_next : heap_next w' = heap_next w;
  so_alive : db_alive w' = db_alive w;
  so_fault : db_fault w' = db_fault w;
  so_tasks : _tasks w' = _tasks w;
  so_task_list : _task_list w' = _task_list w;
  so_clock : clock w' = clock w;
  so_clock_pos : clock_pos w' = clock_pos w;
  so_uuid_src : uuid_src w' = uuid_src w;
  so_uuid_pos : uuid_pos w' = uuid_pos w
}.

(** ** Loading and resolving *)

(** The loop of [load_tasks_from_db]. *)
Definition load_entry (task : loc) : M unit :=
  t ← read task;
  modify (fun w => with_tasks (PyDict.setitem (_task_id t) task (_tasks w)) w) ;;
  modify (fun w => with_task_list (_task_list w ++ [task]) w).

(** An entry does not match the text [p]. *)
Definition no_partial (p : string) (item : string * loc) : Prop :=
  Str.startswith (Str.lower (fst item)) (Str.lower p) = false.

(** ** Filtering *)

(** A priority or status criterion as [filter_tasks] takes it into account:
    [None] and the empty string are skipped, any other text goes through the
    validator, which normalises it or raises. *)
Definition criterion (validate : string -> outcome string) (c : option string)
  : outcome (option string) :=
  match c with
  | Some s =>
      if Str.truthy s
      then match validate s with
           | Return v => Return (Some v)
           | Raise e => Raise e
           end
      else Return None
  | None => Return None
  end.

(** The conjunction of the predicates of the criteria that are given. *)
Definition selects (priority status : option string)
    (due_date due_date_before due_date_after : option datetime) (t : Task) : bool :=
  match priority with Some p => String.eqb (_priority t) p | None => true end
  && match status with Some s => String.eqb (_status t) s | None => true end
  && match due_date with
     | Some d => bool_decide (date_of (_due_date t) = date_of d)
     | None => true
     end
  && match due_date_before with
     | Some d => datetime_ltb (_due_date t) d
     | None => true
     end
  && match due_date_after with
     | Some d => datetime_ltb d (_due_date t)
     | None => true
     end.

(** ** Updating

    [update_task] is the sequence of five blocks, one per field, followed by
    the write-through; [update_task_blocks] below shows that this reading is
    the definition of the method. *)

(** The fields a request may assign. *)
Inductive field := FTitle | FDescription | FDueDate | FPriority | FStatus.

#[global] Instance field_eq_dec : EqDecision field.
Proof. solve_decision. Defined.

(** The order in which [update_task] handles them. *)
Definition update_order : list field :=
  [FTitle; FDescription; FDueDate; FPriority; FStatus].

(** The five optional arguments of [update_task]. *)
Record updates := mk_updates {
  u_title : option string;
  u_description : option string;
  u_due_date : value;
  u_priority : option string;
  u_status : option string
}.

(** The key of a field in [update_data]. *)
Definition field_key (f : field) : string :=
  match f with
  | FTitle => "title"
  | FDescription => "description"
  | FDueDate => "due_date"
  | FPriority => "priority"
  | FStatus => "status"
  end.

(** The value of a field of a task. *)
Definition field_value (f : field) (t : Task) : value :=
  match f with
  | FTitle => VStr (_title t)
  | FDescription => VStr (_description t)
  | FDueDate => VDatetime (_due_date t)
  | FPriority => VStr (_priority t)
  | FStatus => VStr (_status t)
  end.

(** The block of [update_task] for the field [f]: it validates the new value
    if one is given, assigns it through the setter of the record and notes the
    assigned value in [update_data]. *)
Definition update_block (u : updates) (task : loc) (f : field)
    (update_data : document) : M document :=
  match f with
  | FTitle =>
      match u_title u with
      | Some title =>
          v ← lift (Validators.validate_title title);
          Task_set_title task v ;;
          t ← read task;
          mret (<["title" := VStr (_title t)]> update_data)
      | None => mret update_data
      end
  | FDescription =>
      match u_description u with
      | Some description =>
          Task_set_description task
            (Validators.validate_description (Some description)) ;;
          t ← read task;
          mret (<["description" := VStr (_description t)]> update_data)
      | None => mret update_data
      end
  | FDueDate =>
      match u_due_date u with
      | VNone => mret update_data
      | _ =>
          Task_set_due_date task (u_due_date u) ;;
          mret (<["due_date" := u_due_date u]> update_data)
      end
  | FPriority =>
      match u_priority u with
      | Some priority =>
          v ← lift (Validators.validate_priority priority);
          Task_set_priority task v ;;
          t ← read task;
          mret (<["priority" := VStr (_priority t)]> update_data)
      | None => mret update_data
      end
  | FStatus =>
      match u_status u with
      | Some status =>
          v ← lift (Validators.validate_status status);
          Task_set_status task v ;;
          t ← read task;
          mret (<["status" := VStr (_status t)]> update_data)
      | None => mret update_data
      end
  end.

(** The blocks for the fields [fs], one after the other, then [k]. *)
Fixpoint update_blocks (u : updates) (task : loc) (fs : list field)
    (update_data : document) (k : document -> M bool) : M bool :=
  match fs with
  | [] => k update_data
  | f :: fs' =>
      update_data' ← update_block u task f update_data;
      update_blocks u task fs' update_data' k
  end.

(** The write-through that ends [update_task]. *)
Definition update_finish (full_task_id : string) (update_data : document) : M bool :=
  try_except
    ((if bool_decide (update_data ≠ ∅)
      then DatabaseHandler.update_task full_task_id update_data ;; mret tt
      else mret tt) ;;
     mret true)
    (fun e => raise (Exception ("Database error: " +:+ exn_str e))).

(** What the validation of field [f] of a request comes to: nothing when the
    field is not given, the error when the new value is rejected, and the
    assignment to perform when it is accepted. *)
Definition validation (u : updates) (f : field) : option (outcome (Task -> Task)) :=
  match f with
  | FTitle =>
      match u_title u with
      | Some title =>
          Some (match Validators.validate_title title with
                | Return v => Return (set_title v)
                | Raise e => Raise e
                end)
      | None => None
      end
  | FDescription =>
      match u_description u with
      | Some description =>
          Some (Return (set_description
                          (Validators.validate_description (Some description))))
      | None => None
      end
  | FDueDate =>
      match u_due_date u with
      | VNone => None
      | VDatetime d => Some (Return (set_due_date d))
      | VStr _ => Some (Raise (TypeError "Due date must be a datetime object"))
      end
  | FPriority =>
      match u_priority u with
      | Some priority =>
          Some (match Validators.validate_priority priority with
                | Return v => Return (set_priority v)
                | Raise e => Raise e
                end)
      | None => None
      end
  | FStatus =>
      match u_status u with
      | Some status =>
          Some (match Validators.validate_status status with
                | Return v => Return (set_status v)
                | Raise e => Raise e
                end)
      | None => None
      end
  end.

(** Field [f] of the request is not rejected: it is absent or valid. *)
Definition passes (u : updates) (f : field) : Prop :=
  match validation u f with
  | Some (Raise _) => False
  | _ => True
  end.

(** The object after the accepted ones among the fields [fs] were assigned. *)
Definition applied (u : updates) (fs : list field) (t : Task) : Task :=
  foldl (fun t f => match validation u f with
                    | Some (Return set) => set t
                    | _ => t
                    end) t fs.

(** ** Sorting *)

(** Two keys of one type, as one sort produces them. *)
Definition same_kind (a b : sort_key) : Prop :=
  match a, b with
  | KInt _, KInt _ | KStr _, KStr _ | KDatetime _, KDatetime _ => True
  | _, _ => False
  end.

(** [a] may stand before [b] in ascending order: not [key b < key a]. *)
Definition ascending {A : Type} (key : A -> sort_key) (a b : A) : Prop :=
  key_ltb (key b) (key a) = false.

(** [a] may stand before [b] in descending order: not [key a < key b]. *)
Definition descending {A : Type} (key : A -> sort_key) (a b : A) : Prop :=
  key_ltb (key a) (key b) = false.

(** Elements that carry the key [k] keep their order. *)
Definition has_key {A : Type} (key : A -> sort_key) (k : sort_key) (a : A) : bool :=
  bool_decide (key a = k).

(** The ranks by which priorities and statuses compare; a text outside the
    table has rank 0. *)
Definition priority_rank (p : string) : Z :=
  if String.eqb p "High" then 3
  else if String.eqb p "Medium" then 2
  else if String.eqb p "Low" then 1
  else 0.

(** Likewise for the statuses. *)
Definition status_rank (s : string) : Z :=
  if String.eqb s "Pending" then 1
  else if String.eqb s "In Progress" then 2
  else if String.eqb s "Completed" then 3
  else 0.

(** [a] is not after [b] in the order of the field [sort_by]: by rank for
    priority and status, by the lowered text for the title, by time for the two
    date-times. *)
Definition key_le (sort_by : string) (a b : Task) : Prop :=
  if String.eqb sort_by "priority"
  then priority_rank (_priority a) <= priority_rank (_priority b)
  else if String.eqb sort_by "status"
  then status_rank (_status a) <= status_rank (_status b)
  else if String.eqb sort_by "title"
  then Str.ltb (Str.lower (_title b)) (Str.lower (_title a)) = false
  else if String.eqb sort_by "due_date"
  then datetime_ltb (_due_date b) (_due_date a) = false
  else datetime_ltb (_created_at b) (_created_at a) = false.

(** ** The cache invariant *)

(** The unique index of the collection: no two documents agree on [task_id]. *)
Definition store_unique (c : list document) : Prop :=
  NoDup (map DatabaseHandler.doc_key c).

(** What C9 asks of the two containers: every task of the list is the object
    the dictionary holds under its id; every entry of the dictionary is in the
    list, which holds no object twice; the dictionary has as many entries, each
    under a key of its own, as the list has tasks. *)
Definition cache_consistent (w : World) : Prop :=
  (forall task, task ∈ _task_list w ->
     PyDict.getitem (_task_id (heap w task)) (_tasks w) = Some task) /\
  (forall k task, PyDict.getitem k (_tasks w) = Some task -> task ∈ _task_list w) /\
  NoDup (_task_list w) /\
  NoDup (PyDict.keys (_tasks w)) /\
  length (_tasks w) = length (_task_list w).

(** The invariant that the operations maintain: the list is the values of the
    dictionary in its order, every entry sits under the id of its object, the
    keys are distinct and each is the id of a document of the store, whose
    index holds. *)
Record cache_inv (w : World) : Prop := mk_cache_inv {
  inv_list : _task_list w = PyDict.values (_tasks w);
  inv_ids : Forall (fun item => _task_id (heap w (snd item)) = fst item) (_tasks w);
  inv_alloc : Forall (fun item => (snd item < heap_next w)%nat) (_tasks w);
  inv_keys : NoDup (PyDict.keys (_tasks w));
  inv_store : store_unique (db_collection w);
  inv_sub : forall k, k ∈ PyDict.keys (_tasks w) ->
                      VStr k ∈ map DatabaseHandler.doc_key (db_collection w)
}.

(** The operations of the manager that change something. *)
Inductive operation :=
| Load
| Add (title description : string) (due_date : datetime) (priority : string)
      (status : option string)
| Update (task_id : string) (u : updates)
| MarkCompleted (task_id : string)
| Delete (task_id : string).

(** The world after an operation, whether it returned or raised. *)
Definition perform (op : operation) (w : World) : World :=
  match op with
  | Load => snd (TaskManager.load_tasks_from_db w)
  | Add title description due_date priority status =>
      snd (TaskManager.add_task title description due_date priority status w)
  | Update task_id u =>
      snd (TaskManager.update_task task_id (u_title u) (u_description u)
             (u_due_date u) (u_priority u) (u_status u) w)
  | MarkCompleted task_id => snd (TaskManager.mark_completed task_id w)
  | Delete task_id => snd (TaskManager.delete_task task_id w)
  end.

(** The connection to the server comes and goes between two operations. *)
Definition with_connection (alive : bool) (fault : option string) (w : World) : World :=
  mk_World (heap w) (heap_next w) alive fault (db_collection w) (_tasks w)
           (_task_list w) (clock w) (clock_pos w) (uuid_src w) (uuid_pos w).

(** The worlds of a manager constructed over a store whose collection respects
    its unique index, after any number of operations. *)
Inductive reachable : World -> Prop :=
| reach_init w :
    store_unique (db_collection w) -> reachable (snd (TaskManager.init w))
| reach_perform w op :
    reachable w -> reachable (perform op w)
| reach_connection w alive fault :
    reachable w -> reachable (with_connection alive fault w).

(** A session: two tasks added, the store reloaded, the first task completed
    through its 8-character prefix, the second deleted, a third added while
    the server is down. *)
Definition session : list operation :=
  [Add "Write report" "draft" (mk_datetime 2024 1 10 0 0 0 0) "High" None;
   Add "Pay rent" "" (mk_datetime 2024 1 5 0 0 0 0) "medium" None;
   Load;
   MarkCompleted "ABCDEFGH";
   Delete "0c0ffee0"].

(** The world after the session and one more [add_task] with the server down. *)
Definition session_world : World :=
  perform (Add "Call plumber" "" (mk_datetime 2024 2 1 0 0 0 0) "low" None)
    (with_connection false None
       (foldl (fun w op => perform op w) (snd (TaskManager.init empty_world)) session)).

(** ** Further vocabulary *)

(** Every character of [s] is whitespace ([s] may be empty). *)
Fixpoint all_space (s : string) : bool :=
  match s with
  | EmptyString => true
  | String c s' => Str.is_space c && all_space s'
  end.

(** A task as the setters leave it: a title that is not empty and carries no
    surrounding whitespace, a priority and a status of the closed sets. *)
Definition valid_task (t : Task) : Prop :=
  _title t <> "" /\ Str.strip (_title t) = _title t /\
  _priority t ∈ VALID_PRIORITIES /\ _status t ∈ VALID_STATUSES.

(** The exceptions the handler raises itself. *)
Definition handler_error (e : exn) : Prop :=
  match e with
  | ConnectionError _ | ValueError _ | Exception _ => True
  | _ => False
  end.

(** The values a document gives to the five required fields have the types
    the constructor is annotated with. *)
Definition typed_as_annotated (data : document) : Prop :=
  (forall k v, k ∈ ["task_id"; "title"; "description"; "priority"] ->
               data !! k = Some v -> exists s, v = VStr s) /\
  (forall v, data !! "due_date" = Some v -> exists d, v = VDatetime d).

(** The keys [from_dict] reads with [data[k]], in the order it reads them. *)
Definition required_keys : list string :=
  ["task_id"; "title"; "description"; "due_date"; "priority"].

(** A task constructed but not yet stored, over an empty store. *)
Definition unsaved_task_world : World :=
  snd (Task_init "id-9" "Water plants" "" (mk_datetime 2024 3 1 0 0 0 0) "Low"
         None None empty_world).

(** * Properties *)

(** ** Running the monad *)

Ltac unfold_M :=
  unfold mbind, M_bind, mret, M_ret, raise, lift, get, modify, try_except,
    read, write, alloc, datetime_now, uuid4 in *.

Lemma bind_Return {A B} (m : M A) (f : A -> M B) w a w' :
  m w = (Return a, w') -> (m ≫= f) w = f a w'.
Proof. unfold mbind, M_bind. intros ->. reflexivity. Qed.

Lemma bind_Raise {A B} (m : M A) (f : A -> M B) w e w' :
  m w = (Raise e, w') -> (m ≫= f) w = (Raise e, w').
Proof. unfold mbind, M_bind. intros ->. reflexivity. Qed.

(** ** The Task record (C2, C7) *)

(** C2, as the code has it: the constructor validates nothing.  It returns a
    new object whose fields are the arguments as given; an omitted status is
    ["Pending"], an omitted creation time is the time of the call.  No other
    object changes. *)
Theorem Task_init_stores_arguments
    (task_id title description : string) (due_date : datetime)
    (priority : string) (status : option string) (created_at : option datetime)
    (w : World) :
  exists w',
    Task_init task_id title description due_date priority status created_at w
      = (Return (heap_next w), w') /\
    heap w' (heap_next w)
      = mk_Task task_id title description due_date priority
          (match status with Some s => s | None => "Pending" end)
          (match created_at with Some c => c | None => clock w (clock_pos w) end) /\
    (forall l, l <> heap_next w -> heap w' l = heap w l) /\
    db_collection w' = db_collection w /\
    _tasks w' = _tasks w /\ _task_list w' = _task_list w.
Proof.
  unfold Task_init. destruct created_at as [c|]; destruct status as [s|];
    unfold_M; simpl; eexists; (split; [reflexivity|]); simpl;
    rewrite fn_lookup_insert; repeat split; try reflexivity;
    intros l Hl; rewrite fn_lookup_insert_ne; congruence.
Qed.

(** C2 as stated fails: a Task with an empty title and a priority outside
    {Low, Medium, High} is constructed without error. *)
Lemma Task_init_accepts_invalid_fields :
  exists l w',
    Task_init "id-1" "" "" (mk_datetime 2024 1 10 0 0 0 0) "Urgent" None None
      empty_world = (Return l, w') /\
    _title (heap w' l) = "" /\
    (_priority (heap w' l) ∉ VALID_PRIORITIES) /\
    _status (heap w' l) = "Pending".
Proof.
  eexists _, _. split; [reflexivity|]. simpl. repeat split.
  unfold VALID_PRIORITIES. rewrite !elem_of_cons, elem_of_nil.
  intros [H|[H|[H|[]]]]; discriminate H.
Qed.

Lemma to_dict_fields_lookups (t : Task) :
  to_dict_fields t !! "task_id" = Some (VStr (_task_id t)) /\
  to_dict_fields t !! "title" = Some (VStr (_title t)) /\
  to_dict_fields t !! "description" = Some (VStr (_description t)) /\
  to_dict_fields t !! "due_date" = Some (VDatetime (_due_date t)) /\
  to_dict_fields t !! "priority" = Some (VStr (_priority t)) /\
  to_dict_fields t !! "status" = Some (VStr (_status t)) /\
  to_dict_fields t !! "created_at" = Some (VDatetime (_created_at t)).
Proof. repeat split; reflexivity. Qed.

(** C7: [Task.from_dict(task.to_dict())] is a new object equal to [task] in
    [task_id], [title], [description], [due_date], [priority], [status] and
    [created_at]; the date-times are the very same values.  Neither call
    changes another object or raises. *)
Theorem from_dict_to_dict_roundtrip (w : World) (task : loc) :
  exists data task' w',
    Task_to_dict task w = (Return data, w) /\
    Task_from_dict data w = (Return task', w') /\
    heap w' task' = heap w task /\
    (forall l, l <> task' -> heap w' l = heap w l).
Proof.
  exists (to_dict_fields (heap w task)), (heap_next w).
  destruct (to_dict_fields_lookups (heap w task))
    as (Hid & Hti & Hde & Hdu & Hpr & Hst & Hcr).
  eexists. split; [reflexivity|].
  unfold Task_from_dict, item_str, item_datetime.
  rewrite Hid, Hti, Hde, Hdu, Hpr, Hst, Hcr.
  unfold Task_init. unfold_M. simpl. split; [reflexivity|]. simpl.
  rewrite fn_lookup_insert. split.
  - destruct (heap w task); reflexivity.
  - intros l Hl. rewrite fn_lookup_insert_ne; congruence.
Qed.

(** ** Frames *)

Lemma allocates_refl w : allocates w w.
Proof. constructor; auto. Qed.

Lemma allocates_trans w1 w2 w3 :
  allocates w1 w2 -> allocates w2 w3 -> allocates w1 w3.
Proof.
  intros [] []. constructor; try congruence; try lia.
  intros l Hl. rewrite al_heap1 by lia. auto.
Qed.

Lemma Task_init_allocates task_id title description due_date priority status
    created_at w :
  exists w',
    Task_init task_id title description due_date priority status created_at w
      = (Return (heap_next w), w') /\
    allocates w w' /\ heap_next w' = S (heap_next w) /\
    _task_id (heap w' (heap_next w)) = task_id.
Proof.
  unfold Task_init. destruct created_at; unfold_M; simpl;
    eexists; (split; [reflexivity|]); simpl; rewrite fn_lookup_insert;
    (split; [|split; reflexivity]);
    (constructor; simpl; auto; intros l Hl; apply fn_lookup_insert_ne; lia).
Qed.

Lemma Task_from_dict_allocates data w o w' :
  Task_from_dict data w = (o, w') ->
  allocates w w' /\
  match o with
  | Return l =>
      l = heap_next w /\ heap_next w' = S l /\
      data !! "task_id" = Some (VStr (_task_id (heap w' l)))
  | Raise _ => True
  end.
Proof.
  unfold Task_from_dict, item_str, item_datetime. unfold_M.
  destruct (data !! "task_id") as [[tid| |]|]; simpl;
    try (intros [= <- <-]; split; [apply allocates_refl|exact I]).
  destruct (data !! "title") as [[ti| |]|]; simpl;
    try (intros [= <- <-]; split; [apply allocates_refl|exact I]).
  destruct (data !! "description") as [[de| |]|]; simpl;
    try (intros [= <- <-]; split; [apply allocates_refl|exact I]).
  destruct (data !! "due_date") as [[| du |]|]; simpl;
    try (intros [= <- <-]; split; [apply allocates_refl|exact I]).
  destruct (data !! "priority") as [[pr| |]|]; simpl;
    try (intros [= <- <-]; split; [apply allocates_refl|exact I]).
  destruct (data !! "status") as [[st| |]|]; simpl;
    try (intros [= <- <-]; split; [apply allocates_refl|exact I]).
  all: destruct (data !! "created_at") as [[[|c0 cr]| cd |]|]; simpl;
    try (intros [= <- <-]; split; [apply allocates_refl|exact I]).
  all: match goal with
       | |- Task_init ?a ?b ?c ?d ?e ?f ?g ?w = _ -> _ =>
           destruct (Task_init_allocates a b c d e f g w) as (w1 & -> & Hal & Hn & Hid)
       end.
  all: intros [= <- <-]; split; [exact Hal|]; rewrite Hid; auto.
Qed.

Lemma cache_only_refl w : cache_only w w.
Proof. constructor; auto. Qed.

Lemma scan_allocates (c : list document) : forall w o w',
  map_M (fun result => Task_from_dict (delete "_id" result)) c w = (o, w') ->
  allocates w w' /\
  match o with
  | Return tasks =>
      tasks = seq (heap_next w) (length c) /\
      heap_next w' = (heap_next w + length c)%nat /\
      Forall2 (fun l d => d !! "task_id" = Some (VStr (_task_id (heap w' l))))
              tasks c
  | Raise _ => True
  end.
Proof.
  induction c as [|d c IH]; intros w o w'; simpl.
  - unfold_M. intros [= <- <-]. split; [apply allocates_refl|].
    repeat split; auto with lia.
  - unfold mbind at 1, M_bind at 1.
    destruct (Task_from_dict (delete "_id" d) w) as [[l|e] w1] eqn:Hd;
      apply Task_from_dict_allocates in Hd as [Hal Hd].
    + destruct Hd as (-> & Hn & Hid).
      unfold mbind at 1, M_bind at 1.
      destruct (map_M _ c w1) as [[ls|e] w2] eqn:Hc;
        apply IH in Hc as [Hal2 Hc].
      * unfold_M. intros [= <- <-]. split; [eapply allocates_trans; eauto|].
        destruct Hc as (-> & Hn2 & Hids). rewrite Hn in *.
        split; [reflexivity|]. split; [lia|].
        constructor; [|exact Hids].
        rewrite (al_heap _ _ Hal2) by lia.
        rewrite lookup_delete_ne in Hid by discriminate. exact Hid.
      * intros [= <- <-]. split; [eapply allocates_trans; eauto|exact I].
    + intros [= <- <-]. split; [exact Hal|exact I].
Qed.

Lemma get_all_tasks_allocates w o w' :
  DatabaseHandler.get_all_tasks w = (o, w') ->
  allocates w w' /\
  match o with
  | Return tasks =>
      tasks = seq (heap_next w) (length (db_collection w)) /\
      heap_next w' = (heap_next w + length (db_collection w))%nat /\
      Forall2 (fun l d => d !! "task_id" = Some (VStr (_task_id (heap w' l))))
              tasks (db_collection w)
  | Raise _ => True
  end.
Proof.
  unfold DatabaseHandler.get_all_tasks, DatabaseHandler.is_connected,
    DatabaseHandler.find, DatabaseHandler.on_server.
  unfold_M. destruct (db_alive w); simpl.
  - destruct (db_fault w) as [msg|]; simpl.
    + intros [= <- <-]. split; [apply allocates_refl|exact I].
    + destruct (map_M _ (db_collection w) w) as [[ls|e] w1] eqn:Hc;
        apply scan_allocates in Hc as [Hal Hc]; intros [= <- <-]; auto.
  - intros [= <- <-]. split; [apply allocates_refl|exact I].
Qed.

(** *** The dictionary *)

Lemma getitem_setitem {V} (k k' : string) (v : V) d :
  PyDict.getitem k (PyDict.setitem k' v d)
  = if String.eqb k' k then Some v else PyDict.getitem k d.
Proof.
  induction d as [|[k0 v0] d IH]; simpl.
  - reflexivity.
  - destruct (String.eqb k0 k') eqn:E0; simpl.
    + apply String.eqb_eq in E0 as ->. destruct (String.eqb k' k); reflexivity.
    + destruct (String.eqb k0 k) eqn:E1; [|exact IH].
      apply String.eqb_eq in E1 as ->. rewrite String.eqb_sym, E0. reflexivity.
Qed.

Lemma load_entry_run task w :
  load_entry task w
  = (Return tt,
     with_task_list (_task_list w ++ [task])
       (with_tasks (PyDict.setitem (_task_id (heap w task)) task (_tasks w)) w)).
Proof. reflexivity. Qed.

Lemma load_loop (tasks : list loc) : forall w,
  exists w',
    for_each tasks load_entry w = (Return tt, w') /\
    cache_only w w' /\
    _task_list w' = _task_list w ++ tasks /\
    _tasks w'
    = foldl (fun d l => PyDict.setitem (_task_id (heap w l)) l d) (_tasks w) tasks.
Proof.
  induction tasks as [|x xs IH]; intros w.
  - exists w. simpl. rewrite app_nil_r. auto using cache_only_refl.
  - cbn [for_each]. erewrite bind_Return by apply load_entry_run.
    match goal with
    | |- context [for_each xs load_entry ?w1] =>
        destruct (IH w1) as (w' & -> & Hco & Hl & Hd)
    end.
    exists w'. split; [reflexivity|]. simpl in *.
    split; [destruct Hco; constructor; simpl in *; congruence|].
    rewrite Hl, Hd, <- app_assoc. auto.
Qed.


(** ** Loading the cache (C1) *)



(** ** Resolving an identifier (C4, C10) *)

Lemma startswith_empty s : Str.startswith s "" = true.
Proof. destruct s; reflexivity. Qed.

Lemma startswith_take n : forall s, Str.startswith s (Str.take n s) = true.
Proof.
  induction n as [|n IH]; intros [|c s]; simpl; auto.
  rewrite Ascii.eqb_refl. apply IH.
Qed.

Lemma lower_take n : forall s, Str.lower (Str.take n s) = Str.take n (Str.lower s).
Proof.
  induction n as [|n IH]; intros [|c s]; simpl; auto. rewrite IH. reflexivity.
Qed.

Lemma startswith_lower_take n s :
  Str.startswith (Str.lower s) (Str.lower (Str.take n s)) = true.
Proof. rewrite lower_take. apply startswith_take. Qed.

Lemma first_partial_spec p items :
  match TaskManager.first_partial (Str.lower p) items with
  | Some task =>
      exists before full_id after,
        items = before ++ (full_id, task) :: after /\
        Str.startswith (Str.lower full_id) (Str.lower p) = true /\
        Forall (no_partial p) before
  | None => Forall (no_partial p) items
  end.
Proof.
  induction items as [|[k l] items IH]; simpl.
  - constructor.
  - destruct (Str.startswith (Str.lower k) (Str.lower p)) eqn:E.
    + exists [], k, items. auto.
    + destruct (TaskManager.first_partial (Str.lower p) items) as [task|].
      * destruct IH as (before & full_id & after & -> & Hm & Hb).
        exists ((k, l) :: before), full_id, after. repeat split; auto.
      * constructor; auto.
Qed.

Lemma get_task_run task_id w :
  TaskManager.get_task task_id w
  = (Return (match PyDict.getitem task_id (_tasks w) with
             | Some task => Some task
             | None => TaskManager.first_partial (Str.lower task_id) (_tasks w)
             end), w).
Proof.
  unfold TaskManager.get_task, PyDict.contains. unfold_M.
  destruct (PyDict.getitem task_id (_tasks w)); reflexivity.
Qed.

Lemma getitem_Some_elem {V} k (v : V) d :
  PyDict.getitem k d = Some v -> (k, v) ∈ d.
Proof.
  induction d as [|[k0 v0] d IH]; simpl; [discriminate|].
  destruct (String.eqb k0 k) eqn:E.
  - apply String.eqb_eq in E as ->. intros [= ->]. left.
  - intros H. right. auto.
Qed.

Lemma getitem_None_key {V} k (d : list (string * V)) :
  PyDict.getitem k d = None -> k ∉ PyDict.keys d.
Proof.
  induction d as [|[k0 v0] d IH]; simpl.
  - intros _. apply not_elem_of_nil.
  - destruct (String.eqb k0 k) eqn:E; [discriminate|].
    intros H. apply not_elem_of_cons. split; [|auto].
    intros ->. rewrite String.eqb_refl in E. discriminate.
Qed.

(** In a dictionary split at an entry [(k, v)] that no earlier entry shares
    its key with, [d[k]] is [v]. *)
Lemma getitem_split {V} k (v : V) before after :
  Forall (fun item => fst item <> k) before ->
  PyDict.getitem k (before ++ (k, v) :: after) = Some v.
Proof.
  induction 1 as [|[k0 v0] before Hne _ IH]; simpl.
  - rewrite String.eqb_refl. reflexivity.
  - destruct (String.eqb k0 k) eqn:E; [|exact IH].
    apply String.eqb_eq in E. contradiction.
Qed.

(** C4: [get_task] returns without changing anything.  An id that is a key of
    the dictionary resolves to its entry.  Any other text resolves to the first
    entry, in the insertion order of the dictionary, whose key starts with it
    once both are lowered, and to [None] only when no key does.  In
    particular the first [n] characters (say 8) of a cached id resolve to the
    task of that id when no other cached id starts with them. *)
Theorem get_task_spec (w : World) (task_id : string) :
  exists found,
    TaskManager.get_task task_id w = (Return found, w) /\
    (forall task, PyDict.getitem task_id (_tasks w) = Some task -> found = Some task) /\
    (PyDict.getitem task_id (_tasks w) = None ->
     match found with
     | Some task =>
         exists before full_id after,
           _tasks w = before ++ (full_id, task) :: after /\
           Str.startswith (Str.lower full_id) (Str.lower task_id) = true /\
           Forall (no_partial task_id) before
     | None => Forall (no_partial task_id) (_tasks w)
     end) /\
    (forall full_id task n,
       PyDict.getitem full_id (_tasks w) = Some task ->
       task_id = Str.take n full_id ->
       (forall k, k ∈ PyDict.keys (_tasks w) -> k <> full_id ->
                  Str.startswith (Str.lower k) (Str.lower task_id) = false) ->
       found = Some task).
Proof.
  eexists. split; [apply get_task_run|]. split; [|split].
  - intros task ->. reflexivity.
  - intros ->. apply first_partial_spec.
  - intros full_id task n Hfull -> Hothers.
    assert (Hself : Str.startswith (Str.lower full_id)
                      (Str.lower (Str.take n full_id)) = true)
      by apply startswith_lower_take.
    destruct (PyDict.getitem (Str.take n full_id) (_tasks w)) as [task'|] eqn:Hex.
    + (* the text is itself a cached id: it is [full_id] *)
      destruct (decide (Str.take n full_id = full_id)) as [Heq|Hne].
      * rewrite Heq in Hex. congruence.
      * apply getitem_Some_elem in Hex.
        assert (Hk : Str.take n full_id ∈ PyDict.keys (_tasks w)).
        { unfold PyDict.keys. apply list_elem_of_fmap. exists (Str.take n full_id, task'). auto. }
        specialize (Hothers _ Hk Hne).
        assert (Str.startswith (Str.lower (Str.take n full_id))
                  (Str.lower (Str.take n full_id)) = true).
        { clear. generalize (Str.lower (Str.take n full_id)).
          induction s; simpl; auto. rewrite Ascii.eqb_refl. auto. }
        congruence.
    + pose proof (first_partial_spec (Str.take n full_id) (_tasks w)) as Hfp.
      destruct (TaskManager.first_partial _ (_tasks w)) as [task'|].
      * destruct Hfp as (before & k & after & Hsplit & Hm & Hb).
        destruct (decide (k = full_id)) as [->|Hne].
        -- rewrite Hsplit in Hfull. rewrite getitem_split in Hfull; [congruence|].
           eapply Forall_impl; [exact Hb|]. intros [k0 v0] Hno. simpl. intros ->.
           unfold no_partial in Hno. simpl in Hno. congruence.
        -- assert (Hk : k ∈ PyDict.keys (_tasks w)).
           { rewrite Hsplit. unfold PyDict.keys. apply list_elem_of_fmap.
             exists (k, task'). split; [reflexivity|].
             apply elem_of_app. right. left. }
           specialize (Hothers _ Hk Hne). congruence.
      * apply getitem_Some_elem in Hfull.
        rewrite Forall_forall in Hfp. specialize (Hfp _ Hfull).
        unfold no_partial in Hfp. simpl in Hfp. congruence.
Qed.

(** C10 as stated fails on a cache that holds the empty string as an id: the
    exact lookup finds that task, which need not be the earliest inserted. *)
Lemma get_task_empty_string_exact_match :
  _tasks empty_id_world <> [] /\
  head (_task_list empty_id_world) = Some 0%nat /\
  TaskManager.get_task "" empty_id_world = (Return (Some 1%nat), empty_id_world).
Proof. repeat split. discriminate. Qed.

(** C10, as the code has it: when the empty string is not itself a cached id,
    [get_task("")] is [None] on an empty cache and the earliest-inserted task
    otherwise; [update_task] and [delete_task] addressed by the empty string
    then do exactly what they do when addressed by the id of that task. *)
Theorem get_task_empty_string (w : World) :
  PyDict.getitem "" (_tasks w) = None ->
  match _tasks w with
  | [] => TaskManager.get_task "" w = (Return None, w)
  | (full_id, task) :: _ =>
      TaskManager.get_task "" w = (Return (Some task), w) /\
      TaskManager.get_task full_id w = (Return (Some task), w) /\
      TaskManager.delete_task "" w = TaskManager.delete_task full_id w /\
      forall title description due_date priority status,
        TaskManager.update_task "" title description due_date priority status w
        = TaskManager.update_task full_id title description due_date priority status w
  end.
Proof.
  intros Hnone.
  assert (Hget : TaskManager.get_task "" w
                 = (Return (TaskManager.first_partial "" (_tasks w)), w)).
  { rewrite get_task_run, Hnone. reflexivity. }
  destruct (_tasks w) as [|[full_id task] rest] eqn:Hd; [exact Hget|].
  assert (Hfirst : TaskManager.get_task "" w = (Return (Some task), w)).
  { rewrite Hget. simpl. rewrite startswith_empty. reflexivity. }
  assert (Hfull : TaskManager.get_task full_id w = (Return (Some task), w)).
  { rewrite get_task_run, Hd. simpl. rewrite String.eqb_refl. reflexivity. }
  repeat split; auto.
  - unfold TaskManager.delete_task.
    rewrite (bind_Return _ _ _ _ _ Hfirst), (bind_Return _ _ _ _ _ Hfull).
    reflexivity.
  - intros. unfold TaskManager.update_task.
    rewrite (bind_Return _ _ _ _ _ Hfirst), (bind_Return _ _ _ _ _ Hfull).
    reflexivity.
Qed.

Lemma get_task_empty_string_witness :
  PyDict.getitem "" (_tasks two_task_world) = None /\
  TaskManager.get_task "" two_task_world = (Return (Some 0%nat), two_task_world).
Proof.
  split; [reflexivity|].
  exact (proj1 (get_task_empty_string two_task_world eq_refl)).
Defined.

(** ** Filtering (C6) *)

Lemma filter_filter_andb {A} (f g : A -> bool) l :
  List.filter g (List.filter f l) = List.filter (fun x => f x && g x) l.
Proof.
  induction l as [|x l IH]; simpl; [reflexivity|].
  destruct (f x); simpl; [destruct (g x)|]; rewrite IH; reflexivity.
Qed.

Lemma filter_true {A} (l : list A) : List.filter (fun _ => true) l = l.
Proof. induction l; simpl; congruence. Qed.

(** C6 as stated fails: a priority criterion outside the validator's
    vocabulary makes [filter_tasks] raise instead of returning the (empty)
    selection. *)
Lemma filter_tasks_rejects_unknown_priority :
  TaskManager.filter_tasks (Some "Urgent") None None None None two_task_world
  = (Raise (ValueError "Priority must be one of: Low, Medium, High"), two_task_world).
Proof. reflexivity. Qed.

(** C6, as the code has it.  A priority or status criterion that is [None] or
    empty is skipped; another one is normalised by its validator, and the call
    raises the validator's [ValueError] when it is rejected.  Otherwise
    [filter_tasks] returns exactly the entries of [_task_list], in its order,
    that satisfy the conjunction of the given predicates: priority and status
    equal to the normalised criterion, due date on the same calendar date,
    strictly before, strictly after.  Nothing is changed; with no criterion the
    result is the whole list. *)
Theorem filter_tasks_spec (w : World) (priority status : option string)
    (due_date due_date_before due_date_after : option datetime) :
  match criterion Validators.validate_priority priority with
  | Raise e =>
      TaskManager.filter_tasks priority status due_date due_date_before
        due_date_after w = (Raise e, w)
  | Return p =>
      match criterion Validators.validate_status status with
      | Raise e =>
          TaskManager.filter_tasks priority status due_date due_date_before
            due_date_after w = (Raise e, w)
      | Return s =>
          TaskManager.filter_tasks priority status due_date due_date_before
            due_date_after w
          = (Return (List.filter
                       (fun task => selects p s due_date due_date_before
                                      due_date_after (heap w task))
                       (_task_list w)), w)
      end
  end /\
  TaskManager.filter_tasks None None None None None w = (Return (_task_list w), w).
Proof.
  split; [|reflexivity].
  unfold TaskManager.filter_tasks, criterion, selects, TaskManager.comprehension.
  unfold_M.
  destruct priority as [p|]; [destruct (Str.truthy p);
    [destruct (Validators.validate_priority p) as [p'|e]; [|reflexivity]|]|];
  (destruct status as [s|]; [destruct (Str.truthy s);
    [destruct (Validators.validate_status s) as [s'|e']; [|reflexivity]|]|]);
  destruct due_date, due_date_before, due_date_after; simpl;
  rewrite ?filter_filter_andb; f_equal; f_equal;
  try (symmetry; apply filter_true);
  apply List.filter_ext; intros x;
  rewrite ?andb_true_r, ?andb_true_l, ?andb_assoc; reflexivity.
Qed.

(** ** Updating (C3, C8) *)

(** *** What the validators return *)

Lemma lstrip_head s :
  match Str.lstrip s with
  | EmptyString => True
  | String c _ => Str.is_space c = false
  end.
Proof.
  induction s as [|c s IH]; simpl; [exact I|].
  destruct (Str.is_space c) eqn:E; [exact IH|exact E].
Qed.

Lemma rstrip_idem s : Str.rstrip (Str.rstrip s) = Str.rstrip s.
Proof.
  induction s as [|c s IH]; simpl; [reflexivity|].
  destruct (Str.rstrip s) as [|d r] eqn:E.
  - destruct (Str.is_space c) eqn:Ec; simpl; [reflexivity|]. rewrite Ec. reflexivity.
  - simpl in *. rewrite IH. reflexivity.
Qed.

Lemma rstrip_head c s :
  Str.is_space c = false -> exists r, Str.rstrip (String c s) = String c r.
Proof.
  intros Hc. simpl. destruct (Str.rstrip s); [rewrite Hc|]; eauto.
Qed.

Lemma strip_idem s : Str.strip (Str.strip s) = Str.strip s.
Proof.
  unfold Str.strip. pose proof (lstrip_head s) as Hh.
  destruct (Str.lstrip s) as [|c r] eqn:E; [reflexivity|].
  destruct (rstrip_head c r Hh) as [r' Hr]. rewrite Hr.
  simpl Str.lstrip. rewrite Hh, <- Hr. apply rstrip_idem.
Qed.

Lemma validate_title_Return title v :
  Validators.validate_title title = Return v ->
  v = Str.strip title /\ Str.truthy v = true.
Proof.
  unfold Validators.validate_title.
  destruct (Str.truthy title); simpl; [|discriminate].
  destruct (Str.truthy (Str.strip title)) eqn:E; simpl; [|discriminate].
  intros [= <-]. auto.
Qed.

Lemma validate_priority_Return priority v :
  Validators.validate_priority priority = Return v -> v ∈ VALID_PRIORITIES.
Proof.
  unfold Validators.validate_priority, Validators.priority_map,
    Validators.valid_priorities, VALID_PRIORITIES.
  generalize (Str.lower (Str.strip priority)). intros s.
  rewrite !lookup_insert, lookup_empty.
  repeat case_decide; try (intros [= <-]; set_solver).
  cbn [find].
  repeat (match goal with
          | |- context [String.eqb ?a ?b] => destruct (String.eqb a b)
          end; try (intros [= <-]; set_solver)).
Qed.

Lemma validate_status_Return status v :
  Validators.validate_status status = Return v -> v ∈ VALID_STATUSES.
Proof.
  unfold Validators.validate_status, Validators.status_map,
    Validators.valid_statuses, VALID_STATUSES.
  generalize (Str.lower (Str.strip status)). intros s.
  rewrite !lookup_insert, lookup_empty.
  repeat case_decide; try (intros [= <-]; set_solver).
  cbn [find].
  repeat (match goal with
          | |- context [String.eqb ?a ?b] => destruct (String.eqb a b)
          end; try (intros [= <-]; set_solver)).
Qed.

Lemma mutates_refl task w : mutates task (fun t => t) w w.
Proof. constructor; auto. Qed.

Lemma mutates_trans task f g w1 w2 w3 :
  mutates task f w1 w2 -> mutates task g w2 w3 ->
  mutates task (fun t => g (f t)) w1 w3.
Proof.
  intros [] []. constructor; try congruence.
  intros l Hl. rewrite mu_others1, mu_others0; auto.
Qed.

Lemma write_mutates task f w :
  exists w', write task f w = (Return tt, w') /\ mutates task f w w'.
Proof.
  unfold write, modify. eexists. split; [reflexivity|].
  constructor; simpl; auto.
  - apply fn_lookup_insert.
  - intros l Hl. apply fn_lookup_insert_ne. congruence.
Qed.

(** *** The five blocks of [update_task] *)

(** The method is the sequence of its blocks followed by the write-through. *)
Lemma update_task_blocks task_id (u : updates) w :
  TaskManager.update_task task_id (u_title u) (u_description u) (u_due_date u)
    (u_priority u) (u_status u) w
  = (found ← TaskManager.get_task task_id;
     match found with
     | None => mret false
     | Some task =>
         t ← read task;
         update_blocks u task update_order ∅ (update_finish (_task_id t))
     end) w.
Proof. destruct u as [? ? [] ? ?]; reflexivity. Qed.

Lemma truthy_or_empty s : (if Str.truthy s then s else "") = s.
Proof. destruct s; reflexivity. Qed.

Lemma update_block_spec u task f update_data w :
  match validation u f with
  | None => update_block u task f update_data w = (Return update_data, w)
  | Some (Raise e) => update_block u task f update_data w = (Raise e, w)
  | Some (Return set) =>
      exists w',
        update_block u task f update_data w
        = (Return (<[field_key f := field_value f (set (heap w task))]> update_data), w') /\
        mutates task set w w'
  end.
Proof.
  destruct f; simpl.
  - destruct (u_title u) as [title|]; [|reflexivity].
    destruct (Validators.validate_title title) as [v|e] eqn:Hv; [|reflexivity].
    apply validate_title_Return in Hv as [Hv Ht].
    assert (Hs : Str.strip v = v) by (rewrite Hv; apply strip_idem).
    destruct (write_mutates task (set_title v) w) as (w' & Hw & Hm).
    exists w'. split; [|exact Hm].
    unfold lift. erewrite bind_Return by reflexivity. cbv beta.
    unfold Task_set_title. rewrite Hs, Ht. cbn [negb orb].
    erewrite bind_Return by exact Hw.
    unfold read, get. erewrite bind_Return by reflexivity.
    rewrite (mu_here _ _ _ _ Hm). reflexivity.
  - destruct (u_description u) as [description|]; [|reflexivity].
    destruct (write_mutates task
                (set_description (Validators.validate_description (Some description))) w)
      as (w' & Hw & Hm).
    exists w'. split; [|exact Hm].
    unfold Task_set_description. rewrite truthy_or_empty.
    erewrite bind_Return by exact Hw.
    unfold read, get. erewrite bind_Return by reflexivity.
    rewrite (mu_here _ _ _ _ Hm). reflexivity.
  - destruct (u_due_date u) as [s|d|]; [reflexivity| |reflexivity].
    destruct (write_mutates task (set_due_date d) w) as (w' & Hw & Hm).
    exists w'. split; [|exact Hm].
    unfold Task_set_due_date.
    erewrite bind_Return by exact Hw. reflexivity.
  - destruct (u_priority u) as [priority|]; [|reflexivity].
    destruct (Validators.validate_priority priority) as [v|e] eqn:Hv; [|reflexivity].
    apply validate_priority_Return in Hv.
    destruct (write_mutates task (set_priority v) w) as (w' & Hw & Hm).
    exists w'. split; [|exact Hm].
    unfold lift. erewrite bind_Return by reflexivity. cbv beta.
    unfold Task_set_priority. rewrite (bool_decide_eq_true_2 _ Hv).
    erewrite bind_Return by exact Hw.
    unfold read, get. erewrite bind_Return by reflexivity.
    rewrite (mu_here _ _ _ _ Hm). reflexivity.
  - destruct (u_status u) as [status|]; [|reflexivity].
    destruct (Validators.validate_status status) as [v|e] eqn:Hv; [|reflexivity].
    apply validate_status_Return in Hv.
    destruct (write_mutates task (set_status v) w) as (w' & Hw & Hm).
    exists w'. split; [|exact Hm].
    unfold lift. erewrite bind_Return by reflexivity. cbv beta.
    unfold Task_set_status. rewrite (bool_decide_eq_true_2 _ Hv).
    erewrite bind_Return by exact Hw.
    unfold read, get. erewrite bind_Return by reflexivity.
    rewrite (mu_here _ _ _ _ Hm). reflexivity.
Qed.

(** *** A rejected field (C3) *)

Lemma mutates_ext task f g w w' :
  (forall t, f t = g t) -> mutates task f w w' -> mutates task g w w'.
Proof. intros Hfg []. constructor; auto. rewrite <- Hfg. auto. Qed.

Lemma update_blocks_fail u task k f after e : forall before update_data w,
  Forall (passes u) before ->
  validation u f = Some (Raise e) ->
  exists w',
    update_blocks u task (before ++ f :: after) update_data k w = (Raise e, w') /\
    mutates task (applied u before) w w'.
Proof.
  induction before as [|b before IH]; intros update_data w Hpass Hf.
  - exists w. simpl. pose proof (update_block_spec u task f update_data w) as Hb.
    rewrite Hf in Hb. erewrite bind_Raise by exact Hb.
    split; [reflexivity|apply mutates_refl].
  - apply Forall_cons in Hpass as [Hb Hpass]. unfold passes in Hb.
    pose proof (update_block_spec u task b update_data w) as Hrun.
    simpl. destruct (validation u b) as [[set|e']|] eqn:Hv; [|contradiction|].
    + destruct Hrun as (w1 & Hrun & Hm1).
      erewrite bind_Return by exact Hrun.
      match goal with
      | |- context [update_blocks u task _ ?d k w1] =>
          destruct (IH d w1 Hpass Hf) as (w' & -> & Hm2)
      end.
      exists w'. split; [reflexivity|].
      eapply mutates_ext; [|eapply mutates_trans; eauto].
      intros t. unfold applied. simpl. rewrite Hv. reflexivity.
    + erewrite bind_Return by exact Hrun.
      destruct (IH update_data w Hpass Hf) as (w' & -> & Hm2).
      exists w'. split; [reflexivity|].
      eapply mutates_ext; [|exact Hm2].
      intros t. unfold applied. simpl. rewrite Hv. reflexivity.
Qed.

Lemma validation_frame u b set g t :
  validation u b = Some (Return set) -> g <> b ->
  field_value g (set t) = field_value g t.
Proof.
  destruct b; simpl.
  - destruct (u_title u); [|discriminate].
    destruct (Validators.validate_title _); intros [= <-]; destruct g; simpl; congruence.
  - destruct (u_description u); intros [= <-]; destruct g; simpl; congruence.
  - destruct (u_due_date u); intros [= <-]; destruct g; simpl; congruence.
  - destruct (u_priority u); [|discriminate].
    destruct (Validators.validate_priority _); intros [= <-]; destruct g; simpl; congruence.
  - destruct (u_status u); [|discriminate].
    destruct (Validators.validate_status _); intros [= <-]; destruct g; simpl; congruence.
Qed.

Lemma applied_cons u b fs t :
  applied u (b :: fs) t
  = applied u fs (match validation u b with
                  | Some (Return set) => set t
                  | _ => t
                  end).
Proof. reflexivity. Qed.

Lemma applied_frame u g : forall fs t,
  g ∉ fs -> field_value g (applied u fs t) = field_value g t.
Proof.
  induction fs as [|b fs IH]; intros t Hg; [reflexivity|].
  apply not_elem_of_cons in Hg as [Hne Hg].
  rewrite applied_cons, IH by exact Hg.
  destruct (validation u b) as [[set|]|] eqn:Hv; auto.
  eapply validation_frame; eauto.
Qed.

Lemma validation_task_id u b set t :
  validation u b = Some (Return set) -> _task_id (set t) = _task_id t.
Proof.
  destruct b; simpl.
  - destruct (u_title u); [|discriminate].
    destruct (Validators.validate_title _); intros [= <-]; reflexivity.
  - destruct (u_description u); intros [= <-]; reflexivity.
  - destruct (u_due_date u); intros [= <-]; reflexivity.
  - destruct (u_priority u); [|discriminate].
    destruct (Validators.validate_priority _); intros [= <-]; reflexivity.
  - destruct (u_status u); [|discriminate].
    destruct (Validators.validate_status _); intros [= <-]; reflexivity.
Qed.

(** C3: let [update_task] be called for a cached task with a request whose
    first rejected field, in the order title, description, due date, priority,
    status, is [f] (the fields [before] it are absent or valid), and let [e] be
    the error of its validation.  Then the call raises [e]; the collection of
    the store is untouched; the cached object, which the dictionary and the
    list share, has had the accepted fields among [before] assigned and is
    unchanged in [f] and in every field after it; no other object and neither
    container changes. *)
Theorem update_task_validation_failure
    (w : World) (task_id : string) (task : loc) (u : updates)
    (before : list field) (f : field) (after : list field) (e : exn) :
  TaskManager.get_task task_id w = (Return (Some task), w) ->
  update_order = before ++ f :: after ->
  Forall (passes u) before ->
  validation u f = Some (Raise e) ->
  exists w',
    TaskManager.update_task task_id (u_title u) (u_description u) (u_due_date u)
      (u_priority u) (u_status u) w = (Raise e, w') /\
    db_collection w' = db_collection w /\
    heap w' task = applied u before (heap w task) /\
    (forall g, g ∈ f :: after ->
               field_value g (heap w' task) = field_value g (heap w task)) /\
    (forall l, l <> task -> heap w' l = heap w l) /\
    _tasks w' = _tasks w /\ _task_list w' = _task_list w.
Proof.
  intros Hget Horder Hpass Hf.
  rewrite update_task_blocks. erewrite bind_Return by exact Hget.
  unfold read, get. erewrite bind_Return by reflexivity. rewrite Horder.
  destruct (update_blocks_fail u task (update_finish (_task_id (heap w task)))
              f after e before ∅ w Hpass Hf) as (w' & Hrun & Hm).
  exists w'. split; [exact Hrun|]. destruct Hm.
  repeat split; auto.
  intros g Hg. rewrite mu_here0. apply applied_frame.
  assert (Hnd : NoDup (before ++ f :: after))
    by (rewrite <- Horder; apply (bool_decide_unpack _); vm_compute; exact I).
  apply NoDup_app in Hnd as (_ & Hdisj & _).
  intros Hin. exact (Hdisj _ Hin Hg).
Qed.

Lemma update_task_validation_failure_witness :
  TaskManager.get_task "abcdefgh" two_task_world = (Return (Some 0%nat), two_task_world) /\
  validation (mk_updates (Some " Final report ") None (VStr "tomorrow") (Some "Urgent") None)
             FDueDate
    = Some (Raise (TypeError "Due date must be a datetime object")) /\
  exists w',
    TaskManager.update_task "abcdefgh" (Some " Final report ") None (VStr "tomorrow")
      (Some "Urgent") None two_task_world
    = (Raise (TypeError "Due date must be a datetime object"), w') /\
    _title (heap w' 0%nat) = "Final report" /\
    _priority (heap w' 0%nat) = "High" /\
    db_collection w' = db_collection two_task_world.
Proof.
  split; [reflexivity|]. split; [reflexivity|].
  destruct (update_task_validation_failure two_task_world "abcdefgh" 0%nat
              (mk_updates (Some " Final report ") None (VStr "tomorrow") (Some "Urgent") None)
              [FTitle; FDescription] FDueDate [FPriority; FStatus]
              (TypeError "Due date must be a datetime object"))
    as (w' & Hrun & Hdb & Hheap & Hframe & _);
    [reflexivity | reflexivity
    | repeat first [apply Forall_nil_2 | apply Forall_cons_2; [exact I|]]
    | reflexivity |].
  exists w'. split; [exact Hrun|].
  split; [rewrite Hheap; reflexivity|].
  split; [|exact Hdb].
  assert (Hin : FPriority ∈ [FDueDate; FPriority; FStatus]) by (right; left).
  specialize (Hframe FPriority Hin). simpl in Hframe.
  injection Hframe as ->. reflexivity.
Defined.

(** *** The write-through *)

Lemma store_only_refl w : store_only w w.
Proof. constructor; auto. Qed.

(** Each document after [$set] is the document before, or the document before
    overridden by the update. *)
Lemma set_first_each task_id upd : forall c,
  Forall2 (fun d d' => d' = d \/ d' = upd ∪ d)
          c (fst (DatabaseHandler.set_first task_id upd c)).
Proof.
  induction c as [|d c IH]; simpl; [constructor|].
  destruct (DatabaseHandler.matches task_id d).
  - simpl. constructor; [auto|]. apply Forall2_same_length_lookup_2; [done|].
    intros i x y Hx Hy. left. congruence.
  - destruct (DatabaseHandler.set_first task_id upd c) as [c' m]. simpl in *.
    constructor; auto.
Qed.

Lemma db_update_task_spec task_id upd w :
  exists o w',
    DatabaseHandler.update_task task_id upd w = (o, w') /\
    store_only w w' /\
    Forall2 (fun d d' => d' = d \/ d' = upd ∪ d) (db_collection w) (db_collection w') /\
    match o with
    | Return _ => db_alive w = true /\ db_fault w = None
    | Raise e =>
        db_collection w' = db_collection w /\
        (db_alive w = false \/ db_fault w <> None)
    end.
Proof.
  assert (Hsame : Forall2 (fun d d' : document => d' = d \/ d' = upd ∪ d)
                          (db_collection w) (db_collection w)).
  { apply Forall2_same_length_lookup_2; [done|].
    intros i x y Hx Hy. left. congruence. }
  unfold DatabaseHandler.update_task, DatabaseHandler.is_connected,
    DatabaseHandler.update_one, DatabaseHandler.on_server. unfold_M.
  destruct (db_alive w) eqn:Ha; simpl.
  - destruct (db_fault w) as [msg|] eqn:Hf; simpl.
    + eexists _, w. split; [reflexivity|].
      repeat split; auto using store_only_refl; right; congruence.
    + pose proof (set_first_each task_id upd (db_collection w)) as Heach.
      destruct (DatabaseHandler.set_first task_id upd (db_collection w)) as [c' m].
      simpl in *. eexists _, _. split; [reflexivity|]. simpl.
      repeat split; auto.
  - eexists _, w. split; [reflexivity|].
    repeat split; auto using store_only_refl.
Qed.

Lemma update_finish_spec full_task_id upd w :
  upd <> ∅ ->
  exists o w',
    update_finish full_task_id upd w = (o, w') /\
    store_only w w' /\
    Forall2 (fun d d' => d' = d \/ d' = upd ∪ d) (db_collection w) (db_collection w') /\
    match o with
    | Return r => r = true /\ db_alive w = true /\ db_fault w = None
    | Raise e =>
        (exists msg, e = Exception msg) /\
        db_collection w' = db_collection w /\
        (db_alive w = false \/ db_fault w <> None)
    end.
Proof.
  intros Hne. unfold update_finish. rewrite (bool_decide_eq_true_2 _ Hne).
  destruct (db_update_task_spec full_task_id upd w) as (o & w' & Hrun & Hso & Heach & Ho).
  unfold try_except.
  destruct o as [m|e].
  - erewrite bind_Return; [|erewrite bind_Return by exact Hrun; reflexivity].
    exists (Return true), w'.
    split; [reflexivity|]. split; [exact Hso|]. split; [exact Heach|]. tauto.
  - erewrite bind_Raise; [|erewrite bind_Raise by exact Hrun; reflexivity].
    eexists _, w'.
    split; [reflexivity|]. split; [exact Hso|]. split; [exact Heach|].
    split; [eauto|tauto].
Qed.

(** *** Changing the status only (C8) *)

(** C8: [update_task] called for a cached task with a valid status and nothing
    else assigns the normalised status to the cached object and leaves its
    title, description, due date, priority and creation time (and its id) as
    they were; no other object changes.  In the store every document keeps, at
    every key but ["status"], the value it had.  The call returns [True] when
    the store answers and raises the store's error otherwise. *)
Theorem update_status_only_frame
    (w : World) (task_id status : string) (task : loc) (v : string) :
  TaskManager.get_task task_id w = (Return (Some task), w) ->
  Validators.validate_status status = Return v ->
  exists o w',
    TaskManager.update_task task_id None None VNone None (Some status) w = (o, w') /\
    _status (heap w' task) = v /\
    _title (heap w' task) = _title (heap w task) /\
    _description (heap w' task) = _description (heap w task) /\
    _due_date (heap w' task) = _due_date (heap w task) /\
    _priority (heap w' task) = _priority (heap w task) /\
    _created_at (heap w' task) = _created_at (heap w task) /\
    _task_id (heap w' task) = _task_id (heap w task) /\
    (forall l, l <> task -> heap w' l = heap w l) /\
    Forall2 (fun d d' => forall k, k <> "status" -> d' !! k = d !! k)
            (db_collection w) (db_collection w') /\
    match o with
    | Return r => r = true
    | Raise e => db_alive w = false \/ db_fault w <> None
    end.
Proof.
  intros Hget Hv.
  pose (u := mk_updates None None VNone None (Some status)).
  change (TaskManager.update_task task_id None None VNone None (Some status) w)
    with (TaskManager.update_task task_id (u_title u) (u_description u)
            (u_due_date u) (u_priority u) (u_status u) w).
  rewrite update_task_blocks. erewrite bind_Return by exact Hget.
  unfold read, get. erewrite bind_Return by reflexivity.
  unfold update_order. cbn [update_blocks].
  do 4 (erewrite bind_Return by reflexivity).
  pose proof (update_block_spec u task FStatus ∅ w) as Hb.
  cbn [validation u u_status] in Hb. rewrite Hv in Hb.
  destruct Hb as (w1 & Hb & Hm). erewrite bind_Return by exact Hb.
  destruct (update_finish_spec (_task_id (heap w task))
              (<[field_key FStatus := field_value FStatus (set_status v (heap w task))]> ∅)
              w1 (insert_non_empty _ _ _))
    as (o & w2 & Hfin & Hso & Heach & Ho).
  exists o, w2. split; [exact Hfin|].
  destruct Hm, Hso. rewrite so_heap0, mu_here0. simpl.
  repeat split; auto.
  - rewrite <- mu_collection0.
    eapply Forall2_impl; [exact Heach|]. intros d d' [->| ->] k Hk; [reflexivity|].
    apply lookup_union_r. apply lookup_insert_None. split; [apply lookup_empty|simpl; congruence].
  - destruct o; [tauto|]. rewrite <- mu_alive0, <- mu_fault0. tauto.
Qed.

Lemma update_status_only_frame_witness :
  TaskManager.get_task "0C0FFEE0" two_task_world = (Return (Some 1%nat), two_task_world) /\
  Validators.validate_status " in PROGRESS " = Return "In Progress" /\
  exists o w',
    TaskManager.update_task "0C0FFEE0" None None VNone None (Some " in PROGRESS ")
      two_task_world = (o, w') /\
    _status (heap w' 1%nat) = "In Progress" /\
    _title (heap w' 1%nat) = "Pay rent".
Proof.
  split; [reflexivity|]. split; [reflexivity|].
  destruct (update_status_only_frame two_task_world "0C0FFEE0" " in PROGRESS "
              1%nat "In Progress" eq_refl eq_refl)
    as (o & w' & Hrun & Hst & Hti & _).
  exists o, w'. repeat split; auto.
Defined.

(** ** Sorting (C5) *)

(** *** The order of the keys *)

Lemma lex_ltb_irrefl a : lex_ltb a a = false.
Proof.
  induction a as [|x a IH]; simpl; [reflexivity|].
  rewrite Z.ltb_irrefl. exact IH.
Qed.

Lemma lex_ltb_asym : forall a b, lex_ltb a b = true -> lex_ltb b a = false.
Proof.
  induction a as [|x a IH]; intros [|y b]; simpl; auto; try discriminate.
  destruct (x <? y) eqn:E1, (y <? x) eqn:E2; auto; try discriminate; lia.
Qed.

(** [a >= b] and [b >= c] give [a >= c]. *)
Lemma lex_ltb_negtrans : forall a b c,
  lex_ltb a b = false -> lex_ltb b c = false -> lex_ltb a c = false.
Proof.
  induction a as [|x a IH]; intros [|y b] [|z c]; simpl; auto; try discriminate.
  destruct (x <? y) eqn:E1; [discriminate|].
  destruct (y <? x) eqn:E2; destruct (y <? z) eqn:E3; try discriminate;
    destruct (z <? y) eqn:E4; destruct (x <? z) eqn:E5; destruct (z <? x) eqn:E6;
    auto; try lia; try discriminate.
  apply IH.
Qed.

Lemma str_ltb_irrefl a : Str.ltb a a = false.
Proof.
  induction a as [|x a IH]; simpl; [reflexivity|].
  rewrite Nat.ltb_irrefl. exact IH.
Qed.

Lemma str_ltb_asym : forall a b, Str.ltb a b = true -> Str.ltb b a = false.
Proof.
  induction a as [|x a IH]; intros [|y b]; simpl; auto; try discriminate.
  destruct (nat_of_ascii x <? nat_of_ascii y)%nat eqn:E1,
           (nat_of_ascii y <? nat_of_ascii x)%nat eqn:E2;
    auto; try discriminate.
  apply Nat.ltb_lt in E1, E2. lia.
Qed.

Lemma str_ltb_negtrans : forall a b c,
  Str.ltb a b = false -> Str.ltb b c = false -> Str.ltb a c = false.
Proof.
  induction a as [|x a IH]; intros [|y b] [|z c]; simpl; auto; try discriminate.
  destruct (nat_of_ascii x <? nat_of_ascii y)%nat eqn:E1; [discriminate|].
  destruct (nat_of_ascii y <? nat_of_ascii x)%nat eqn:E2;
    destruct (nat_of_ascii y <? nat_of_ascii z)%nat eqn:E3; try discriminate;
    destruct (nat_of_ascii z <? nat_of_ascii y)%nat eqn:E4;
    destruct (nat_of_ascii x <? nat_of_ascii z)%nat eqn:E5;
    destruct (nat_of_ascii z <? nat_of_ascii x)%nat eqn:E6;
    auto; try discriminate;
    rewrite ?Nat.ltb_lt, ?Nat.ltb_ge in *; try lia.
  apply IH.
Qed.

Lemma key_ltb_irrefl a : key_ltb a a = false.
Proof.
  destruct a; simpl;
    [apply Z.ltb_irrefl | apply str_ltb_irrefl | apply lex_ltb_irrefl].
Qed.

Lemma key_ltb_asym a b : key_ltb a b = true -> key_ltb b a = false.
Proof.
  destruct a, b; simpl; auto.
  - intros H. apply Z.ltb_lt in H. apply Z.ltb_ge. lia.
  - apply str_ltb_asym.
  - apply lex_ltb_asym.
Qed.

Lemma key_ltb_negtrans a b c :
  same_kind a b -> same_kind b c ->
  key_ltb a b = false -> key_ltb b c = false -> key_ltb a c = false.
Proof.
  destruct a, b, c; simpl; try contradiction; intros _ _.
  - rewrite !Z.ltb_ge. lia.
  - apply str_ltb_negtrans.
  - apply lex_ltb_negtrans.
Qed.

Lemma get_sort_key_same_kind sort_by t1 t2 :
  same_kind (TaskManager.get_sort_key sort_by t1) (TaskManager.get_sort_key sort_by t2).
Proof.
  unfold TaskManager.get_sort_key.
  repeat match goal with
         | |- context [String.eqb ?a ?b] => destruct (String.eqb a b)
         end; exact I.
Qed.

(** *** The stable sort *)

Section SortedFacts.
Context {A : Type} (key : A -> sort_key).
Hypothesis key_kind : forall a b, same_kind (key a) (key b).

Lemma insert_sorted_perm x l : insert_sorted key x l ≡ₚ x :: l.
Proof.
  induction l as [|y l IH]; simpl; [reflexivity|].
  destruct (key_ltb (key y) (key x)); [|reflexivity].
  rewrite IH. apply perm_swap.
Qed.

Lemma stable_sort_perm l : stable_sort key l ≡ₚ l.
Proof.
  induction l as [|x l IH]; simpl; [reflexivity|].
  rewrite insert_sorted_perm, IH. reflexivity.
Qed.

Lemma insert_sorted_ascending x l :
  StronglySorted (ascending key) l -> StronglySorted (ascending key) (insert_sorted key x l).
Proof.
  induction l as [|y l IH]; simpl; intros Hs.
  - repeat constructor.
  - apply StronglySorted_cons in Hs as [Hy Hs].
    destruct (key_ltb (key y) (key x)) eqn:E.
    + apply StronglySorted_cons. split; [|auto].
      rewrite insert_sorted_perm. constructor; [|exact Hy].
      unfold ascending. apply key_ltb_asym, E.
    + apply StronglySorted_cons. split.
      * constructor; [exact E|].
        eapply Forall_impl; [exact Hy|]. intros z Hz. unfold ascending in *.
        eapply key_ltb_negtrans; eauto.
      * apply StronglySorted_cons. auto.
Qed.

Lemma stable_sort_ascending l : StronglySorted (ascending key) (stable_sort key l).
Proof.
  induction l as [|x l IH]; simpl; [constructor|].
  apply insert_sorted_ascending, IH.
Qed.

Lemma insert_sorted_stable k x l :
  List.filter (has_key key k) (insert_sorted key x l) = List.filter (has_key key k) (x :: l).
Proof.
  induction l as [|y l IH]; [reflexivity|].
  cbn [insert_sorted]. destruct (key_ltb (key y) (key x)) eqn:E; [|reflexivity].
  cbn [List.filter] in *. rewrite IH.
  unfold has_key. destruct (bool_decide (key y = k)) eqn:Ey; [|reflexivity].
  destruct (bool_decide (key x = k)) eqn:Ex; [|reflexivity].
  apply bool_decide_eq_true in Ey, Ex.
  rewrite Ey, Ex, key_ltb_irrefl in E. discriminate.
Qed.

Lemma stable_sort_stable k l :
  List.filter (has_key key k) (stable_sort key l) = List.filter (has_key key k) l.
Proof.
  induction l as [|x l IH]; [reflexivity|].
  cbn [stable_sort foldr]. fold (stable_sort key l).
  rewrite insert_sorted_stable. cbn [List.filter]. rewrite IH. reflexivity.
Qed.

Lemma StronglySorted_rev (R : A -> A -> Prop) l :
  StronglySorted R l -> StronglySorted (fun a b => R b a) (rev l).
Proof.
  induction 1 as [|x l Hs IH Hx]; simpl; [constructor|].
  apply StronglySorted_app. split; [|split; [exact IH|repeat constructor]].
  intros a b Ha Hb. apply list_elem_of_singleton in Hb as ->.
  rewrite Forall_forall in Hx. apply Hx.
  apply list_elem_of_In, in_rev, list_elem_of_In, Ha.
Qed.

Lemma filter_rev (f : A -> bool) l : List.filter f (rev l) = rev (List.filter f l).
Proof.
  induction l as [|x l IH]; simpl; [reflexivity|].
  rewrite List.filter_app, IH. simpl. destruct (f x); simpl; [reflexivity|].
  apply app_nil_r.
Qed.

Lemma sorted_perm (reverse : bool) l : sorted key reverse l ≡ₚ l.
Proof.
  unfold sorted. destruct reverse; [|apply stable_sort_perm].
  etransitivity; [symmetry; apply Permutation_rev|].
  etransitivity; [apply stable_sort_perm|].
  symmetry. apply Permutation_rev.
Qed.

Lemma sorted_ordered (reverse : bool) l :
  StronglySorted (if reverse then (descending key) else (ascending key)) (sorted key reverse l).
Proof.
  unfold sorted. destruct reverse; [|apply stable_sort_ascending].
  apply (StronglySorted_rev (ascending key)), stable_sort_ascending.
Qed.

Lemma sorted_stable (reverse : bool) k l :
  List.filter (has_key key k) (sorted key reverse l) = List.filter (has_key key k) l.
Proof.
  unfold sorted. destruct reverse; [|apply stable_sort_stable].
  rewrite filter_rev, stable_sort_stable, filter_rev. apply rev_involutive.
Qed.
End SortedFacts.

(** *** [sort_tasks] *)

Lemma StronglySorted_weaken {A} (R R' : A -> A -> Prop) l :
  (forall a b, R a b -> R' a b) -> StronglySorted R l -> StronglySorted R' l.
Proof.
  intros HR. induction 1 as [|x l Hs IH Hx]; constructor; auto.
  eapply Forall_impl; eauto.
Qed.

Lemma priority_order_rank p :
  default 0 (TaskManager.priority_order !! p) = priority_rank p.
Proof.
  unfold TaskManager.priority_order, priority_rank.
  rewrite !lookup_insert, lookup_empty.
  repeat case_decide; subst; try reflexivity.
  repeat match goal with
         | H : ?a <> p |- _ =>
             apply not_eq_sym, String.eqb_neq in H; rewrite H; clear H
         end.
  reflexivity.
Qed.

Lemma status_order_rank s :
  default 0 (TaskManager.status_order !! s) = status_rank s.
Proof.
  unfold TaskManager.status_order, status_rank.
  rewrite !lookup_insert, lookup_empty.
  repeat case_decide; subst; try reflexivity.
  repeat match goal with
         | H : ?a <> s |- _ =>
             apply not_eq_sym, String.eqb_neq in H; rewrite H; clear H
         end.
  reflexivity.
Qed.

Lemma get_sort_key_le sort_by a b :
  key_ltb (TaskManager.get_sort_key sort_by b) (TaskManager.get_sort_key sort_by a) = false
  <-> key_le sort_by a b.
Proof.
  unfold TaskManager.get_sort_key, key_le, TaskManager.getattr_datetime.
  destruct (String.eqb sort_by "priority").
  { simpl. rewrite !priority_order_rank, Z.ltb_ge. reflexivity. }
  destruct (String.eqb sort_by "status").
  { simpl. rewrite !status_order_rank, Z.ltb_ge. reflexivity. }
  destruct (String.eqb sort_by "title"); [reflexivity|].
  destruct (String.eqb sort_by "due_date"); reflexivity.
Qed.

(** C5: [sort_tasks] raises a [ValueError] for a [sort_by] outside
    {created_at, due_date, priority, status, title} and changes nothing.  For
    one of the five it returns a permutation of the tasks given that is ordered
    by the field: ascending when [reverse] is false, descending when it is
    true, where priority compares by the ranks High 3, Medium 2, Low 1, status
    by Pending 1, In Progress 2, Completed 3, title by its lowered text and the
    two date-times by time.  In both directions the tasks that carry one and
    the same key stand in the order they had in the input. *)
Theorem sort_tasks_spec (w : World) (tasks : list loc) (sort_by : string)
    (reverse : bool) :
  if bool_decide (sort_by ∈ ["created_at"; "due_date"; "priority"; "status"; "title"])
  then
    exists out,
      TaskManager.sort_tasks tasks sort_by reverse w = (Return out, w) /\
      out ≡ₚ tasks /\
      StronglySorted
        (fun a b => if reverse
                    then key_le sort_by (heap w b) (heap w a)
                    else key_le sort_by (heap w a) (heap w b)) out /\
      forall k : sort_key,
        List.filter (fun t => bool_decide (TaskManager.get_sort_key sort_by (heap w t) = k)) out
        = List.filter (fun t => bool_decide (TaskManager.get_sort_key sort_by (heap w t) = k)) tasks
  else
    exists msg,
      TaskManager.sort_tasks tasks sort_by reverse w = (Raise (ValueError msg), w).
Proof.
  unfold TaskManager.sort_tasks.
  change TaskManager.valid_sort_fields
    with ["created_at"; "due_date"; "priority"; "status"; "title"].
  destruct (bool_decide (sort_by ∈ _)); simpl; [|eexists; reflexivity].
  set (key := fun task : loc => TaskManager.get_sort_key sort_by (heap w task)).
  assert (Hkind : forall a b, same_kind (key a) (key b))
    by (intros; apply get_sort_key_same_kind).
  exists (sorted key reverse tasks). split; [reflexivity|].
  split; [apply sorted_perm|]. split.
  - pose proof (sorted_ordered key Hkind reverse tasks) as Hs.
    eapply StronglySorted_weaken; [|exact Hs].
    intros a b. unfold key. destruct reverse; unfold ascending, descending;
      apply get_sort_key_le.
  - intros k. apply (sorted_stable key).
Qed.

(** ** The cache invariant (C9) *)

(** *** Dictionaries with distinct keys *)

Lemma setitem_fresh {V} k (v : V) d :
  k ∉ PyDict.keys d -> PyDict.setitem k v d = d ++ [(k, v)].
Proof.
  induction d as [|[k0 v0] d IH]; simpl; [reflexivity|].
  intros Hk. apply not_elem_of_cons in Hk as [Hne Hk].
  destruct (String.eqb k0 k) eqn:E.
  - apply String.eqb_eq in E. congruence.
  - rewrite IH by exact Hk. reflexivity.
Qed.

Lemma getitem_elem {V} k (v : V) d :
  NoDup (PyDict.keys d) -> (k, v) ∈ d -> PyDict.getitem k d = Some v.
Proof.
  induction d as [|[k0 v0] d IH]; simpl; intros Hnd Hin.
  - apply elem_of_nil in Hin. contradiction.
  - apply NoDup_cons in Hnd as [Hk0 Hnd].
    apply elem_of_cons in Hin as [[= <- <-]|Hin].
    + rewrite String.eqb_refl. reflexivity.
    + destruct (String.eqb k0 k) eqn:E; [|auto].
      apply String.eqb_eq in E as ->. exfalso. apply Hk0.
      unfold PyDict.keys. apply list_elem_of_fmap. exists (k, v). auto.
Qed.

Lemma contains_key {V} k (d : list (string * V)) :
  k ∈ PyDict.keys d -> PyDict.contains k d = true.
Proof.
  unfold PyDict.contains. intros Hk.
  destruct (PyDict.getitem k d) eqn:E; [reflexivity|].
  apply getitem_None_key in E. contradiction.
Qed.

Lemma keys_delitem {V} k (d : list (string * V)) :
  NoDup (PyDict.keys d) ->
  PyDict.keys (PyDict.delitem k d)
  = List.filter (fun k' => negb (String.eqb k' k)) (PyDict.keys d).
Proof.
  unfold PyDict.keys.
  induction d as [|[k0 v0] d IH]; simpl; intros Hnd; [reflexivity|].
  apply NoDup_cons in Hnd as [Hk0 Hnd].
  destruct (String.eqb k0 k) eqn:E; simpl.
  - apply String.eqb_eq in E as ->.
    symmetry. clear IH Hnd. induction d as [|[k1 v1] d IH]; simpl in *; [reflexivity|].
    apply not_elem_of_cons in Hk0 as [Hne Hk0].
    apply not_eq_sym, String.eqb_neq in Hne. rewrite Hne. simpl.
    rewrite IH by exact Hk0. reflexivity.
  - rewrite IH by exact Hnd. reflexivity.
Qed.

(** Deleting the key [k] removes the values whose own key, read off the value
    by [id_of], is [k]. *)
Lemma values_delitem {V} (id_of : V -> string) k (d : list (string * V)) :
  NoDup (PyDict.keys d) ->
  Forall (fun item => id_of (snd item) = fst item) d ->
  PyDict.values (PyDict.delitem k d)
  = List.filter (fun v => negb (String.eqb (id_of v) k)) (PyDict.values d).
Proof.
  unfold PyDict.keys, PyDict.values.
  induction d as [|[k0 v0] d IH]; simpl; intros Hnd Hid; [reflexivity|].
  apply NoDup_cons in Hnd as [Hk0 Hnd].
  apply Forall_cons in Hid as [Hid0 Hid]. simpl in Hid0. rewrite Hid0.
  destruct (String.eqb k0 k) eqn:E; simpl.
  - apply String.eqb_eq in E as ->.
    symmetry. clear IH Hnd. induction d as [|[k1 v1] d IH]; simpl in *; [reflexivity|].
    apply not_elem_of_cons in Hk0 as [Hne Hk0].
    apply Forall_cons in Hid as [Hid1 Hid]. simpl in Hid1. rewrite Hid1.
    apply not_eq_sym, String.eqb_neq in Hne. rewrite Hne. simpl.
    rewrite IH by assumption. reflexivity.
  - rewrite IH by assumption. reflexivity.
Qed.

Lemma delitem_sublist {V} k (d : list (string * V)) :
  forall item, item ∈ PyDict.delitem k d -> item ∈ d.
Proof.
  induction d as [|[k0 v0] d IH]; simpl; intros item Hin; [exact Hin|].
  destruct (String.eqb k0 k).
  - right. exact Hin.
  - apply elem_of_cons in Hin as [->|Hin]; [left|right; auto].
Qed.

(** *** The invariant *)

Lemma cache_inv_consistent w : cache_inv w -> cache_consistent w.
Proof.
  intros [Hl Hids Hal Hk Hst Hsub]. unfold cache_consistent. rewrite Hl.
  assert (Hvals : forall task, task ∈ PyDict.values (_tasks w) ->
                    (_task_id (heap w task), task) ∈ _tasks w).
  { intros task Hin. unfold PyDict.values in Hin.
    apply list_elem_of_fmap in Hin as ([k t] & -> & Hin).
    rewrite Forall_forall in Hids. rewrite (Hids _ Hin). exact Hin. }
  repeat split.
  - intros task Hin. apply getitem_elem; auto.
  - intros k task Hget. apply getitem_Some_elem in Hget.
    unfold PyDict.values. apply list_elem_of_fmap. exists (k, task). auto.
  - clear Hvals Hsub Hl. unfold PyDict.keys, PyDict.values in *.
    induction (_tasks w) as [|[k t] d IH]; simpl in *; [constructor|].
    apply NoDup_cons in Hk as [Hk0 Hk].
    apply Forall_cons in Hids as [Hid0 Hids]. apply Forall_cons in Hal as [_ Hal].
    constructor; [|auto].
    intros Hin. apply list_elem_of_fmap in Hin as ([k' t'] & Heq & Hin).
    simpl in *. subst t'. apply Hk0.
    rewrite Forall_forall in Hids. specialize (Hids _ Hin). simpl in Hids.
    apply list_elem_of_fmap. exists (k', t). split; [simpl; congruence|exact Hin].
  - exact Hk.
  - unfold PyDict.values. rewrite length_fmap. reflexivity.
Qed.

(** The invariant survives whatever keeps the containers, the ids of the
    allocated objects and the keys of the documents. *)
Lemma cache_inv_frame w w' :
  cache_inv w ->
  (heap_next w <= heap_next w')%nat ->
  (forall l, (l < heap_next w)%nat -> _task_id (heap w' l) = _task_id (heap w l)) ->
  _tasks w' = _tasks w ->
  _task_list w' = _task_list w ->
  map DatabaseHandler.doc_key (db_collection w')
  = map DatabaseHandler.doc_key (db_collection w) ->
  cache_inv w'.
Proof.
  intros [Hl Hids Hal Hk Hst Hsub] Hnext Hheap Hd Hlist Hc.
  constructor; unfold store_unique; rewrite ?Hd, ?Hlist, ?Hc; auto.
  - rewrite Forall_forall in *. intros item Hin.
    rewrite Hheap by auto. auto.
  - eapply Forall_impl; [exact Hal|]. simpl. intros. lia.
Qed.

Lemma allocates_inv w w' : allocates w w' -> cache_inv w -> cache_inv w'.
Proof.
  intros [] Hinv. eapply cache_inv_frame; eauto; try congruence.
  intros l Hl. rewrite al_heap0; auto.
Qed.

Lemma mutates_inv task f w w' :
  (forall t, _task_id (f t) = _task_id t) ->
  mutates task f w w' -> cache_inv w -> cache_inv w'.
Proof.
  intros Hf [] Hinv. eapply cache_inv_frame; eauto; try congruence; try lia.
  intros l Hl. destruct (decide (l = task)) as [->|Hne].
  - rewrite mu_here0. apply Hf.
  - rewrite mu_others0; auto.
Qed.

(** *** Loading *)

Lemma foldl_setitem_fresh (id_of : loc -> string) tasks : forall d,
  NoDup (PyDict.keys d ++ map id_of tasks) ->
  foldl (fun d l => PyDict.setitem (id_of l) l d) d tasks
  = d ++ map (fun l => (id_of l, l)) tasks.
Proof.
  induction tasks as [|x xs IH]; intros d Hnd; simpl.
  - rewrite app_nil_r. reflexivity.
  - simpl in Hnd. apply NoDup_app in Hnd as (Hd & Hdisj & Hxs).
    apply NoDup_cons in Hxs as [Hx Hxs].
    assert (Hfresh : id_of x ∉ PyDict.keys d).
    { intros Hin. apply (Hdisj _ Hin). left. }
    rewrite setitem_fresh by exact Hfresh.
    rewrite IH.
    + rewrite <- app_assoc. reflexivity.
    + unfold PyDict.keys in *. rewrite fmap_app. simpl.
      rewrite <- app_assoc. simpl.
      apply NoDup_app. split; [exact Hd|]. split.
      * intros k Hk Hin. apply elem_of_cons in Hin as [->|Hin]; [contradiction|].
        apply (Hdisj _ Hk). right. exact Hin.
      * constructor; assumption.
Qed.

Lemma load_tasks_from_db_inv w :
  cache_inv w -> cache_inv (snd (TaskManager.load_tasks_from_db w)).
Proof.
  intros Hinv. unfold TaskManager.load_tasks_from_db.
  destruct (DatabaseHandler.get_all_tasks w) as [[tasks|e] w1] eqn:Hscan;
    destruct (get_all_tasks_allocates _ _ _ Hscan) as [Hal Hres].
  - unfold try_except. erewrite bind_Return by exact Hscan.
    erewrite bind_Return by reflexivity.
    erewrite bind_Return by reflexivity.
    destruct (load_loop tasks (with_task_list [] (with_tasks [] w1)))
      as (w2 & Hloop & Hco & Hl & Hd).
    unfold load_entry in Hloop. erewrite bind_Return by exact Hloop.
    simpl in *. destruct Hres as (Htasks & Hnext & Hids). destruct Hco. simpl in *.
    assert (Hkeys : map DatabaseHandler.doc_key (db_collection w)
                    = map (fun l => VStr (_task_id (heap w1 l))) tasks).
    { clear -Hids. induction Hids as [|l d ls ds Hd _ IH]; simpl; [reflexivity|].
      rewrite IH. unfold DatabaseHandler.doc_key. rewrite Hd. reflexivity. }
    assert (Hnd : NoDup (map (fun l => _task_id (heap w1 l)) tasks)).
    { pose proof (inv_store _ Hinv) as Hst. unfold store_unique in Hst.
      rewrite Hkeys in Hst.
      change (map (fun l => VStr (_task_id (heap w1 l))) tasks)
        with ((fun l => VStr (_task_id (heap w1 l))) <$> tasks) in Hst.
      rewrite (list_fmap_compose (fun l => _task_id (heap w1 l)) VStr) in Hst.
      apply NoDup_fmap_1 in Hst. exact Hst. }
    rewrite (foldl_setitem_fresh (fun l => _task_id (heap w1 l))) in Hd by exact Hnd.
    simpl in Hd.
    constructor.
    + rewrite Hl, Hd. unfold PyDict.values. rewrite map_map. simpl.
      symmetry. apply map_id.
    + rewrite Hd, co_heap0. apply Forall_forall. intros [k l] Hin.
      apply list_elem_of_fmap in Hin as (l' & [= -> ->] & _). reflexivity.
    + rewrite Hd, co_next0, Hnext. apply Forall_forall. intros [k l] Hin.
      apply list_elem_of_fmap in Hin as (l' & [= -> ->] & Hin). simpl.
      rewrite Htasks in Hin. apply elem_of_seq in Hin. lia.
    + rewrite Hd. unfold PyDict.keys. rewrite map_map. exact Hnd.
    + rewrite co_collection0, (al_collection _ _ Hal). apply Hinv.
    + intros k Hk. rewrite co_collection0, (al_collection _ _ Hal), Hkeys.
      rewrite Hd in Hk. unfold PyDict.keys in Hk. rewrite map_map in Hk. simpl in Hk.
      apply list_elem_of_fmap in Hk as (l & -> & Hin).
      apply list_elem_of_fmap. exists l. auto.
  - unfold try_except. erewrite bind_Raise by exact Hscan. simpl.
    eapply allocates_inv; eauto.
Qed.

(** *** Adding *)

Lemma doc_key_to_dict t : DatabaseHandler.doc_key (to_dict_fields t) = VStr (_task_id t).
Proof. reflexivity. Qed.

Lemma existsb_doc_key doc c :
  existsb (fun d => bool_decide (DatabaseHandler.doc_key d = DatabaseHandler.doc_key doc)) c
  = false ->
  DatabaseHandler.doc_key doc ∉ map DatabaseHandler.doc_key c.
Proof.
  induction c as [|d c IH]; simpl; intros H.
  - apply not_elem_of_nil.
  - apply orb_false_iff in H as [Hd Hc]. apply bool_decide_eq_false in Hd.
    apply not_elem_of_cons. split; [congruence|auto].
Qed.

(** [insert_task] either appends the document of the task, whose id no stored
    document carries, or raises and leaves the world as it was. *)
Lemma insert_task_spec task w :
  match DatabaseHandler.insert_task task w with
  | (Return _, w') =>
      w' = with_collection (db_collection w ++ [to_dict_fields (heap w task)]) w /\
      VStr (_task_id (heap w task)) ∉ map DatabaseHandler.doc_key (db_collection w)
  | (Raise e, w') => w' = w
  end.
Proof.
  unfold DatabaseHandler.insert_task, DatabaseHandler.is_connected,
    DatabaseHandler.insert_one, DatabaseHandler.on_server, Task_to_dict.
  unfold_M. destruct (db_alive w); simpl; [|reflexivity].
  destruct (db_fault w); simpl; [reflexivity|].
  destruct (existsb _ (db_collection w)) eqn:E; simpl; [reflexivity|].
  split; [reflexivity|]. apply existsb_doc_key in E. exact E.
Qed.

Lemma add_task_inv title description due_date priority status w :
  cache_inv w ->
  cache_inv (snd (TaskManager.add_task title description due_date priority status w)).
Proof.
  intros Hinv. unfold TaskManager.add_task.
  unfold lift at 1. unfold mbind at 1, M_bind at 1.
  destruct (Validators.validate_title title) as [title'|e]; [|exact Hinv].
  unfold lift at 1. unfold mbind at 1, M_bind at 1.
  destruct (Validators.validate_priority priority) as [priority'|e]; [|exact Hinv].
  unfold lift at 1. unfold mbind at 1, M_bind at 1.
  destruct (Validators.validate_status _) as [status'|e]; [|exact Hinv].
  erewrite bind_Return by reflexivity.
  set (w1 := with_uuid_pos (S (uuid_pos w)) w).
  set (task_id := uuid_src w (uuid_pos w)).
  destruct (Task_init_allocates task_id title'
              (Validators.validate_description (Some description)) due_date
              priority' (Some status') None w1) as (w2 & Hinit & Hal & Hnext & Hid).
  erewrite bind_Return by exact Hinit.
  assert (Hinv2 : cache_inv w2).
  { eapply allocates_inv; [exact Hal|].
    eapply cache_inv_frame; [exact Hinv| | | | |]; simpl; auto. }
  change (heap_next w1) with (heap_next w) in *.
  unfold try_except.
  pose proof (insert_task_spec (heap_next w) w2) as Hins.
  destruct (DatabaseHandler.insert_task (heap_next w) w2) as [[r|e] w3] eqn:Hrun.
  - destruct Hins as [-> Hfresh].
    erewrite bind_Return by exact Hrun.
    unfold_M. simpl. rewrite Hid in Hfresh.
    assert (Hnew : task_id ∉ PyDict.keys (_tasks w2)).
    { intros Hk. apply Hfresh. apply (inv_sub _ Hinv2), Hk. }
    rewrite setitem_fresh by exact Hnew.
    destruct Hinv2 as [Hl Hids Halloc Hk Hst Hsub].
    constructor; simpl.
    + rewrite Hl. unfold PyDict.values. rewrite map_app. reflexivity.
    + apply Forall_app. split; [exact Hids|]. repeat constructor. exact Hid.
    + apply Forall_app. split; [exact Halloc|]. repeat constructor. simpl. lia.
    + unfold PyDict.keys in *. rewrite map_app. simpl.
      apply NoDup_app. split; [exact Hk|]. split; [|repeat constructor; set_solver].
      intros k Hin Hin'. apply list_elem_of_singleton in Hin' as ->. contradiction.
    + unfold store_unique in *. rewrite map_app. simpl.
      rewrite doc_key_to_dict, Hid.
      apply NoDup_app. split; [exact Hst|]. split; [|repeat constructor; set_solver].
      intros k Hin Hin'. apply list_elem_of_singleton in Hin' as ->. contradiction.
    + intros k Hin. unfold PyDict.keys in Hin. rewrite map_app in Hin. simpl in Hin.
      rewrite map_app. apply elem_of_app. apply elem_of_app in Hin as [Hin|Hin].
      * left. apply Hsub, Hin.
      * right. apply list_elem_of_singleton in Hin as ->. simpl.
        rewrite doc_key_to_dict, Hid. left.
  - subst w3.
    erewrite bind_Raise by exact Hrun.
    destruct (is_ValueError e); exact Hinv2.
Qed.

(** *** Updating *)

Lemma field_key_not_task_id f : field_key f <> "task_id".
Proof. destruct f; discriminate. Qed.

(** Whatever the request, the blocks either raise or reach the write-through;
    by then the cached object has been assigned some of the fields, never its
    id, and [update_data] does not carry the id either. *)
Lemma update_blocks_any u task k fs : forall update_data w,
  update_data !! "task_id" = None ->
  exists g w1,
    mutates task g w w1 /\
    (forall t, _task_id (g t) = _task_id t) /\
    ((exists e, update_blocks u task fs update_data k w = (Raise e, w1)) \/
     (exists update_data',
        update_data' !! "task_id" = None /\
        update_blocks u task fs update_data k w = k update_data' w1)).
Proof.
  induction fs as [|f fs IH]; intros update_data w Hupd.
  - exists (fun t => t), w. split; [apply mutates_refl|]. split; [auto|].
    right. exists update_data. auto.
  - pose proof (update_block_spec u task f update_data w) as Hb. simpl.
    destruct (validation u f) as [[set|e]|] eqn:Hv.
    + destruct Hb as (w1 & Hb & Hm1).
      erewrite bind_Return by exact Hb.
      match goal with
      | |- context [update_blocks u task fs ?d k w1] =>
          destruct (IH d w1) as (g & w2 & Hm2 & Hg & Hres)
      end.
      { rewrite lookup_insert_ne by apply field_key_not_task_id. exact Hupd. }
      exists (fun t => g (set t)), w2.
      split; [eapply mutates_trans; eauto|]. split; [|exact Hres].
      intros t. rewrite Hg. eapply validation_task_id; eauto.
    + exists (fun t => t), w. split; [apply mutates_refl|]. split; [auto|].
      left. exists e. erewrite bind_Raise by exact Hb. reflexivity.
    + erewrite bind_Return by exact Hb. apply IH, Hupd.
Qed.

Lemma update_keeps_doc_key (upd d : document) :
  upd !! "task_id" = None ->
  DatabaseHandler.doc_key (upd ∪ d) = DatabaseHandler.doc_key d.
Proof.
  intros H. unfold DatabaseHandler.doc_key. rewrite lookup_union_r by exact H.
  reflexivity.
Qed.

Lemma store_only_inv w w' :
  store_only w w' ->
  map DatabaseHandler.doc_key (db_collection w')
  = map DatabaseHandler.doc_key (db_collection w) ->
  cache_inv w -> cache_inv w'.
Proof.
  intros [] Hc Hinv. eapply cache_inv_frame; eauto; try congruence; try lia.
Qed.

Lemma get_task_cached task_id w task :
  TaskManager.get_task task_id w = (Return (Some task), w) ->
  exists k, (k, task) ∈ _tasks w.
Proof.
  rewrite get_task_run. intros [= H].
  destruct (PyDict.getitem task_id (_tasks w)) as [t|] eqn:E.
  - injection H as ->. exists task_id. apply getitem_Some_elem, E.
  - pose proof (first_partial_spec task_id (_tasks w)) as Hfp. rewrite H in Hfp.
    destruct Hfp as (before & k & after & -> & _). exists k.
    apply elem_of_app. right. left.
Qed.

Lemma update_task_inv task_id (u : updates) w :
  cache_inv w ->
  cache_inv (snd (TaskManager.update_task task_id (u_title u) (u_description u)
                    (u_due_date u) (u_priority u) (u_status u) w)).
Proof.
  intros Hinv. rewrite update_task_blocks.
  erewrite bind_Return by apply get_task_run.
  destruct (match PyDict.getitem task_id (_tasks w) with
            | Some task => Some task
            | None => TaskManager.first_partial (Str.lower task_id) (_tasks w)
            end) as [task|]; [|exact Hinv].
  unfold read, get. erewrite bind_Return by reflexivity.
  destruct (update_blocks_any u task (update_finish (_task_id (heap w task)))
              update_order ∅ w (lookup_empty _))
    as (g & w1 & Hm & Hg & [[e Hrun]|(upd & Hupd & Hrun)]); rewrite Hrun.
  - simpl. eapply mutates_inv; eauto.
  - assert (Hinv1 : cache_inv w1) by (eapply mutates_inv; eauto).
    destruct (decide (upd = ∅)) as [->|Hne].
    + exact Hinv1.
    + destruct (update_finish_spec (_task_id (heap w task)) upd w1 Hne)
        as (o & w2 & -> & Hso & Heach & _). simpl.
      eapply store_only_inv; [exact Hso| |exact Hinv1].
      clear -Heach Hupd.
      induction Heach as [|d d' c c' [->| ->] _ IH]; simpl; [reflexivity| |];
        rewrite IH; [reflexivity|].
      rewrite update_keeps_doc_key by exact Hupd. reflexivity.
Qed.

(** *** Deleting *)

Lemma remove_first_keys task_id x : forall c,
  x ∈ map DatabaseHandler.doc_key c -> x <> VStr task_id ->
  x ∈ map DatabaseHandler.doc_key (fst (DatabaseHandler.remove_first task_id c)).
Proof.
  induction c as [|d c IH]; simpl; intros Hin Hne; [exact Hin|].
  destruct (DatabaseHandler.matches task_id d) eqn:E.
  - simpl. apply elem_of_cons in Hin as [->|Hin]; [|exact Hin].
    exfalso. apply Hne. unfold DatabaseHandler.matches in E.
    apply bool_decide_eq_true in E. unfold DatabaseHandler.doc_key. rewrite E.
    reflexivity.
  - destruct (DatabaseHandler.remove_first task_id c) as [c' m]. simpl in *.
    apply elem_of_cons in Hin as [->|Hin]; [left|right; auto].
Qed.

Lemma remove_first_sublist task_id : forall c,
  map DatabaseHandler.doc_key (fst (DatabaseHandler.remove_first task_id c))
  `sublist_of` map DatabaseHandler.doc_key c.
Proof.
  induction c as [|d c IH]; simpl; [constructor|].
  destruct (DatabaseHandler.matches task_id d).
  - simpl. apply sublist_cons. reflexivity.
  - destruct (DatabaseHandler.remove_first task_id c) as [c' m]. simpl in *.
    apply sublist_skip. exact IH.
Qed.

Lemma db_delete_task_spec task_id w :
  match DatabaseHandler.delete_task task_id w with
  | (Return _, w') =>
      w' = with_collection (fst (DatabaseHandler.remove_first task_id (db_collection w))) w
  | (Raise e, w') => w' = w
  end.
Proof.
  unfold DatabaseHandler.delete_task, DatabaseHandler.is_connected,
    DatabaseHandler.delete_one, DatabaseHandler.on_server.
  unfold_M. destruct (db_alive w); simpl; [|reflexivity].
  destruct (db_fault w); simpl; [reflexivity|].
  destruct (DatabaseHandler.remove_first task_id (db_collection w)); reflexivity.
Qed.

Lemma delete_task_inv task_id w :
  cache_inv w -> cache_inv (snd (TaskManager.delete_task task_id w)).
Proof.
  intros Hinv. unfold TaskManager.delete_task.
  erewrite bind_Return by apply get_task_run.
  destruct (match PyDict.getitem task_id (_tasks w) with
            | Some task => Some task
            | None => TaskManager.first_partial (Str.lower task_id) (_tasks w)
            end) as [task|] eqn:Hfound; [|exact Hinv].
  assert (Hget : TaskManager.get_task task_id w = (Return (Some task), w))
    by (rewrite get_task_run, Hfound; reflexivity).
  destruct (get_task_cached _ _ _ Hget) as (k & Hin).
  unfold read, get. erewrite bind_Return by reflexivity.
  destruct Hinv as [Hl Hids Halloc Hk Hst Hsub].
  assert (Hid : _task_id (heap w task) = k).
  { rewrite Forall_forall in Hids. apply (Hids _ Hin). }
  rewrite Hid. unfold try_except.
  pose proof (db_delete_task_spec k w) as Hdb.
  destruct (DatabaseHandler.delete_task k w) as [[r|e] w1] eqn:Hrun.
  - subst w1. erewrite bind_Return by exact Hrun.
    erewrite bind_Return by reflexivity. simpl.
    assert (Hkey : k ∈ PyDict.keys (_tasks w)).
    { unfold PyDict.keys. apply list_elem_of_fmap. exists (k, task). auto. }
    rewrite (contains_key _ _ Hkey). unfold_M. simpl.
    constructor; simpl.
    + rewrite Hl. symmetry.
      apply (values_delitem (fun l => _task_id (heap w l))); assumption.
    + rewrite Forall_forall in *. intros item Hi. apply Hids.
      eapply delitem_sublist; eauto.
    + rewrite Forall_forall in *. intros item Hi. apply Halloc.
      eapply delitem_sublist; eauto.
    + rewrite keys_delitem by exact Hk.
      apply NoDup_ListNoDup, List.NoDup_filter, NoDup_ListNoDup, Hk.
    + unfold store_unique in *. eapply sublist_NoDup; [exact Hst|].
      apply remove_first_sublist.
    + intros k' Hk'. rewrite keys_delitem in Hk' by exact Hk.
      apply list_elem_of_In, List.filter_In in Hk' as [Hk' Hne].
      apply list_elem_of_In in Hk'.
      apply remove_first_keys; [apply Hsub, Hk'|].
      apply negb_true_iff, String.eqb_neq in Hne. congruence.
  - subst w1. erewrite bind_Raise by exact Hrun. simpl.
    constructor; assumption.
Qed.

(** *** Every state the manager reaches *)

Lemma init_inv w : store_unique (db_collection w) -> cache_inv (snd (TaskManager.init w)).
Proof.
  intros Hst. constructor; simpl; auto; try constructor.
  intros k Hk. apply elem_of_nil in Hk. contradiction.
Qed.

Lemma perform_inv op w : cache_inv w -> cache_inv (perform op w).
Proof.
  intros Hinv. destruct op; simpl.
  - apply load_tasks_from_db_inv, Hinv.
  - apply add_task_inv, Hinv.
  - apply update_task_inv, Hinv.
  - apply (update_task_inv task_id (mk_updates None None VNone None (Some "Completed"))),
      Hinv.
  - apply delete_task_inv, Hinv.
Qed.

Lemma reachable_inv w : reachable w -> cache_inv w.
Proof.
  induction 1 as [w Hst|w op _ IH|w alive fault _ IH].
  - apply init_inv, Hst.
  - apply perform_inv, IH.
  - eapply cache_inv_frame; [exact IH| | | | |]; simpl; auto.
Qed.

(** C9: in every world the manager reaches by [load_tasks_from_db],
    [add_task], [update_task], [mark_completed] and [delete_task], whether they
    return or raise, the dictionary and the list hold the same tasks: every
    task of the list is the object stored in the dictionary under its id, every
    entry of the dictionary is in the list exactly once, and the two have the
    same size. *)
Theorem cache_consistent_reachable (w : World) :
  reachable w -> cache_consistent w.
Proof. intros H. apply cache_inv_consistent, reachable_inv, H. Qed.

Lemma reachable_foldl ops : forall w,
  reachable w -> reachable (foldl (fun w op => perform op w) w ops).
Proof.
  induction ops as [|op ops IH]; intros w Hw; [exact Hw|].
  apply IH, reach_perform, Hw.
Qed.

Lemma session_reachable : reachable session_world.
Proof.
  apply reach_perform, reach_connection, reachable_foldl, reach_init.
  constructor.
Qed.

Lemma cache_consistent_reachable_witness :
  reachable session_world /\ cache_consistent session_world.
Proof.
  split; [exact session_reachable|].
  exact (cache_consistent_reachable session_world session_reachable).
Defined.

(** ** The scenarios of the specification, evaluated *)

Example scenario_sort_by_due_date :
  fst (TaskManager.sort_tasks [0; 1; 2]%nat "due_date" false three_task_world)
  = Return [2; 1; 0]%nat.
Proof. vm_compute. reflexivity. Qed.

Example scenario_sort_by_priority_descending :
  fst (TaskManager.sort_tasks [0; 1; 2]%nat "priority" true three_task_world)
  = Return [0; 2; 1]%nat.
Proof. vm_compute. reflexivity. Qed.

Example scenario_sort_by_priority_ascending :
  fst (TaskManager.sort_tasks [0; 1; 2]%nat "priority" false three_task_world)
  = Return [1; 0; 2]%nat.
Proof. vm_compute. reflexivity. Qed.

Example scenario_filter_high :
  fst (TaskManager.filter_tasks (Some "High") None None None None three_task_world)
  = Return [0; 2]%nat.
Proof. vm_compute. reflexivity. Qed.

Example scenario_get_by_prefix :
  fst (TaskManager.get_task "0C0FFEE0" three_task_world) = Return (Some 1%nat).
Proof. vm_compute. reflexivity. Qed.

Example scenario_invalid_priority_writes_nothing (w : World) :
  TaskManager.add_task "T4" "" (mk_datetime 2024 1 2 0 0 0 0) "Urgent" None w
  = (Raise (ValueError "Priority must be one of: Low, Medium, High"), w).
Proof. reflexivity. Qed.

Example scenario_delete_then_get :
  fst (TaskManager.get_task "0c0ffee0-0000-4000-8000-000000000002"
         (snd (TaskManager.delete_task "0c0ffee0" three_task_world)))
  = Return None /\
  fst (TaskManager.get_task_count
         (snd (TaskManager.delete_task "0c0ffee0" three_task_world)))
  = Return 2%nat.
Proof. split; vm_compute; reflexivity. Qed.

(** * Further properties *)

(** ** validators.py *)

Lemma lstrip_empty s : Str.lstrip s = "" <-> all_space s = true.
Proof.
  induction s as [|c s IH]; simpl; [tauto|].
  destruct (Str.is_space c); simpl; [exact IH|]. split; discriminate.
Qed.

Lemma strip_empty s : Str.strip s = "" <-> all_space s = true.
Proof.
  rewrite <- lstrip_empty. unfold Str.strip. split.
  - intros H. pose proof (lstrip_head s) as Hh.
    destruct (Str.lstrip s) as [|c r]; [reflexivity|].
    destruct (rstrip_head c r Hh) as [r' Hr]. congruence.
  - intros ->. reflexivity.
Qed.

Lemma truthy_false s : Str.truthy s = false <-> s = "".
Proof. destruct s; simpl; split; congruence. Qed.

(** X1: [validate_title] raises [ValueError("Title cannot be empty")] exactly
    when the title is empty or whitespace only; otherwise it returns the title
    without its surrounding whitespace, which is not empty and which it
    accepts unchanged when validated again. *)
Theorem validate_title_spec (title : string) :
  match Validators.validate_title title with
  | Return v =>
      all_space title = false /\ v = Str.strip title /\ v <> "" /\
      Str.strip v = v /\ Validators.validate_title v = Return v
  | Raise e =>
      all_space title = true /\ e = ValueError "Title cannot be empty"
  end.
Proof.
  unfold Validators.validate_title.
  destruct (Str.truthy title) eqn:Et; simpl.
  - destruct (Str.truthy (Str.strip title)) eqn:Es; simpl.
    + assert (Hne : Str.strip title <> "").
      { intros H. apply truthy_false in H. congruence. }
      assert (Hns : all_space title = false).
      { destruct (all_space title) eqn:E; [|reflexivity].
        apply strip_empty in E. contradiction. }
      repeat split; auto using strip_idem.
      rewrite strip_idem, Es.
      destruct (Str.truthy (Str.strip title)) eqn:E2; [reflexivity|discriminate].
    + apply truthy_false in Es. split; [apply strip_empty, Es|reflexivity].
  - apply truthy_false in Et. subst. split; reflexivity.
Qed.

Lemma lower_valid_priority v :
  v ∈ VALID_PRIORITIES ->
  Validators.priority_map !! Str.lower v = Some v.
Proof.
  unfold VALID_PRIORITIES. rewrite !elem_of_cons, elem_of_nil.
  intros [->|[->|[->|[]]]]; reflexivity.
Qed.

Lemma lower_valid_status v :
  v ∈ VALID_STATUSES ->
  Validators.status_map !! Str.lower v = Some v.
Proof.
  unfold VALID_STATUSES. rewrite !elem_of_cons, elem_of_nil.
  intros [->|[->|[->|[]]]]; reflexivity.
Qed.

Lemma validate_priority_lower priority v :
  Validators.validate_priority priority = Return v ->
  Str.lower (Str.strip priority) = Str.lower v.
Proof.
  unfold Validators.validate_priority, Validators.priority_map,
    Validators.valid_priorities.
  generalize (Str.lower (Str.strip priority)). intros s.
  rewrite !lookup_insert, lookup_empty.
  repeat case_decide; subst; try (intros [= <-]; reflexivity).
  cbn [find].
  repeat (match goal with
          | |- context [String.eqb ?a ?b] =>
              let E := fresh in destruct (String.eqb a b) eqn:E;
              [apply String.eqb_eq in E|]
          end; try (intros [= <-]; congruence)).
Qed.

Lemma validate_status_lower status v :
  Validators.validate_status status = Return v ->
  Str.lower (Str.strip status) = Str.lower v.
Proof.
  unfold Validators.validate_status, Validators.status_map,
    Validators.valid_statuses.
  generalize (Str.lower (Str.strip status)). intros s.
  rewrite !lookup_insert, lookup_empty.
  repeat case_decide; subst; try (intros [= <-]; reflexivity).
  cbn [find].
  repeat (match goal with
          | |- context [String.eqb ?a ?b] =>
              let E := fresh in destruct (String.eqb a b) eqn:E;
              [apply String.eqb_eq in E|]
          end; try (intros [= <-]; congruence)).
Qed.

(** X2: [validate_priority] returns [v] exactly when [v] is one of Low,
    Medium, High and the text, stripped and lowered, is [v] lowered; on every
    other text it raises [ValueError].  So a returned priority is always one
    the setter of the record accepts. *)
Theorem validate_priority_iff (priority v : string) :
  (Validators.validate_priority priority = Return v <->
   v ∈ VALID_PRIORITIES /\ Str.lower (Str.strip priority) = Str.lower v) /\
  (forall e, Validators.validate_priority priority = Raise e ->
             e = ValueError "Priority must be one of: Low, Medium, High").
Proof.
  split; [split|].
  - intros H. split; [eapply validate_priority_Return, H|].
    apply validate_priority_lower, H.
  - intros [Hv Hl]. unfold Validators.validate_priority. cbv zeta.
    rewrite Hl, (lower_valid_priority _ Hv). reflexivity.
  - unfold Validators.validate_priority. cbv zeta.
    destruct (Validators.priority_map !! _); [discriminate|].
    destruct (find _ _); [discriminate|]. intros e [= <-]. reflexivity.
Qed.

(** X3: [validate_status] returns [v] exactly when [v] is one of Pending,
    In Progress, Completed and the text, stripped and lowered, is [v] lowered;
    on every other text it raises [ValueError]. *)
Theorem validate_status_iff (status v : string) :
  (Validators.validate_status status = Return v <->
   v ∈ VALID_STATUSES /\ Str.lower (Str.strip status) = Str.lower v) /\
  (forall e, Validators.validate_status status = Raise e ->
             e = ValueError "Status must be one of: Pending, In Progress, Completed").
Proof.
  split; [split|].
  - intros H. split; [eapply validate_status_Return, H|].
    apply validate_status_lower, H.
  - intros [Hv Hl]. unfold Validators.validate_status. cbv zeta.
    rewrite Hl, (lower_valid_status _ Hv). reflexivity.
  - unfold Validators.validate_status. cbv zeta.
    destruct (Validators.status_map !! _); [discriminate|].
    destruct (find _ _); [discriminate|]. intros e [= <-]. reflexivity.
Qed.

(** X4: [validate_description] returns the description without its surrounding
    whitespace, the empty string for [None]; validating its result again
    changes nothing. *)
Theorem validate_description_strip (description : string) :
  Validators.validate_description (Some description) = Str.strip description /\
  Validators.validate_description None = "" /\
  Validators.validate_description
    (Some (Validators.validate_description (Some description)))
  = Validators.validate_description (Some description).
Proof.
  assert (H : forall d, Validators.validate_description (Some d) = Str.strip d).
  { intros d. unfold Validators.validate_description.
    destruct (Str.truthy d) eqn:Et; simpl.
    - destruct (Str.truthy (Str.strip d)) eqn:Es; [reflexivity|].
      apply truthy_false in Es. congruence.
    - apply truthy_false in Et. subst. reflexivity. }
  split; [apply H|]. split; [reflexivity|].
  rewrite !H. apply strip_idem.
Qed.

(** ** cli.py: listing *)

Lemma validate_sort_choice_cases (choice : string) :
  (Str.strip choice ∈ Validators.valid_choices /\
   Validators.validate_sort_choice choice = Return (Str.strip choice)) \/
  (Str.strip choice = "" /\ Validators.validate_sort_choice choice = Return "1") \/
  ((Str.strip choice ∉ Validators.valid_choices) /\
   exists msg, Validators.validate_sort_choice choice = Raise (ValueError msg)).
Proof.
  unfold Validators.validate_sort_choice. cbv zeta.
  destruct (Str.truthy (Str.strip choice)) eqn:Et; simpl.
  - destruct (bool_decide (Str.strip choice ∈ Validators.valid_choices)) eqn:E; simpl.
    + left. apply bool_decide_eq_true in E. auto.
    + right. right. apply bool_decide_eq_false in E. eauto.
  - right. left. apply truthy_false in Et. auto.
Qed.

Lemma sort_map_valid (choice : string) :
  default "created_at" (CLI.sort_map !! choice) ∈ TaskManager.valid_sort_fields.
Proof.
  unfold CLI.sort_map, TaskManager.valid_sort_fields.
  rewrite !lookup_insert, lookup_empty.
  repeat case_decide; simpl; set_solver.
Qed.

(** X5: [list_tasks] never ends in its error handler.  On an empty cache it
    reports that there is no task; otherwise it displays a permutation of the
    cached tasks, sorted by the field the typed choice selects — [created_at]
    when the choice is empty or not one of 1 to 5 — so that [sort_tasks] is
    never given a field it rejects; nothing is changed. *)
Theorem list_tasks_never_fails (sort_choice_line reverse_line : string) (w : World) :
  exists r,
    CLI.list_tasks sort_choice_line reverse_line w = (Return r, w) /\
    match _task_list w with
    | [] => r = CLI.NoTasks
    | _ =>
        exists sort_by out,
          r = CLI.Listed out /\
          sort_by ∈ TaskManager.valid_sort_fields /\
          (Str.strip sort_choice_line ∈ Validators.valid_choices ->
           CLI.sort_map !! Str.strip sort_choice_line = Some sort_by) /\
          (Str.strip sort_choice_line ∉ Validators.valid_choices ->
           sort_by = "created_at") /\
          TaskManager.sort_tasks (_task_list w) sort_by
            (String.eqb (Str.lower (Str.strip reverse_line)) "y") w
          = (Return out, w) /\
          out ≡ₚ _task_list w
    end.
Proof.
  unfold CLI.list_tasks, TaskManager.get_all_tasks, try_except.
  erewrite bind_Return by reflexivity.
  destruct (_task_list w) as [|t ts] eqn:Hl; [eexists; split; reflexivity|].
  set (tasks := t :: ts).
  set (c := Str.strip sort_choice_line).
  assert (Hc : exists sc,
             (match lift (Validators.validate_sort_choice c) w with
              | (Return a, w') => (Return a, w')
              | (Raise e, w') => (if is_ValueError e then mret "1" else raise e) w'
              end) = (Return sc, w) /\
             (c ∈ Validators.valid_choices -> sc = c) /\
             (c ∉ Validators.valid_choices -> sc = "1")).
  { unfold lift.
    assert (Hs : Str.strip c = c) by apply strip_idem.
    destruct (validate_sort_choice_cases c) as [[Hin ->]|[[He ->]|[Hn [msg ->]]]];
      rewrite ?Hs in *.
    - exists c. split; [reflexivity|]. split; [auto|contradiction].
    - exists "1". split; [reflexivity|]. split; [|auto].
      rewrite He. intros Hin. unfold Validators.valid_choices in Hin.
      exfalso. revert Hin. rewrite !elem_of_cons, elem_of_nil.
      intros [H|[H|[H|[H|[H|[]]]]]]; discriminate H.
    - exists "1". split; [reflexivity|]. split; [contradiction|auto]. }
  destruct Hc as (sc & Hrun & Hin & Hout).
  erewrite bind_Return by exact Hrun. cbv zeta.
  set (sort_by := default "created_at" (CLI.sort_map !! sc)).
  pose proof (sort_map_valid sc) as Hvalid. fold sort_by in Hvalid.
  set (reverse := String.eqb (Str.lower (Str.strip reverse_line)) "y").
  assert (Hsort : TaskManager.sort_tasks tasks sort_by reverse w
                  = (Return (sorted (fun task => TaskManager.get_sort_key sort_by (heap w task))
                                    reverse tasks), w)).
  { unfold TaskManager.sort_tasks. rewrite (bool_decide_eq_true_2 _ Hvalid). reflexivity. }
  erewrite bind_Return by exact Hsort.
  eexists. split; [reflexivity|].
  exists sort_by, (sorted (fun task => TaskManager.get_sort_key sort_by (heap w task))
                          reverse tasks).
  split; [reflexivity|]. split; [exact Hvalid|]. split; [|split; [|split]].
  - intros Hc. unfold sort_by. rewrite (Hin Hc).
    fold c. revert Hc. unfold Validators.valid_choices.
    rewrite !elem_of_cons, elem_of_nil.
    intros [->|[->|[->|[->|[->|[]]]]]]; reflexivity.
  - intros Hc. unfold sort_by. rewrite (Hout Hc). reflexivity.
  - exact Hsort.
  - apply sorted_perm.
Qed.

(** ** task.py: setters and [from_dict] *)

Lemma valid_task_set_description v t : valid_task t -> valid_task (set_description v t).
Proof. intros H. exact H. Qed.

Lemma valid_task_set_due_date v t : valid_task t -> valid_task (set_due_date v t).
Proof. intros H. exact H. Qed.

(** X6: on a valid task every setter either raises and leaves the world
    exactly as it was, or assigns its own field of that one object and leaves
    the task valid.  The title setter stores the title stripped and raises for
    an empty or whitespace-only one; the description setter never raises; the
    due-date setter raises [TypeError] for anything but a date-time; the
    priority and status setters raise for a text outside their closed set. *)
Theorem setters_keep_task_valid (l : loc) (w : World) :
  valid_task (heap w l) ->
  (forall v,
     match Task_set_title l v w with
     | (Return _, w') =>
         all_space v = false /\ mutates l (set_title (Str.strip v)) w w' /\
         valid_task (heap w' l)
     | (Raise e, w') =>
         all_space v = true /\ w' = w /\ e = ValueError "Title cannot be empty"
     end) /\
  (forall v,
     exists w', Task_set_description l v w = (Return tt, w') /\
                mutates l (set_description v) w w' /\ valid_task (heap w' l)) /\
  (forall v,
     match Task_set_due_date l v w with
     | (Return _, w') =>
         exists d, v = VDatetime d /\ mutates l (set_due_date d) w w' /\
                   valid_task (heap w' l)
     | (Raise e, w') =>
         w' = w /\ e = TypeError "Due date must be a datetime object"
     end) /\
  (forall v,
     match Task_set_priority l v w with
     | (Return _, w') =>
         v ∈ VALID_PRIORITIES /\ mutates l (set_priority v) w w' /\
         valid_task (heap w' l)
     | (Raise e, w') => (v ∉ VALID_PRIORITIES) /\ w' = w /\ exists msg, e = ValueError msg
     end) /\
  (forall v,
     match Task_set_status l v w with
     | (Return _, w') =>
         v ∈ VALID_STATUSES /\ mutates l (set_status v) w w' /\
         valid_task (heap w' l)
     | (Raise e, w') => (v ∉ VALID_STATUSES) /\ w' = w /\ exists msg, e = ValueError msg
     end).
Proof.
  intros (Ht & Hs & Hp & Hst). repeat split.
  - intros v. unfold Task_set_title.
    destruct (Str.truthy v) eqn:Ev; cbn [negb orb].
    + destruct (Str.truthy (Str.strip v)) eqn:Es; cbn [negb orb].
      * destruct (write_mutates l (set_title (Str.strip v)) w) as (w' & -> & Hm).
        assert (Hne : Str.strip v <> "").
        { intros H. apply truthy_false in H. congruence. }
        split; [|split; [exact Hm|]].
        -- destruct (all_space v) eqn:E; [|reflexivity].
           apply strip_empty in E. contradiction.
        -- rewrite (mu_here _ _ _ _ Hm). repeat split; simpl; auto using strip_idem.
      * apply truthy_false in Es. unfold raise.
        split; [apply strip_empty, Es|auto].
    + apply truthy_false in Ev. subst. unfold raise. auto.
  - intros v. unfold Task_set_description. rewrite truthy_or_empty.
    destruct (write_mutates l (set_description v) w) as (w' & Hw & Hm).
    exists w'. split; [exact Hw|]. split; [exact Hm|].
    rewrite (mu_here _ _ _ _ Hm). repeat split; auto.
  - intros v. unfold Task_set_due_date. destruct v as [s|d|]; unfold raise; auto.
    destruct (write_mutates l (set_due_date d) w) as (w' & -> & Hm).
    exists d. split; [reflexivity|]. split; [exact Hm|].
    rewrite (mu_here _ _ _ _ Hm). repeat split; auto.
  - intros v. unfold Task_set_priority.
    destruct (bool_decide (v ∈ VALID_PRIORITIES)) eqn:E.
    + apply bool_decide_eq_true in E.
      destruct (write_mutates l (set_priority v) w) as (w' & -> & Hm).
      split; [exact E|]. split; [exact Hm|].
      rewrite (mu_here _ _ _ _ Hm). repeat split; auto.
    + apply bool_decide_eq_false in E. unfold raise. eauto.
  - intros v. unfold Task_set_status.
    destruct (bool_decide (v ∈ VALID_STATUSES)) eqn:E.
    + apply bool_decide_eq_true in E.
      destruct (write_mutates l (set_status v) w) as (w' & -> & Hm).
      split; [exact E|]. split; [exact Hm|].
      rewrite (mu_here _ _ _ _ Hm). repeat split; auto.
    + apply bool_decide_eq_false in E. unfold raise. eauto.
Qed.

Lemma two_task_world_first_valid : valid_task (heap two_task_world 0%nat).
Proof.
  repeat split; try reflexivity; try discriminate.
  - change (_priority (heap two_task_world 0%nat)) with "High".
    unfold VALID_PRIORITIES. set_solver.
  - change (_status (heap two_task_world 0%nat)) with "Pending".
    unfold VALID_STATUSES. set_solver.
Qed.

Lemma setters_keep_task_valid_witness :
  valid_task (heap two_task_world 0%nat) /\
  forall v, exists w',
    Task_set_description 0%nat v two_task_world = (Return tt, w') /\
    valid_task (heap w' 0%nat).
Proof.
  split; [exact two_task_world_first_valid|].
  intros v.
  destruct (setters_keep_task_valid 0%nat two_task_world two_task_world_first_valid)
    as (_ & Hd & _).
  destruct (Hd v) as (w' & Hrun & _ & Hv). eauto.
Defined.

(** X7: [from_dict] on a document whose required fields have the annotated
    types.  If one of [task_id], [title], [description], [due_date],
    [priority] is missing it raises [KeyError] for the first missing one and
    creates nothing.  If all are there and [status] and [created_at] are not,
    the new task has status [Pending] and the time of the call as creation
    time. *)
Theorem from_dict_missing_keys (data : document) (w : World) :
  typed_as_annotated data ->
  (forall before k after,
     required_keys = before ++ k :: after ->
     Forall (fun k' => data !! k' <> None) before ->
     data !! k = None ->
     Task_from_dict data w = (Raise (KeyError k), w)) /\
  (forall task_id title description due_date priority,
     data !! "task_id" = Some (VStr task_id) ->
     data !! "title" = Some (VStr title) ->
     data !! "description" = Some (VStr description) ->
     data !! "due_date" = Some (VDatetime due_date) ->
     data !! "priority" = Some (VStr priority) ->
     data !! "status" = None ->
     data !! "created_at" = None ->
     exists w',
       Task_from_dict data w = (Return (heap_next w), w') /\
       heap w' (heap_next w)
       = mk_Task task_id title description due_date priority "Pending"
                 (clock w (clock_pos w))).
Proof.
  intros [Hstr Hdate]. split.
  - intros before k after Hsplit Hbefore Hk.
    assert (Hs : forall k', k' ∈ ["task_id"; "title"; "description"; "priority"] ->
                 data !! k' <> None -> exists s, data !! k' = Some (VStr s)).
    { intros k' Hin Hne. destruct (data !! k') as [v|] eqn:E; [|contradiction].
      destruct (Hstr k' v Hin E) as [s ->]. eauto. }
    assert (Hd : data !! "due_date" <> None ->
                 exists d, data !! "due_date" = Some (VDatetime d)).
    { intros Hne. destruct (data !! "due_date") as [v|] eqn:E; [|contradiction].
      destruct (Hdate v eq_refl) as [d ->]. eauto. }
    unfold required_keys in Hsplit.
    unfold Task_from_dict, item_str, item_datetime.
    destruct before as [|b1 [|b2 [|b3 [|b4 [|b5 rest]]]]];
      simplify_eq/=;
      repeat match goal with
             | H : Forall _ (_ :: _) |- _ => apply Forall_cons in H as [? H]
             end.
    + rewrite Hk. reflexivity.
    + destruct (Hs "task_id") as [s1 ->]; [repeat constructor|assumption|].
      rewrite Hk. reflexivity.
    + destruct (Hs "task_id") as [s1 ->]; [repeat constructor|assumption|].
      destruct (Hs "title") as [s2 ->]; [repeat constructor|assumption|].
      rewrite Hk. reflexivity.
    + destruct (Hs "task_id") as [s1 ->]; [repeat constructor|assumption|].
      destruct (Hs "title") as [s2 ->]; [repeat constructor|assumption|].
      destruct (Hs "description") as [s3 ->]; [repeat constructor|assumption|].
      rewrite Hk. reflexivity.
    + destruct (Hs "task_id") as [s1 ->]; [repeat constructor|assumption|].
      destruct (Hs "title") as [s2 ->]; [repeat constructor|assumption|].
      destruct (Hs "description") as [s3 ->]; [repeat constructor|assumption|].
      destruct Hd as [d ->]; [assumption|].
      rewrite Hk. reflexivity.
    + destruct rest; discriminate.
  - intros task_id title description due_date priority H1 H2 H3 H4 H5 H6 H7.
    unfold Task_from_dict, item_str, item_datetime.
    rewrite H1, H2, H3, H4, H5, H6, H7.
    eexists. split; [reflexivity|]. simpl. apply fn_lookup_insert.
Qed.

Lemma from_dict_missing_keys_witness :
  typed_as_annotated {["task_id" := VStr "a1"]} /\
  Task_from_dict {["task_id" := VStr "a1"]} empty_world
  = (Raise (KeyError "title"), empty_world).
Proof.
  assert (Ht : typed_as_annotated {["task_id" := VStr "a1"]}).
  { split.
    - intros k v _ H. apply lookup_singleton_Some in H as [_ <-]. eauto.
    - intros v H. apply lookup_singleton_Some in H as [H _]. discriminate. }
  split; [exact Ht|].
  apply (proj1 (from_dict_missing_keys _ empty_world Ht) ["task_id"] "title"
               ["description"; "due_date"; "priority"]).
  - reflexivity.
  - constructor; [|constructor]. rewrite lookup_singleton_eq. discriminate.
  - reflexivity.
Defined.

(** ** database_handler.py *)

(** X8: while the store is not connected, every operation of the handler
    raises [ConnectionError("Database not connected")] and changes nothing. *)
Theorem handler_not_connected (w : World) :
  db_alive w = false ->
  let e := ConnectionError "Database not connected" in
  (forall task, DatabaseHandler.insert_task task w = (Raise e, w)) /\
  (forall task_id, DatabaseHandler.get_task_by_id task_id w = (Raise e, w)) /\
  DatabaseHandler.get_all_tasks w = (Raise e, w) /\
  (forall task_id update_data,
     DatabaseHandler.update_task task_id update_data w = (Raise e, w)) /\
  (forall task_id, DatabaseHandler.delete_task task_id w = (Raise e, w)) /\
  (forall task_id, DatabaseHandler.task_exists task_id w = (Raise e, w)).
Proof.
  intros Ha. cbv zeta.
  unfold DatabaseHandler.insert_task, DatabaseHandler.get_task_by_id,
    DatabaseHandler.get_all_tasks, DatabaseHandler.update_task,
    DatabaseHandler.delete_task, DatabaseHandler.task_exists,
    DatabaseHandler.is_connected.
  unfold mbind, M_bind, get, raise. rewrite Ha. simpl. repeat split.
Qed.

Lemma handler_not_connected_witness :
  db_alive offline_world = false /\
  DatabaseHandler.get_all_tasks offline_world
  = (Raise (ConnectionError "Database not connected"), offline_world).
Proof.
  split; [reflexivity|].
  exact (proj1 (proj2 (proj2 (handler_not_connected offline_world eq_refl)))).
Defined.

Lemma Task_from_dict_Raise data w e w' :
  Task_from_dict data w = (Raise e, w') -> w' = w.
Proof.
  unfold Task_from_dict, item_str, item_datetime. unfold_M.
  destruct (data !! "task_id") as [[tid| |]|]; simpl; try (intros [= <- <-]; reflexivity).
  destruct (data !! "title") as [[ti| |]|]; simpl; try (intros [= <- <-]; reflexivity).
  destruct (data !! "description") as [[de| |]|]; simpl; try (intros [= <- <-]; reflexivity).
  destruct (data !! "due_date") as [[| du |]|]; simpl; try (intros [= <- <-]; reflexivity).
  destruct (data !! "priority") as [[pr| |]|]; simpl; try (intros [= <- <-]; reflexivity).
  destruct (data !! "status") as [[st| |]|]; simpl; try (intros [= <- <-]; reflexivity).
  all: destruct (data !! "created_at") as [[[|c0 cr]| cd |]|]; simpl;
    try (intros [= <- <-]; reflexivity).
  all: match goal with
       | |- Task_init ?a ?b ?c ?d ?e ?f ?g ?w = _ -> _ =>
           destruct (Task_init_allocates a b c d e f g w) as (w1 & -> & _)
       end; discriminate.
Qed.

Lemma try_except_wrap {A} (m : M A) (f : exn -> string) w e w' :
  try_except m (fun e0 => raise (Exception (f e0))) w = (Raise e, w') ->
  exists msg, e = Exception msg.
Proof.
  unfold try_except, raise. destruct (m w) as [[a|e0] w0]; intros [= <- <-]. eauto.
Qed.

(** X9: no error of the driver leaves the handler.  Whatever an operation
    raises is a [ConnectionError], an [Exception] or, from [insert_task] only,
    a [ValueError]; an operation that raises has changed nothing, except that
    [get_all_tasks] may have built the tasks of the documents before the
    faulty one. *)
Theorem handler_errors (w : World) (e : exn) (w' : World) :
  (forall task,
     DatabaseHandler.insert_task task w = (Raise e, w') ->
     handler_error e /\ w' = w) /\
  (forall task_id,
     DatabaseHandler.get_task_by_id task_id w = (Raise e, w') ->
     handler_error e /\ is_ValueError e = false /\ w' = w) /\
  (DatabaseHandler.get_all_tasks w = (Raise e, w') ->
   handler_error e /\ is_ValueError e = false /\ allocates w w') /\
  (forall task_id update_data,
     DatabaseHandler.update_task task_id update_data w = (Raise e, w') ->
     handler_error e /\ is_ValueError e = false /\ w' = w) /\
  (forall task_id,
     DatabaseHandler.delete_task task_id w = (Raise e, w') ->
     handler_error e /\ is_ValueError e = false /\ w' = w) /\
  (forall task_id,
     DatabaseHandler.task_exists task_id w = (Raise e, w') ->
     handler_error e /\ is_ValueError e = false /\ w' = w).
Proof.
  repeat split.
  1,2: revert H;
    unfold DatabaseHandler.insert_task, DatabaseHandler.is_connected,
      DatabaseHandler.insert_one, DatabaseHandler.on_server, Task_to_dict;
    unfold_M; destruct (db_alive w); simpl; [|intros [= <- <-]; simpl; auto];
    (destruct (db_fault w); simpl; [intros [= <- <-]; simpl; auto|]);
    (destruct (existsb _ (db_collection w)); simpl; intros [= <- <-]; simpl; auto).
  1-3: revert H;
    unfold DatabaseHandler.get_task_by_id, DatabaseHandler.is_connected,
      DatabaseHandler.find_one, DatabaseHandler.on_server;
    unfold mbind, M_bind, get, raise, try_except, mret, M_ret;
    destruct (db_alive w); simpl; [|intros [= <- <-]; simpl; auto];
    (destruct (db_fault w); simpl; [intros [= <- <-]; simpl; auto|]);
    (destruct (find _ (db_collection w)) as [doc|]; [|discriminate]);
    (destruct (Task_from_dict _ w) as [[l|e0] w0] eqn:Hf; [discriminate|]);
    apply Task_from_dict_Raise in Hf; subst w0; intros [= <- <-]; simpl; auto.
  3-12: pose proof (get_all_tasks_allocates _ _ _ H) as [Hal _];
    destruct Hal; assumption.
  1-2: unfold DatabaseHandler.get_all_tasks, DatabaseHandler.is_connected in H;
    erewrite bind_Return in H by reflexivity; cbv beta in H;
    destruct (db_alive w); cbn [negb] in H;
    [apply try_except_wrap in H as [msg ->]; simpl; auto
    |injection H as <- <-; simpl; auto].
  1-3: revert H;
    unfold DatabaseHandler.update_task, DatabaseHandler.is_connected,
      DatabaseHandler.update_one, DatabaseHandler.on_server;
    unfold_M; destruct (db_alive w); simpl; [|intros [= <- <-]; simpl; auto];
    (destruct (db_fault w); simpl; [intros [= <- <-]; simpl; auto|]);
    (destruct (DatabaseHandler.set_first _ _ _); discriminate).
  1-3: revert H;
    unfold DatabaseHandler.delete_task, DatabaseHandler.is_connected,
      DatabaseHandler.delete_one, DatabaseHandler.on_server;
    unfold_M; destruct (db_alive w); simpl; [|intros [= <- <-]; simpl; auto];
    (destruct (db_fault w); simpl; [intros [= <- <-]; simpl; auto|]);
    (destruct (DatabaseHandler.remove_first _ _); discriminate).
  1-3: revert H;
    unfold DatabaseHandler.task_exists, DatabaseHandler.is_connected,
      DatabaseHandler.count_documents, DatabaseHandler.on_server;
    unfold_M; destruct (db_alive w); simpl; [|intros [= <- <-]; simpl; auto];
    (destruct (db_fault w); simpl; [intros [= <- <-]; simpl; auto|discriminate]).
Qed.

Lemma matches_doc_key task_id d :
  DatabaseHandler.matches task_id d = true <-> DatabaseHandler.doc_key d = VStr task_id.
Proof.
  unfold DatabaseHandler.matches, DatabaseHandler.doc_key.
  rewrite bool_decide_eq_true. destruct (d !! "task_id") as [v|]; simpl; split;
    congruence.
Qed.

Lemma existsb_doc_key_true doc c :
  DatabaseHandler.doc_key doc ∈ map DatabaseHandler.doc_key c ->
  existsb (fun d => bool_decide (DatabaseHandler.doc_key d = DatabaseHandler.doc_key doc)) c
  = true.
Proof.
  induction c as [|d c IH]; simpl; intros H.
  - apply elem_of_nil in H. contradiction.
  - apply elem_of_cons in H as [H|H].
    + rewrite H, bool_decide_eq_true_2 by reflexivity. reflexivity.
    + rewrite IH by exact H. apply orb_true_r.
Qed.

(** X10: [insert_task] on a connected, healthy store that already holds a
    document with the id of the task raises
    [ValueError("Task with ID <id> already exists")] and stores nothing. *)
Theorem insert_task_duplicate (task : loc) (w : World) :
  db_alive w = true -> db_fault w = None ->
  VStr (_task_id (heap w task)) ∈ map DatabaseHandler.doc_key (db_collection w) ->
  DatabaseHandler.insert_task task w
  = (Raise (ValueError ("Task with ID " +:+ _task_id (heap w task) +:+ " already exists")),
     w).
Proof.
  intros Ha Hf Hin.
  unfold DatabaseHandler.insert_task, DatabaseHandler.is_connected,
    DatabaseHandler.insert_one, DatabaseHandler.on_server, Task_to_dict.
  unfold_M. rewrite Ha. simpl. rewrite Hf. simpl.
  rewrite existsb_doc_key_true; [reflexivity|].
  rewrite doc_key_to_dict. exact Hin.
Qed.

Lemma insert_task_duplicate_witness :
  db_alive two_task_world = true /\ db_fault two_task_world = None /\
  DatabaseHandler.insert_task 0%nat two_task_world
  = (Raise (ValueError
              "Task with ID abcdefgh-0000-4000-8000-000000000001 already exists"),
     two_task_world).
Proof.
  split; [reflexivity|]. split; [reflexivity|].
  apply (insert_task_duplicate 0%nat two_task_world eq_refl eq_refl).
  apply (bool_decide_unpack _). vm_compute. exact I.
Defined.

Lemma find_fresh task_id c :
  VStr task_id ∉ map DatabaseHandler.doc_key c ->
  List.filter (DatabaseHandler.matches task_id) c = [].
Proof.
  induction c as [|d c IH]; simpl; intros H; [reflexivity|].
  apply not_elem_of_cons in H as [Hd Hc].
  destruct (DatabaseHandler.matches task_id d) eqn:E.
  - apply matches_doc_key in E. congruence.
  - auto.
Qed.

Lemma find_none_fresh task_id c :
  VStr task_id ∉ map DatabaseHandler.doc_key c ->
  List.find (DatabaseHandler.matches task_id) c = None.
Proof.
  induction c as [|d c IH]; simpl; intros H; [reflexivity|].
  apply not_elem_of_cons in H as [Hd Hc].
  destruct (DatabaseHandler.matches task_id d) eqn:E; [|auto].
  apply matches_doc_key in E. congruence.
Qed.

Lemma find_app_fresh task_id c doc :
  VStr task_id ∉ map DatabaseHandler.doc_key c ->
  DatabaseHandler.matches task_id doc = true ->
  List.find (DatabaseHandler.matches task_id) (c ++ [doc]) = Some doc.
Proof.
  induction c as [|d c IH]; simpl; intros H Hm.
  - rewrite Hm. reflexivity.
  - apply not_elem_of_cons in H as [Hd Hc].
    destruct (DatabaseHandler.matches task_id d) eqn:E; [|auto].
    apply matches_doc_key in E. congruence.
Qed.

(** X11: after [insert_task] has returned, it has returned [True];
    [task_exists] of the id returns [True], and [get_task_by_id] of the id
    returns a new task object with the id, title, description, priority and
    status of the inserted task.  (The two date-times are left out of the
    statement: the server keeps date-times to the millisecond.) *)
Theorem insert_task_then_get (task : loc) (w : World) (r : bool) (w1 : World) :
  DatabaseHandler.insert_task task w = (Return r, w1) ->
  r = true /\
  DatabaseHandler.task_exists (_task_id (heap w task)) w1 = (Return true, w1) /\
  exists w2,
    DatabaseHandler.get_task_by_id (_task_id (heap w task)) w1
    = (Return (Some (heap_next w)), w2) /\
    _task_id (heap w2 (heap_next w)) = _task_id (heap w task) /\
    _title (heap w2 (heap_next w)) = _title (heap w task) /\
    _description (heap w2 (heap_next w)) = _description (heap w task) /\
    _priority (heap w2 (heap_next w)) = _priority (heap w task) /\
    _status (heap w2 (heap_next w)) = _status (heap w task) /\
    (forall l, l <> heap_next w -> heap w2 l = heap w l).
Proof.
  intros Hrun.
  assert (Hr : r = true /\ db_alive w = true /\ db_fault w = None).
  { revert Hrun.
    unfold DatabaseHandler.insert_task, DatabaseHandler.is_connected,
      DatabaseHandler.insert_one, DatabaseHandler.on_server, Task_to_dict.
    unfold_M. destruct (db_alive w); simpl; [|discriminate].
    destruct (db_fault w); simpl; [discriminate|].
    destruct (existsb _ (db_collection w)); simpl; [discriminate|].
    intros [= <- _]. auto. }
  destruct Hr as (-> & Ha & Hf).
  pose proof (insert_task_spec task w) as Hs. rewrite Hrun in Hs.
  destruct Hs as [-> Hfresh]. split; [reflexivity|].
  set (t := heap w task) in *. set (id := _task_id t) in *.
  assert (Hm : DatabaseHandler.matches id (to_dict_fields t) = true).
  { apply matches_doc_key. apply doc_key_to_dict. }
  split.
  - unfold DatabaseHandler.task_exists, DatabaseHandler.is_connected,
      DatabaseHandler.count_documents, DatabaseHandler.on_server.
    unfold_M. simpl. rewrite Ha. simpl. rewrite Hf. simpl.
    rewrite List.filter_app, (find_fresh _ _ Hfresh). simpl. rewrite Hm. reflexivity.
  - unfold DatabaseHandler.get_task_by_id, DatabaseHandler.is_connected,
      DatabaseHandler.find_one, DatabaseHandler.on_server.
    unfold mbind at 1, M_bind at 1, get at 1. cbn [db_alive with_collection]. rewrite Ha.
    cbn [negb]. unfold try_except.
    erewrite bind_Return.
    2:{ unfold_M. simpl. rewrite Hf. simpl.
        rewrite (find_app_fresh _ _ _ Hfresh Hm). reflexivity. }
    cbv beta iota.
    destruct (to_dict_fields_lookups t) as (Hid & Hti & Hde & Hdu & Hpr & Hst & Hcr).
    unfold Task_from_dict, item_str, item_datetime.
    rewrite !lookup_delete_ne by discriminate.
    rewrite Hid, Hti, Hde, Hdu, Hpr, Hst, Hcr.
    unfold Task_init. unfold_M. simpl.
    eexists. split; [reflexivity|]. simpl.
    rewrite fn_lookup_insert. repeat split.
    intros l Hl. apply fn_lookup_insert_ne. congruence.
Qed.

Lemma insert_task_then_get_witness :
  DatabaseHandler.insert_task 0%nat unsaved_task_world
  = (Return true,
     with_collection [to_dict_fields (heap unsaved_task_world 0%nat)] unsaved_task_world) /\
  DatabaseHandler.task_exists "id-9"
    (with_collection [to_dict_fields (heap unsaved_task_world 0%nat)] unsaved_task_world)
  = (Return true,
     with_collection [to_dict_fields (heap unsaved_task_world 0%nat)] unsaved_task_world).
Proof.
  assert (Hrun : DatabaseHandler.insert_task 0%nat unsaved_task_world
                 = (Return true,
                    with_collection [to_dict_fields (heap unsaved_task_world 0%nat)]
                      unsaved_task_world))
    by (vm_compute; reflexivity).
  split; [exact Hrun|].
  exact (proj1 (proj2 (insert_task_then_get 0%nat unsaved_task_world true _ Hrun))).
Defined.

Lemma remove_first_gone task_id : forall c,
  store_unique c ->
  VStr task_id ∉ map DatabaseHandler.doc_key (fst (DatabaseHandler.remove_first task_id c)).
Proof.
  unfold store_unique. induction c as [|d c IH]; simpl; intros Hnd.
  - apply not_elem_of_nil.
  - apply NoDup_cons in Hnd as [Hd Hnd].
    destruct (DatabaseHandler.matches task_id d) eqn:E; simpl.
    + apply matches_doc_key in E. rewrite <- E. exact Hd.
    + specialize (IH Hnd).
      destruct (DatabaseHandler.remove_first task_id c) as [c' m]. simpl in *.
      apply not_elem_of_cons. split; [|exact IH].
      intros Heq. symmetry in Heq. apply matches_doc_key in Heq. congruence.
Qed.

Lemma remove_first_flag task_id : forall c,
  snd (DatabaseHandler.remove_first task_id c) = true <->
  VStr task_id ∈ map DatabaseHandler.doc_key c.
Proof.
  induction c as [|d c IH]; simpl.
  - split; [discriminate|]. intros H. apply elem_of_nil in H. contradiction.
  - destruct (DatabaseHandler.matches task_id d) eqn:E; simpl.
    + apply matches_doc_key in E. rewrite E. split; [left|reflexivity].
    + destruct (DatabaseHandler.remove_first task_id c) as [c' m]. simpl in *.
      rewrite IH. split; [right; assumption|].
      intros H. apply elem_of_cons in H as [H|H]; [|exact H].
      symmetry in H. apply matches_doc_key in H. congruence.
Qed.

Lemma remove_first_keeps task_id d : forall c,
  d ∈ c -> DatabaseHandler.matches task_id d = false ->
  d ∈ fst (DatabaseHandler.remove_first task_id c).
Proof.
  induction c as [|d0 c IH]; simpl; intros Hin Hm; [exact Hin|].
  destruct (DatabaseHandler.matches task_id d0) eqn:E; simpl.
  - apply elem_of_cons in Hin as [->|Hin]; [congruence|exact Hin].
  - specialize (IH).
    destruct (DatabaseHandler.remove_first task_id c) as [c' m]. simpl in *.
    apply elem_of_cons in Hin as [->|Hin]; [left|right; auto].
Qed.

(** X12: on a collection that respects its unique index, [delete_task] that
    returns has returned whether a document with the id was stored;
    afterwards [task_exists] of the id returns [False], [get_task_by_id] of it
    returns [None] and every document with another id is still stored. *)
Theorem delete_task_then_exists (task_id : string) (w : World) (r : bool) (w1 : World) :
  store_unique (db_collection w) ->
  DatabaseHandler.delete_task task_id w = (Return r, w1) ->
  (r = true <-> VStr task_id ∈ map DatabaseHandler.doc_key (db_collection w)) /\
  DatabaseHandler.task_exists task_id w1 = (Return false, w1) /\
  DatabaseHandler.get_task_by_id task_id w1 = (Return None, w1) /\
  (forall d, d ∈ db_collection w -> DatabaseHandler.matches task_id d = false ->
             d ∈ db_collection w1).
Proof.
  intros Hu Hrun.
  pose proof (db_delete_task_spec task_id w) as Hs. rewrite Hrun in Hs. subst w1.
  assert (Hr : db_alive w = true /\ db_fault w = None /\
               r = snd (DatabaseHandler.remove_first task_id (db_collection w))).
  { revert Hrun.
    unfold DatabaseHandler.delete_task, DatabaseHandler.is_connected,
      DatabaseHandler.delete_one, DatabaseHandler.on_server.
    unfold_M. destruct (db_alive w); simpl; [|discriminate].
    destruct (db_fault w); simpl; [discriminate|].
    destruct (DatabaseHandler.remove_first task_id (db_collection w)).
    simpl. intros [= <-]. auto. }
  destruct Hr as (Ha & Hf & ->).
  pose proof (remove_first_gone task_id _ Hu) as Hgone.
  split; [apply remove_first_flag|]. split; [|split].
  - unfold DatabaseHandler.task_exists, DatabaseHandler.is_connected,
      DatabaseHandler.count_documents, DatabaseHandler.on_server.
    unfold_M. simpl. rewrite Ha. simpl. rewrite Hf. simpl.
    rewrite (find_fresh _ _ Hgone). reflexivity.
  - unfold DatabaseHandler.get_task_by_id, DatabaseHandler.is_connected,
      DatabaseHandler.find_one, DatabaseHandler.on_server.
    unfold_M. simpl. rewrite Ha. simpl. rewrite Hf. simpl.
    rewrite (find_none_fresh _ _ Hgone). reflexivity.
  - intros d Hd Hm. simpl. apply remove_first_keeps; assumption.
Qed.

Lemma delete_task_then_exists_witness :
  store_unique (db_collection two_task_world) /\
  exists w1,
    DatabaseHandler.delete_task "0c0ffee0-0000-4000-8000-000000000002" two_task_world
    = (Return true, w1) /\
    DatabaseHandler.task_exists "0c0ffee0-0000-4000-8000-000000000002" w1
    = (Return false, w1).
Proof.
  assert (Hu : store_unique (db_collection two_task_world)).
  { apply (bool_decide_unpack _). vm_compute. exact I. }
  split; [exact Hu|].
  set (w1 := snd (DatabaseHandler.delete_task "0c0ffee0-0000-4000-8000-000000000002"
                    two_task_world)).
  assert (Hrun : DatabaseHandler.delete_task "0c0ffee0-0000-4000-8000-000000000002"
                   two_task_world = (Return true, w1))
    by (vm_compute; reflexivity).
  exists w1. split; [exact Hrun|].
  exact (proj1 (proj2 (delete_task_then_exists _ two_task_world true w1 Hu Hrun))).
Defined.

(** ** task_manager.py: adding *)

Lemma insert_task_run task w :
  db_alive w = true -> db_fault w = None ->
  VStr (_task_id (heap w task)) ∉ map DatabaseHandler.doc_key (db_collection w) ->
  DatabaseHandler.insert_task task w
  = (Return true, with_collection (db_collection w ++ [to_dict_fields (heap w task)]) w).
Proof.
  intros Ha Hf Hfresh.
  unfold DatabaseHandler.insert_task, DatabaseHandler.is_connected,
    DatabaseHandler.insert_one, DatabaseHandler.on_server, Task_to_dict.
  unfold_M. rewrite Ha. simpl. rewrite Hf. simpl.
  destruct (existsb _ (db_collection w)) eqn:E; [|reflexivity].
  exfalso. apply Hfresh. rewrite <- doc_key_to_dict.
  apply existsb_exists in E as (d & Hd & Heq). apply bool_decide_eq_true in Heq.
  rewrite <- Heq. apply list_elem_of_fmap. exists d. split; [reflexivity|].
  apply list_elem_of_In, Hd.
Qed.

Lemma insert_task_Return task w r w1 :
  DatabaseHandler.insert_task task w = (Return r, w1) ->
  r = true /\ db_alive w = true /\ db_fault w = None.
Proof.
  unfold DatabaseHandler.insert_task, DatabaseHandler.is_connected,
    DatabaseHandler.insert_one, DatabaseHandler.on_server, Task_to_dict.
  unfold_M. destruct (db_alive w); simpl; [|discriminate].
  destruct (db_fault w); simpl; [discriminate|].
  destruct (existsb _ (db_collection w)); simpl; [discriminate|].
  intros [= <- _]. auto.
Qed.

(** X13: [add_task] with a title, a priority or a status its validator
    rejects raises the validator's error before anything else happens: no id
    is drawn, no object is built, neither the cache nor the store is touched. *)
Theorem add_task_invalid_input
    (title description : string) (due_date : datetime) (priority : string)
    (status : option string) (w : World) :
  (forall e,
     Validators.validate_title title = Raise e ->
     TaskManager.add_task title description due_date priority status w = (Raise e, w)) /\
  (forall title' e,
     Validators.validate_title title = Return title' ->
     Validators.validate_priority priority = Raise e ->
     TaskManager.add_task title description due_date priority status w = (Raise e, w)) /\
  (forall title' priority' e,
     Validators.validate_title title = Return title' ->
     Validators.validate_priority priority = Return priority' ->
     Validators.validate_status (default "Pending" status) = Raise e ->
     TaskManager.add_task title description due_date priority status w = (Raise e, w)).
Proof.
  unfold TaskManager.add_task. repeat split.
  - intros e ->. reflexivity.
  - intros title' e -> ->. reflexivity.
  - intros title' priority' e -> -> ->. reflexivity.
Qed.

(** What [add_task] leaves behind when it returns. *)
Lemma add_task_run title description due_date priority status w
    title' priority' status' :
  Validators.validate_title title = Return title' ->
  Validators.validate_priority priority = Return priority' ->
  Validators.validate_status (default "Pending" status) = Return status' ->
  db_alive w = true -> db_fault w = None ->
  VStr (uuid_src w (uuid_pos w)) ∉ map DatabaseHandler.doc_key (db_collection w) ->
  let task_id := uuid_src w (uuid_pos w) in
  let t := mk_Task task_id title' (Validators.validate_description (Some description))
                   due_date priority' status' (clock w (clock_pos w)) in
  exists w',
    TaskManager.add_task title description due_date priority status w
    = (Return (heap_next w), w') /\
    heap w' = <[heap_next w := t]> (heap w) /\
    heap_next w' = S (heap_next w) /\
    db_alive w' = true /\ db_fault w' = None /\
    db_collection w' = db_collection w ++ [to_dict_fields t] /\
    _tasks w' = PyDict.setitem task_id (heap_next w) (_tasks w) /\
    _task_list w' = _task_list w ++ [heap_next w].
Proof.
  intros Ht Hp Hs Ha Hf Hfresh. cbv zeta.
  unfold TaskManager.add_task. rewrite Ht, Hp, Hs.
  unfold lift. do 3 (erewrite bind_Return by reflexivity).
  erewrite bind_Return by reflexivity.
  erewrite bind_Return by reflexivity.
  unfold try_except.
  erewrite bind_Return.
  2:{ apply insert_task_run; simpl; try assumption.
      rewrite fn_lookup_insert. simpl. exact Hfresh. }
  unfold_M. simpl. rewrite fn_lookup_insert.
  eexists. split; [reflexivity|]. simpl. auto 10.
Qed.

Lemma add_task_Return title description due_date priority status w task w' :
  TaskManager.add_task title description due_date priority status w = (Return task, w') ->
  exists title' priority' status',
    Validators.validate_title title = Return title' /\
    Validators.validate_priority priority = Return priority' /\
    Validators.validate_status (default "Pending" status) = Return status' /\
    db_alive w = true /\ db_fault w = None /\
    VStr (uuid_src w (uuid_pos w)) ∉ map DatabaseHandler.doc_key (db_collection w).
Proof.
  unfold TaskManager.add_task.
  destruct (Validators.validate_title title) as [title'|e]; [|discriminate].
  destruct (Validators.validate_priority priority) as [priority'|e]; [|discriminate].
  destruct (Validators.validate_status _) as [status'|e]; [|discriminate].
  unfold lift. do 3 (erewrite bind_Return by reflexivity).
  erewrite bind_Return by reflexivity.
  erewrite bind_Return by reflexivity.
  unfold try_except.
  match goal with
  | |- context [mbind _ (DatabaseHandler.insert_task ?l) ?w2] =>
      pose proof (insert_task_spec l w2) as Hs;
      destruct (DatabaseHandler.insert_task l w2) as [[r|e] w3] eqn:Hrun
  end.
  - intros _. apply insert_task_Return in Hrun as (_ & Ha & Hf).
    destruct Hs as [_ Hfresh]. simpl in *. rewrite fn_lookup_insert in Hfresh.
    exists title', priority', status'. auto 10.
  - erewrite bind_Raise by exact Hrun.
    destruct (is_ValueError e); discriminate.
Qed.

(** X14: when the three validators accept their input, the store is
    connected and healthy and holds no document with the id drawn, [add_task]
    returns a new task object: its id is the id drawn, its title, description,
    priority and status are the validated ones, its due date is the one given
    and its creation time the time of the call.  The task is appended to the
    list, its document is appended to the collection, and [get_task] of its id
    finds it. *)
Theorem add_task_success
    (title description : string) (due_date : datetime) (priority : string)
    (status : option string) (w : World) (title' priority' status' : string) :
  Validators.validate_title title = Return title' ->
  Validators.validate_priority priority = Return priority' ->
  Validators.validate_status (default "Pending" status) = Return status' ->
  db_alive w = true -> db_fault w = None ->
  VStr (uuid_src w (uuid_pos w)) ∉ map DatabaseHandler.doc_key (db_collection w) ->
  exists w',
    TaskManager.add_task title description due_date priority status w
    = (Return (heap_next w), w') /\
    heap w' (heap_next w)
    = mk_Task (uuid_src w (uuid_pos w)) title'
              (Validators.validate_description (Some description))
              due_date priority' status' (clock w (clock_pos w)) /\
    (forall l, l <> heap_next w -> heap w' l = heap w l) /\
    _task_list w' = _task_list w ++ [heap_next w] /\
    db_collection w' = db_collection w ++ [to_dict_fields (heap w' (heap_next w))] /\
    TaskManager.get_task (uuid_src w (uuid_pos w)) w' = (Return (Some (heap_next w)), w').
Proof.
  intros Ht Hp Hs Ha Hf Hfresh.
  destruct (add_task_run title description due_date priority status w _ _ _
              Ht Hp Hs Ha Hf Hfresh)
    as (w' & Hrun & Hh & Hn & _ & _ & Hc & Hd & Hl).
  exists w'. split; [exact Hrun|]. rewrite Hh, fn_lookup_insert.
  split; [reflexivity|]. split; [|split; [exact Hl|split; [exact Hc|]]].
  - intros l Hne. apply fn_lookup_insert_ne. congruence.
  - rewrite get_task_run, Hd, getitem_setitem, String.eqb_refl. reflexivity.
Qed.

Lemma add_task_success_witness :
  exists w',
    TaskManager.add_task " Call plumber " " kitchen sink " (mk_datetime 2024 2 1 0 0 0 0)
      "LOW" None two_task_world = (Return 2%nat, w') /\
    _title (heap w' 2%nat) = "Call plumber" /\
    _priority (heap w' 2%nat) = "Low" /\
    _status (heap w' 2%nat) = "Pending".
Proof.
  assert (Hfresh : VStr (uuid_src two_task_world (uuid_pos two_task_world))
                   ∉ map DatabaseHandler.doc_key (db_collection two_task_world)).
  { apply (bool_decide_unpack _). vm_compute. exact I. }
  destruct (add_task_success " Call plumber " " kitchen sink "
              (mk_datetime 2024 2 1 0 0 0 0) "LOW" None two_task_world
              "Call plumber" "Low" "Pending"
              eq_refl eq_refl eq_refl eq_refl eq_refl Hfresh)
    as (w' & Hrun & Hh & _).
  exists w'. split; [exact Hrun|].
  change (heap_next two_task_world) with 2%nat in Hh. rewrite Hh. auto.
Defined.

(** X15: when [add_task] raises, it raises a [ValueError] or an [Exception];
    the dictionary, the list and the collection are as they were and no
    object that existed has changed. *)
Theorem add_task_failure
    (title description : string) (due_date : datetime) (priority : string)
    (status : option string) (w : World) (e : exn) (w' : World) :
  TaskManager.add_task title description due_date priority status w = (Raise e, w') ->
  (is_ValueError e = true \/ exists msg, e = Exception msg) /\
  _tasks w' = _tasks w /\ _task_list w' = _task_list w /\
  db_collection w' = db_collection w /\
  (forall l, (l < heap_next w)%nat -> heap w' l = heap w l).
Proof.
  unfold TaskManager.add_task.
  pose proof (validate_title_spec title) as Ht.
  destruct (Validators.validate_title title) as [title'|e1].
  2:{ destruct Ht as [_ ->]. intros [= <- <-]. auto 10. }
  pose proof (validate_priority_Return priority) as Hp.
  destruct (Validators.validate_priority priority) as [priority'|e2] eqn:Ep.
  2:{ intros [= <- <-]. revert Ep. unfold Validators.validate_priority. cbv zeta.
      destruct (Validators.priority_map !! _); [discriminate|].
      destruct (find _ _); [discriminate|]. intros [= <-]. auto 10. }
  destruct (Validators.validate_status _) as [status'|e3] eqn:Es.
  2:{ intros [= <- <-]. revert Es. unfold Validators.validate_status. cbv zeta.
      destruct (Validators.status_map !! _); [discriminate|].
      destruct (find _ _); [discriminate|]. intros [= <-]. auto 10. }
  unfold lift. do 3 (erewrite bind_Return by reflexivity).
  erewrite bind_Return by reflexivity.
  erewrite bind_Return by reflexivity.
  unfold try_except.
  match goal with
  | |- context [mbind _ (DatabaseHandler.insert_task ?l) ?w2] =>
      pose proof (insert_task_spec l w2) as Hs;
      destruct (DatabaseHandler.insert_task l w2) as [[r|e0] w3] eqn:Hrun
  end.
  - erewrite bind_Return by exact Hrun. discriminate.
  - subst w3. erewrite bind_Raise by exact Hrun.
    destruct (is_ValueError e0); unfold raise; intros [= <- <-]; simpl;
      (split; [eauto|]); repeat split;
      intros l Hl; apply fn_lookup_insert_ne; lia.
Qed.

Lemma add_task_failure_witness :
  exists e w',
    TaskManager.add_task "Call plumber" "" (mk_datetime 2024 2 1 0 0 0 0) "Low" None
      offline_world = (Raise e, w') /\
    _task_list w' = _task_list offline_world /\
    db_collection w' = db_collection offline_world.
Proof.
  set (r := TaskManager.add_task "Call plumber" "" (mk_datetime 2024 2 1 0 0 0 0)
              "Low" None offline_world).
  assert (Hrun : r = (Raise (Exception "Database error: Database not connected"), snd r))
    by (vm_compute; reflexivity).
  exists (Exception "Database error: Database not connected"), (snd r).
  split; [exact Hrun|].
  destruct (add_task_failure _ _ _ _ _ _ _ _ Hrun) as (_ & _ & Hl & Hc & _). auto.
Defined.

(** ** validators.py: the id typed at a prompt *)

(** X16: [validate_task_id] raises [ValueError("Task ID cannot be empty")]
    exactly when the text is empty or whitespace only; otherwise it returns the
    text without its surrounding whitespace, which is not empty. *)
Theorem validate_task_id_spec (task_id : string) :
  match Validators.validate_task_id task_id with
  | Return v =>
      all_space task_id = false /\ v = Str.strip task_id /\ v <> "" /\
      Str.strip v = v /\ Validators.validate_task_id v = Return v
  | Raise e =>
      all_space task_id = true /\ e = ValueError "Task ID cannot be empty"
  end.
Proof.
  unfold Validators.validate_task_id.
  destruct (Str.truthy task_id) eqn:Et; simpl.
  - destruct (Str.truthy (Str.strip task_id)) eqn:Es; simpl.
    + assert (Hne : Str.strip task_id <> "").
      { intros H. apply truthy_false in H. congruence. }
      assert (Hns : all_space task_id = false).
      { destruct (all_space task_id) eqn:E; [|reflexivity].
        apply strip_empty in E. contradiction. }
      repeat split; auto using strip_idem.
      rewrite strip_idem, Es.
      destruct (Str.truthy (Str.strip task_id)) eqn:E2; [reflexivity|discriminate].
    + apply truthy_false in Es. split; [apply strip_empty, Es|reflexivity].
  - apply truthy_false in Et. subst. split; reflexivity.
Qed.

(** ** task_manager.py: an id that resolves to nothing *)

Lemma startswith_refl s : Str.startswith s s = true.
Proof. induction s as [|c s IH]; simpl; [reflexivity|]. rewrite Ascii.eqb_refl. exact IH. Qed.

Lemma no_partial_getitem {V} p (d : list (string * V)) :
  Forall (fun item => Str.startswith (Str.lower (fst item)) (Str.lower p) = false) d ->
  PyDict.getitem p d = None.
Proof.
  induction 1 as [|[k v] d Hk _ IH]; simpl; [reflexivity|].
  destruct (String.eqb k p) eqn:E; [|exact IH].
  apply String.eqb_eq in E as ->. simpl in Hk. rewrite startswith_refl in Hk.
  discriminate.
Qed.

Lemma no_partial_first p items :
  Forall (no_partial p) items ->
  TaskManager.first_partial (Str.lower p) items = None.
Proof.
  induction 1 as [|[k v] d Hk _ IH]; simpl; [reflexivity|].
  unfold no_partial in Hk. simpl in Hk. rewrite Hk. exact IH.
Qed.

(** X17: when no key of the dictionary starts, case-insensitively, with the
    text given, [get_task] returns [None] and [update_task], [mark_completed]
    and [delete_task] return [False]; none of them changes anything, and none
    of them reaches the store. *)
Theorem unknown_id_changes_nothing (task_id : string) (w : World) :
  Forall (no_partial task_id) (_tasks w) ->
  TaskManager.get_task task_id w = (Return None, w) /\
  (forall title description due_date priority status,
     TaskManager.update_task task_id title description due_date priority status w
     = (Return false, w)) /\
  TaskManager.mark_completed task_id w = (Return false, w) /\
  TaskManager.delete_task task_id w = (Return false, w).
Proof.
  intros Hno.
  assert (Hget : TaskManager.get_task task_id w = (Return None, w)).
  { rewrite get_task_run, (no_partial_getitem task_id (_tasks w) Hno),
      (no_partial_first _ _ Hno). reflexivity. }
  split; [exact Hget|].
  assert (Hupd : forall title description due_date priority status,
            TaskManager.update_task task_id title description due_date priority status w
            = (Return false, w)).
  { intros. unfold TaskManager.update_task.
    erewrite bind_Return by exact Hget. reflexivity. }
  split; [exact Hupd|]. split; [apply Hupd|].
  unfold TaskManager.delete_task. erewrite bind_Return by exact Hget. reflexivity.
Qed.

Lemma two_task_world_tasks :
  _tasks two_task_world
  = [("abcdefgh-0000-4000-8000-000000000001", 0%nat);
     ("0c0ffee0-0000-4000-8000-000000000002", 1%nat)].
Proof. vm_compute. reflexivity. Qed.

Lemma unknown_id_changes_nothing_witness :
  Forall (no_partial "beef") (_tasks two_task_world) /\
  TaskManager.delete_task "beef" two_task_world = (Return false, two_task_world).
Proof.
  assert (Hno : Forall (no_partial "beef") (_tasks two_task_world)).
  { rewrite two_task_world_tasks. repeat constructor. }
  split; [exact Hno|].
  exact (proj2 (proj2 (proj2 (unknown_id_changes_nothing "beef" two_task_world Hno)))).
Defined.

(** ** task_manager.py: deleting *)

Lemma getitem_not_key {V} k (d : list (string * V)) :
  k ∉ PyDict.keys d -> PyDict.getitem k d = None.
Proof.
  induction d as [|[k0 v0] d IH]; simpl; [reflexivity|]. intros H.
  apply not_elem_of_cons in H as [Hne H].
  destruct (String.eqb k0 k) eqn:E; [apply String.eqb_eq in E; congruence|auto].
Qed.

Lemma getitem_delitem {V} k (d : list (string * V)) :
  NoDup (PyDict.keys d) -> PyDict.getitem k (PyDict.delitem k d) = None.
Proof.
  intros Hnd. apply getitem_not_key. rewrite keys_delitem by exact Hnd.
  intros Hin. apply list_elem_of_In, List.filter_In in Hin as [_ Hne].
  rewrite String.eqb_refl in Hne. discriminate.
Qed.

Lemma getitem_delitem_ne {V} k k' (d : list (string * V)) :
  k' <> k -> PyDict.getitem k' (PyDict.delitem k d) = PyDict.getitem k' d.
Proof.
  intros Hne. induction d as [|[k0 v0] d IH]; simpl; [reflexivity|].
  destruct (String.eqb k0 k) eqn:E.
  - apply String.eqb_eq in E as ->.
    destruct (String.eqb k k') eqn:E'; [apply String.eqb_eq in E'; congruence|reflexivity].
  - simpl. rewrite IH. reflexivity.
Qed.

Lemma filter_out_absent (task : loc) l :
  task ∉ l -> List.filter (fun t => negb (Nat.eqb t task)) l = l.
Proof.
  induction l as [|a l IH]; simpl; [reflexivity|]. intros H.
  apply not_elem_of_cons in H as [Hne H].
  destruct (Nat.eqb a task) eqn:E; [apply Nat.eqb_eq in E; congruence|].
  simpl. rewrite IH by exact H. reflexivity.
Qed.

Lemma filter_out_length (task : loc) l :
  NoDup l -> task ∈ l ->
  length l = S (length (List.filter (fun t => negb (Nat.eqb t task)) l)).
Proof.
  induction l as [|a l IH]; simpl; intros Hnd Hin.
  - apply elem_of_nil in Hin. contradiction.
  - apply NoDup_cons in Hnd as [Ha Hnd].
    destruct (Nat.eqb a task) eqn:E; simpl.
    + apply Nat.eqb_eq in E as ->. rewrite filter_out_absent by exact Ha. reflexivity.
    + apply Nat.eqb_neq in E. apply elem_of_cons in Hin as [->|Hin]; [congruence|].
      rewrite <- IH by assumption. reflexivity.
Qed.

(** Under the invariant, the tasks of the list whose id is the key of an entry
    are that entry's object and no other. *)
Lemma filter_by_id k task w :
  cache_inv w -> (k, task) ∈ _tasks w ->
  List.filter (fun t => negb (String.eqb (_task_id (heap w t)) k)) (_task_list w)
  = List.filter (fun t => negb (Nat.eqb t task)) (_task_list w).
Proof.
  intros Hinv Hin.
  destruct (cache_inv_consistent w Hinv) as (Hget & _).
  assert (Hk : PyDict.getitem k (_tasks w) = Some task).
  { apply getitem_elem; [apply (inv_keys _ Hinv)|exact Hin]. }
  assert (Hid : _task_id (heap w task) = k).
  { pose proof (inv_ids _ Hinv) as Hids. rewrite Forall_forall in Hids.
    apply (Hids _ Hin). }
  apply List.filter_ext_in. intros t Ht. apply list_elem_of_In, Hget in Ht.
  f_equal. destruct (Nat.eqb t task) eqn:E.
  - apply Nat.eqb_eq in E as ->. rewrite Hid. apply String.eqb_refl.
  - apply Nat.eqb_neq in E. apply String.eqb_neq. intros Heq.
    rewrite Heq in Ht. congruence.
Qed.

(** X18: in a world the manager reaches, let [get_task] resolve the text given
    to a task.  When the store answers, [delete_task] returns [True]: the task
    and no other has left the list, which keeps its order and is one shorter;
    its id is no longer a key of the dictionary, whose other entries are as
    they were; the store holds no document with its id and still holds every
    other document; no object changes.  When the store does not answer,
    [delete_task] raises an [Exception] and nothing at all has changed. *)
Theorem delete_task_cached (task_id : string) (task : loc) (w : World) :
  reachable w ->
  TaskManager.get_task task_id w = (Return (Some task), w) ->
  (db_alive w = true -> db_fault w = None ->
   exists w',
     TaskManager.delete_task task_id w = (Return true, w') /\
     heap w' = heap w /\
     _task_list w' = List.filter (fun t => negb (Nat.eqb t task)) (_task_list w) /\
     length (_task_list w) = S (length (_task_list w')) /\
     PyDict.getitem (_task_id (heap w task)) (_tasks w') = None /\
     (forall k, k <> _task_id (heap w task) ->
                PyDict.getitem k (_tasks w') = PyDict.getitem k (_tasks w)) /\
     (VStr (_task_id (heap w task)) ∉ map DatabaseHandler.doc_key (db_collection w')) /\
     (forall d, d ∈ db_collection w ->
                DatabaseHandler.doc_key d <> VStr (_task_id (heap w task)) ->
                d ∈ db_collection w')) /\
  (db_alive w = false \/ db_fault w <> None ->
   exists msg, TaskManager.delete_task task_id w = (Raise (Exception msg), w)).
Proof.
  intros Hreach Hget. pose proof (reachable_inv w Hreach) as Hinv.
  destruct (get_task_cached _ _ _ Hget) as (k & Hin).
  assert (Hid : _task_id (heap w task) = k).
  { pose proof (inv_ids _ Hinv) as Hids. rewrite Forall_forall in Hids.
    apply (Hids _ Hin). }
  assert (Hkey : k ∈ PyDict.keys (_tasks w)).
  { unfold PyDict.keys. apply list_elem_of_fmap. exists (k, task). auto. }
  destruct (cache_inv_consistent w Hinv) as (_ & Hback & Hnd & _).
  rewrite Hid. unfold TaskManager.delete_task.
  erewrite bind_Return by exact Hget.
  unfold read, get. erewrite bind_Return by reflexivity. rewrite Hid.
  unfold try_except. split.
  - intros Ha Hf.
    assert (Hrun : DatabaseHandler.delete_task k w
                   = (Return (snd (DatabaseHandler.remove_first k (db_collection w))),
                      with_collection
                        (fst (DatabaseHandler.remove_first k (db_collection w))) w)).
    { unfold DatabaseHandler.delete_task, DatabaseHandler.is_connected,
        DatabaseHandler.delete_one, DatabaseHandler.on_server.
      unfold_M. rewrite Ha. simpl. rewrite Hf. simpl.
      destruct (DatabaseHandler.remove_first k (db_collection w)); reflexivity. }
    erewrite bind_Return by exact Hrun.
    erewrite bind_Return by reflexivity. simpl.
    rewrite (contains_key _ _ Hkey). unfold_M. simpl.
    eexists. split; [reflexivity|]. simpl.
    split; [reflexivity|]. split; [apply (filter_by_id k task); assumption|].
    split.
    { rewrite (filter_by_id k task) by assumption. apply filter_out_length; [exact Hnd|].
      apply (Hback k). apply getitem_elem; [apply (inv_keys _ Hinv)|exact Hin]. }
    split; [apply getitem_delitem, (inv_keys _ Hinv)|].
    split; [intros k' Hne; apply getitem_delitem_ne, Hne|].
    split; [apply remove_first_gone, (inv_store _ Hinv)|].
    intros d Hd Hne. apply remove_first_keeps; [exact Hd|].
    destruct (DatabaseHandler.matches k d) eqn:E; [|reflexivity].
    apply matches_doc_key in E. contradiction.
  - intros Hdown.
    assert (Hrun : exists e, DatabaseHandler.delete_task k w = (Raise e, w)).
    { unfold DatabaseHandler.delete_task, DatabaseHandler.is_connected,
        DatabaseHandler.delete_one, DatabaseHandler.on_server.
      unfold_M. destruct (db_alive w); simpl; [|eauto].
      destruct (db_fault w); simpl; [eauto|]. destruct Hdown; congruence. }
    destruct Hrun as (e & Hrun). erewrite bind_Raise by exact Hrun.
    unfold raise. eauto.
Qed.

Lemma two_task_world_reachable : reachable two_task_world.
Proof.
  change two_task_world
    with (perform (Add "Pay rent" "" (mk_datetime 2024 1 5 0 0 0 0) "medium" None)
            (perform (Add "Write report" "draft" (mk_datetime 2024 1 10 0 0 0 0)
                        "High" None)
               (snd (TaskManager.init empty_world)))).
  apply reach_perform, reach_perform, reach_init. constructor.
Qed.

Lemma delete_task_cached_witness :
  reachable two_task_world /\
  TaskManager.get_task "0C0FFEE0" two_task_world = (Return (Some 1%nat), two_task_world) /\
  exists w',
    TaskManager.delete_task "0C0FFEE0" two_task_world = (Return true, w') /\
    _task_list w' = [0%nat].
Proof.
  split; [exact two_task_world_reachable|].
  assert (Hget : TaskManager.get_task "0C0FFEE0" two_task_world
                 = (Return (Some 1%nat), two_task_world)) by (vm_compute; reflexivity).
  split; [exact Hget|].
  destruct (proj1 (delete_task_cached "0C0FFEE0" 1%nat two_task_world
                     two_task_world_reachable Hget) eq_refl eq_refl)
    as (w' & Hrun & _ & Hl & _).
  exists w'. split; [exact Hrun|]. rewrite Hl. vm_compute. reflexivity.
Defined.

(** ** task_manager.py: updating *)

Lemma field_key_inj f g : field_key f = field_key g -> f = g.
Proof. destruct f, g; simpl; intros H; try discriminate H; reflexivity. Qed.

(** When no field of the request is rejected the blocks reach the
    write-through: the cached object has had every given field assigned, and
    [update_data] holds, under the key of each given field, the value the
    object now has, and nothing else new. *)
Lemma update_blocks_pass u task k : forall fs update_data w,
  Forall (passes u) fs -> NoDup fs ->
  exists w1 update_data',
    update_blocks u task fs update_data k w = k update_data' w1 /\
    mutates task (applied u fs) w w1 /\
    (forall f, f ∈ fs -> validation u f <> None ->
       update_data' !! field_key f = Some (field_value f (heap w1 task))) /\
    (forall key, (forall f, f ∈ fs -> validation u f <> None -> field_key f <> key) ->
       update_data' !! key = update_data !! key).
Proof.
  induction fs as [|f fs IH]; intros update_data w Hpass Hnd.
  - exists w, update_data. split; [reflexivity|]. split; [apply mutates_refl|].
    split; [|reflexivity]. intros f Hf. apply elem_of_nil in Hf. contradiction.
  - apply Forall_cons in Hpass as [Hf Hpass]. apply NoDup_cons in Hnd as [Hfresh Hnd].
    unfold passes in Hf.
    pose proof (update_block_spec u task f update_data w) as Hb. simpl.
    destruct (validation u f) as [[set|e]|] eqn:Hv; [|contradiction|].
    + destruct Hb as (w1 & Hb & Hm1). erewrite bind_Return by exact Hb.
      destruct (IH (<[field_key f := field_value f (set (heap w task))]> update_data)
                   w1 Hpass Hnd) as (w2 & d' & Hrun & Hm2 & HA & HB).
      exists w2, d'. split; [exact Hrun|]. split.
      { eapply mutates_ext; [|eapply mutates_trans; eauto].
        intros t. unfold applied. simpl. rewrite Hv. reflexivity. }
      split.
      * intros g Hg Hgiven. apply elem_of_cons in Hg as [->|Hg]; [|auto].
        rewrite HB.
        2:{ intros g Hg _ Heq. apply field_key_inj in Heq. congruence. }
        rewrite lookup_insert_eq. f_equal.
        rewrite (mu_here _ _ _ _ Hm2), (mu_here _ _ _ _ Hm1).
        symmetry. apply applied_frame, Hfresh.
      * intros key Hkey. rewrite HB.
        2:{ intros g Hg Hgiven. apply Hkey; [right; exact Hg|exact Hgiven]. }
        apply lookup_insert_ne. apply Hkey; [left|congruence].
    + erewrite bind_Return by exact Hb.
      destruct (IH update_data w Hpass Hnd) as (w2 & d' & Hrun & Hm2 & HA & HB).
      exists w2, d'. split; [exact Hrun|]. split.
      { eapply mutates_ext; [|exact Hm2].
        intros t. unfold applied. simpl. rewrite Hv. reflexivity. }
      split.
      * intros g Hg Hgiven. apply elem_of_cons in Hg as [->|Hg]; [congruence|auto].
      * intros key Hkey. apply HB. intros g Hg Hgiven.
        apply Hkey; [right; exact Hg|exact Hgiven].
Qed.

Lemma validation_given_dec u :
  (exists f, validation u f <> None) \/ (forall f, validation u f = None).
Proof.
  destruct (validation u FTitle) eqn:H1; [left; exists FTitle; congruence|].
  destruct (validation u FDescription) eqn:H2; [left; exists FDescription; congruence|].
  destruct (validation u FDueDate) eqn:H3; [left; exists FDueDate; congruence|].
  destruct (validation u FPriority) eqn:H4; [left; exists FPriority; congruence|].
  destruct (validation u FStatus) eqn:H5; [left; exists FStatus; congruence|].
  right. intros []; assumption.
Qed.

Lemma update_finish_empty full_task_id w :
  update_finish full_task_id ∅ w = (Return true, w).
Proof. reflexivity. Qed.

Lemma update_finish_run full_task_id upd w :
  upd <> ∅ -> db_alive w = true -> db_fault w = None ->
  update_finish full_task_id upd w
  = (Return true,
     with_collection
       (fst (DatabaseHandler.set_first full_task_id upd (db_collection w))) w).
Proof.
  intros Hne Ha Hf. unfold update_finish. rewrite (bool_decide_eq_true_2 _ Hne).
  unfold DatabaseHandler.update_task, DatabaseHandler.is_connected,
    DatabaseHandler.update_one, DatabaseHandler.on_server.
  unfold_M. rewrite Ha. simpl. rewrite Hf. simpl.
  destruct (DatabaseHandler.set_first full_task_id upd (db_collection w)); reflexivity.
Qed.

(** [$set] reaches a document of the id when there is one. *)
Lemma set_first_hit task_id upd : forall c,
  VStr task_id ∈ map DatabaseHandler.doc_key c ->
  exists d, d ∈ c /\ DatabaseHandler.doc_key d = VStr task_id /\
            (upd ∪ d) ∈ fst (DatabaseHandler.set_first task_id upd c).
Proof.
  induction c as [|d c IH]; simpl; intros Hin.
  - apply elem_of_nil in Hin. contradiction.
  - destruct (DatabaseHandler.matches task_id d) eqn:E.
    + exists d. split; [left|]. split; [apply matches_doc_key, E|left].
    + apply elem_of_cons in Hin as [Hin|Hin].
      { symmetry in Hin. apply matches_doc_key in Hin. congruence. }
      destruct (IH Hin) as (d0 & Hd0 & Hk & Hset).
      destruct (DatabaseHandler.set_first task_id upd c) as [c' m]. simpl in *.
      exists d0. split; [right; exact Hd0|]. split; [exact Hk|right; exact Hset].
Qed.

(** X19: in a world the manager reaches, let [update_task] be called for a
    cached task with a request none of whose fields is rejected.  The cached
    object is assigned every given field, validated, and no other object and
    neither container changes.  When the call returns it returns [True], and
    the store holds a document of the task's id that carries, for every given
    field, the value the cached object now has (the due date is left out of
    this comparison: the server keeps date-times to the millisecond).  When
    the call raises, which takes a given field and a store that does not
    answer, it raises an [Exception]; the collection is as it was, but the
    cached object keeps the new values. *)
Theorem update_task_accepted (task_id : string) (task : loc) (u : updates) (w : World) :
  reachable w ->
  TaskManager.get_task task_id w = (Return (Some task), w) ->
  Forall (passes u) update_order ->
  exists o w',
    TaskManager.update_task task_id (u_title u) (u_description u) (u_due_date u)
      (u_priority u) (u_status u) w = (o, w') /\
    heap w' task = applied u update_order (heap w task) /\
    (forall l, l <> task -> heap w' l = heap w l) /\
    _tasks w' = _tasks w /\ _task_list w' = _task_list w /\
    match o with
    | Return r =>
        r = true /\
        exists d', d' ∈ db_collection w' /\
          DatabaseHandler.doc_key d' = VStr (_task_id (heap w task)) /\
          forall f, validation u f <> None -> f <> FDueDate ->
                    d' !! field_key f = Some (field_value f (heap w' task))
    | Raise e =>
        (exists msg, e = Exception msg) /\
        db_collection w' = db_collection w /\
        (db_alive w = false \/ db_fault w <> None) /\
        exists f, validation u f <> None
    end.
Proof.
  intros Hreach Hget Hpass. pose proof (reachable_inv w Hreach) as Hinv.
  destruct (get_task_cached _ _ _ Hget) as (k & Hin).
  assert (Hid : _task_id (heap w task) = k).
  { pose proof (inv_ids _ Hinv) as Hids. rewrite Forall_forall in Hids.
    apply (Hids _ Hin). }
  assert (Hstored : VStr k ∈ map DatabaseHandler.doc_key (db_collection w)).
  { apply (inv_sub _ Hinv). unfold PyDict.keys. apply list_elem_of_fmap.
    exists (k, task). auto. }
  rewrite update_task_blocks. erewrite bind_Return by exact Hget.
  unfold read, get. erewrite bind_Return by reflexivity. rewrite Hid.
  assert (Hnd : NoDup update_order)
    by (apply (bool_decide_unpack _); vm_compute; exact I).
  destruct (update_blocks_pass u task (update_finish k) update_order ∅ w Hpass Hnd)
    as (w1 & upd & -> & Hm & HA & HB).
  assert (Hall : forall f, f ∈ update_order) by (intros []; repeat constructor).
  assert (Hnoid : upd !! "task_id" = None).
  { rewrite HB; [apply lookup_empty|]. intros f _ _. apply field_key_not_task_id. }
  pose proof (mu_here _ _ _ _ Hm) as Hhere.
  pose proof (mu_others _ _ _ _ Hm) as Hothers.
  pose proof (mu_tasks _ _ _ _ Hm) as Htasks.
  pose proof (mu_task_list _ _ _ _ Hm) as Hlist.
  pose proof (mu_collection _ _ _ _ Hm) as Hcoll.
  pose proof (mu_alive _ _ _ _ Hm) as Halive.
  pose proof (mu_fault _ _ _ _ Hm) as Hfault.
  destruct (validation_given_dec u) as [(f0 & Hf0)|Hnone].
  - assert (Hne : upd <> ∅).
    { intros ->. specialize (HA f0 (Hall f0) Hf0). rewrite lookup_empty in HA.
      discriminate. }
    destruct (db_alive w1) eqn:Ha; [destruct (db_fault w1) eqn:Hf|].
    + destruct (update_finish_spec k upd w1 Hne) as (o & w2 & -> & Hso & _ & Ho).
      exists o, w2. split; [reflexivity|].
      rewrite (so_heap _ _ Hso), (so_tasks _ _ Hso), (so_task_list _ _ Hso).
      do 4 (split; [assumption|]).
      destruct o as [r|e]; [destruct Ho as (_ & _ & ?); congruence|].
      destruct Ho as (He & Hc & _). split; [exact He|].
      split; [congruence|]. split; [right; congruence|eauto].
    + rewrite (update_finish_run k upd w1 Hne Ha Hf).
      eexists _, _. split; [reflexivity|]. simpl.
      do 4 (split; [assumption|]). split; [reflexivity|].
      rewrite <- Hcoll in Hstored.
      destruct (set_first_hit k upd _ Hstored) as (d & _ & Hk & Hset).
      exists (upd ∪ d). split; [exact Hset|].
      split; [rewrite update_keeps_doc_key by exact Hnoid; exact Hk|].
      intros f Hgiven _. apply lookup_union_Some_l, HA; auto.
    + destruct (update_finish_spec k upd w1 Hne) as (o & w2 & -> & Hso & _ & Ho).
      exists o, w2. split; [reflexivity|].
      rewrite (so_heap _ _ Hso), (so_tasks _ _ Hso), (so_task_list _ _ Hso).
      do 4 (split; [assumption|]).
      destruct o as [r|e]; [destruct Ho as (_ & ? & _); congruence|].
      destruct Ho as (He & Hc & _). split; [exact He|].
      split; [congruence|]. split; [left; congruence|eauto].
  - assert (Hempty : upd = ∅).
    { apply map_eq. intros key. rewrite HB; [reflexivity|].
      intros f _ Hgiven. specialize (Hnone f). contradiction. }
    subst upd. rewrite update_finish_empty.
    exists (Return true), w1. split; [reflexivity|].
    do 4 (split; [assumption|]). split; [reflexivity|].
    rewrite <- Hcoll in Hstored.
    apply list_elem_of_fmap in Hstored as (d & Hk & Hd).
    exists d. split; [exact Hd|]. split; [auto|].
    intros f Hgiven. specialize (Hnone f). contradiction.
Qed.

Lemma update_task_accepted_witness :
  reachable two_task_world /\
  TaskManager.get_task "abcdefgh" two_task_world = (Return (Some 0%nat), two_task_world) /\
  exists o w',
    TaskManager.update_task "abcdefgh" (Some " Final report ") None VNone (Some "low")
      None two_task_world = (o, w') /\
    _title (heap w' 0%nat) = "Final report" /\
    _priority (heap w' 0%nat) = "Low".
Proof.
  split; [exact two_task_world_reachable|].
  assert (Hget : TaskManager.get_task "abcdefgh" two_task_world
                 = (Return (Some 0%nat), two_task_world)) by (vm_compute; reflexivity).
  split; [exact Hget|].
  destruct (update_task_accepted "abcdefgh" 0%nat
              (mk_updates (Some " Final report ") None VNone (Some "low") None)
              two_task_world two_task_world_reachable Hget)
    as (o & w' & Hrun & Hheap & _).
  { repeat first [apply Forall_nil_2 | apply Forall_cons_2; [exact I|]]. }
  exists o, w'. split; [exact Hrun|]. rewrite Hheap. split; vm_compute; reflexivity.
Defined.

(** ** task_manager.py: what every reachable cache offers *)

Lemma matches_count task_id : forall c,
  store_unique c -> VStr task_id ∈ map DatabaseHandler.doc_key c ->
  length (List.filter (DatabaseHandler.matches task_id) c) = 1%nat.
Proof.
  unfold store_unique. induction c as [|d c IH]; simpl; intros Hnd Hin.
  - apply elem_of_nil in Hin. contradiction.
  - apply NoDup_cons in Hnd as [Hd Hnd].
    destruct (DatabaseHandler.matches task_id d) eqn:E; simpl.
    + apply matches_doc_key in E. rewrite E in Hd. f_equal.
      clear -Hd. induction c as [|d' c IH]; simpl; [reflexivity|].
      apply not_elem_of_cons in Hd as [Hne Hd].
      destruct (DatabaseHandler.matches task_id d') eqn:E'; [|auto].
      apply matches_doc_key in E'. congruence.
    + apply elem_of_cons in Hin as [Hin|Hin]; [|auto].
      symmetry in Hin. apply matches_doc_key in Hin. congruence.
Qed.

(** X20: in every world the manager reaches, each task of the list is the one
    [get_task] returns for its own id, no two tasks of the list share an id,
    and the store holds exactly one document of that id, so that
    [task_exists] of the handler returns [True] for it whenever the store
    answers. *)
Theorem listed_task_found_and_stored (w : World) (task : loc) :
  reachable w -> task ∈ _task_list w ->
  TaskManager.get_task (_task_id (heap w task)) w = (Return (Some task), w) /\
  (forall task', task' ∈ _task_list w ->
     _task_id (heap w task') = _task_id (heap w task) -> task' = task) /\
  length (List.filter (DatabaseHandler.matches (_task_id (heap w task)))
            (db_collection w)) = 1%nat /\
  (db_alive w = true -> db_fault w = None ->
   DatabaseHandler.task_exists (_task_id (heap w task)) w = (Return true, w)).
Proof.
  intros Hreach Hin. pose proof (reachable_inv w Hreach) as Hinv.
  destruct (cache_inv_consistent w Hinv) as (Hget & _).
  pose proof (Hget task Hin) as Hk.
  assert (Hcount : length (List.filter (DatabaseHandler.matches (_task_id (heap w task)))
                             (db_collection w)) = 1%nat).
  { apply matches_count; [apply (inv_store _ Hinv)|].
    apply (inv_sub _ Hinv). apply getitem_Some_elem in Hk.
    unfold PyDict.keys. apply list_elem_of_fmap. exists (_task_id (heap w task), task).
    auto. }
  split; [rewrite get_task_run, Hk; reflexivity|].
  split; [intros task' Hin' Heq; apply Hget in Hin'; congruence|].
  split; [exact Hcount|].
  intros Ha Hf. unfold DatabaseHandler.task_exists, DatabaseHandler.is_connected,
    DatabaseHandler.count_documents, DatabaseHandler.on_server.
  unfold_M. rewrite Ha. simpl. rewrite Hf. simpl. rewrite Hcount. reflexivity.
Qed.

Lemma listed_task_found_and_stored_witness :
  reachable two_task_world /\ 1%nat ∈ _task_list two_task_world /\
  TaskManager.get_task (_task_id (heap two_task_world 1%nat)) two_task_world
  = (Return (Some 1%nat), two_task_world).
Proof.
  assert (Hin : 1%nat ∈ _task_list two_task_world).
  { apply (bool_decide_unpack _). vm_compute. exact I. }
  split; [exact two_task_world_reachable|]. split; [exact Hin|].
  exact (proj1 (listed_task_found_and_stored two_task_world 1%nat
                  two_task_world_reachable Hin)).
Defined.

(** ** cli.py: the statistics of the background thread *)

Lemma count_disjoint {A} (p q : A -> bool) (l : list A) :
  (forall x, p x = true -> q x = false) ->
  (length (List.filter p l) + length (List.filter q l) <= length l)%nat.
Proof.
  intros Hpq. induction l as [|a l IH]; simpl; [lia|].
  specialize (Hpq a). destruct (p a); simpl.
  - rewrite Hpq by reflexivity. lia.
  - destruct (q a); simpl; lia.
Qed.

Lemma count_partition {A} (p q r : A -> bool) (l : list A) :
  (forall x, p x = true -> q x = false /\ r x = false) ->
  (forall x, q x = true -> r x = false) ->
  (length (List.filter p l) + length (List.filter q l) + length (List.filter r l)
   <= length l)%nat /\
  (Forall (fun x => p x || q x || r x = true) l ->
   length (List.filter p l) + length (List.filter q l) + length (List.filter r l)
   = length l)%nat.
Proof.
  intros Hp Hq. induction l as [|a l [IH1 IH2]]; simpl; [split; [lia|reflexivity]|].
  specialize (Hp a). specialize (Hq a).
  destruct (p a) eqn:Ep; simpl.
  - destruct Hp as [-> ->]; [reflexivity|]. simpl. split; [lia|].
    intros Hall. apply Forall_cons in Hall as [_ Hall]. rewrite <- (IH2 Hall). lia.
  - destruct (q a) eqn:Eq; simpl.
    + rewrite Hq by reflexivity. simpl. split; [lia|].
      intros Hall. apply Forall_cons in Hall as [_ Hall]. rewrite <- (IH2 Hall). lia.
    + destruct (r a) eqn:Er; simpl.
      * split; [lia|].
        intros Hall. apply Forall_cons in Hall as [_ Hall]. rewrite <- (IH2 Hall). lia.
      * split; [lia|].
        intros Hall. apply Forall_cons in Hall as [Ha _].
        rewrite Ep, Eq, Er in Ha. discriminate.
Qed.

(** X21: one period of the background thread, taken with no operation of the
    foreground in between, never raises and changes neither an object, nor the
    cache, nor the store.  It stores no statistics exactly when the list is
    empty.  The statistics it stores count every task of the list; the tasks
    completed, in progress and pending are at most that many, and exactly that
    many when every status is one of the three; the overdue tasks and the
    pending ones of high priority are counted among the tasks not completed. *)
Theorem background_period_spec (w : World) :
  exists o w',
    CLI.background_period w = (Return o, w') /\
    heap w' = heap w /\ _tasks w' = _tasks w /\ _task_list w' = _task_list w /\
    db_collection w' = db_collection w /\
    match o with
    | None => _task_list w = []
    | Some s =>
        _task_list w <> [] /\
        CLI.total s = length (_task_list w) /\
        (CLI.completed s + CLI.in_progress s + CLI.pending s <= CLI.total s)%nat /\
        (Forall (fun t => _status (heap w t) ∈ VALID_STATUSES) (_task_list w) ->
         (CLI.completed s + CLI.in_progress s + CLI.pending s = CLI.total s)%nat) /\
        (CLI.overdue s + CLI.completed s <= CLI.total s)%nat /\
        (CLI.high_priority_pending s + CLI.completed s <= CLI.total s)%nat
    end.
Proof.
  unfold CLI.background_period, TaskManager.get_all_tasks, CLI.count.
  unfold_M. simpl.
  destruct (_task_list w) as [|t0 l] eqn:El.
  - exists None, w. auto 10.
  - rewrite <- El. eexists (Some _), _. split; [reflexivity|]. simpl.
    do 4 (split; [reflexivity|]).
    split; [rewrite El; discriminate|]. split; [reflexivity|].
    set (h := heap w).
    destruct (count_partition
                (fun t => String.eqb (_status (h t)) "Completed")
                (fun t => String.eqb (_status (h t)) "In Progress")
                (fun t => String.eqb (_status (h t)) "Pending")
                (_task_list w)) as [Hle Heq].
    { intros t Ht. apply String.eqb_eq in Ht. rewrite Ht. split; reflexivity. }
    { intros t Ht. apply String.eqb_eq in Ht. rewrite Ht. reflexivity. }
    split; [exact Hle|]. split.
    { intros Hall. apply Heq. eapply Forall_impl; [exact Hall|].
      intros t Ht. simpl in Ht. fold (h t) in Ht.
      unfold VALID_STATUSES in Ht.
      repeat (apply elem_of_cons in Ht as [->|Ht]); [reflexivity..|].
      apply elem_of_nil in Ht. contradiction. }
    split.
    + apply count_disjoint. intros t Ht. apply andb_true_iff in Ht as [_ Ht].
      apply negb_true_iff in Ht. exact Ht.
    + apply count_disjoint. intros t Ht. apply andb_true_iff in Ht as [_ Ht].
      apply negb_true_iff in Ht. exact Ht.
Qed.

(** ** cli.py: deleting needs a confirmation *)

Lemma confirmation_run line w :
  try_except
    (lift (Validators.validate_confirmation (Str.strip line)))
    (fun e => if is_ValueError e then mret false else raise e) w
  = (Return (bool_decide (Str.lower (Str.strip line) ∈ ["yes"; "y"])), w).
Proof.
  unfold Validators.validate_confirmation. cbv zeta. rewrite strip_idem.
  unfold_M.
  destruct (bool_decide (Str.lower (Str.strip line) ∈ Validators.valid_confirmations))
    eqn:E; simpl; [reflexivity|].
  apply bool_decide_eq_false in E. rewrite bool_decide_eq_false_2; [reflexivity|].
  intros Hin. apply E. unfold Validators.valid_confirmations.
  apply elem_of_cons in Hin as [->|Hin]; [left|].
  apply elem_of_cons in Hin as [->|Hin]; [right; left|].
  apply elem_of_nil in Hin. contradiction.
Qed.

(** [delete_task] of the interface, run. *)
Lemma cli_delete_task_run task_id confirm_line w :
  CLI.delete_task task_id confirm_line w
  = if negb (Str.truthy task_id) then (Return CLI.NoId, w)
    else
      match fst (TaskManager.get_task task_id w) with
      | Return (Some _) =>
          if bool_decide (Str.lower (Str.strip confirm_line) ∈ ["yes"; "y"])
          then
            match TaskManager.delete_task task_id w with
            | (Return true, w') => (Return CLI.Deleted, w')
            | (Return false, w') => (Return CLI.DeleteFailed, w')
            | (Raise e, w') =>
                (Return (CLI.DeleteError
                           (if is_ValueError e then "Error: " +:+ exn_str e
                            else "Error deleting task: " +:+ exn_str e)), w')
            end
          else (Return CLI.Cancelled, w)
      | _ => (Return CLI.NotFound, w)
      end.
Proof.
  unfold CLI.delete_task, TaskManager.get_all_tasks.
  unfold try_except at 1. unfold get at 1. erewrite bind_Return by reflexivity.
  destruct (Str.truthy task_id); cbn [negb]; [|reflexivity].
  rewrite get_task_run. erewrite bind_Return by apply get_task_run. cbn [fst].
  destruct (match PyDict.getitem task_id (_tasks w) with
            | Some task => Some task
            | None => TaskManager.first_partial (Str.lower task_id) (_tasks w)
            end) as [task|]; [|reflexivity].
  erewrite bind_Return by apply confirmation_run.
  destruct (bool_decide (Str.lower (Str.strip confirm_line) ∈ ["yes"; "y"]));
    [|reflexivity].
  destruct (TaskManager.delete_task task_id w) as [[[|]|e] w'] eqn:Hrun.
  - erewrite bind_Return by exact Hrun. reflexivity.
  - erewrite bind_Return by exact Hrun. reflexivity.
  - erewrite bind_Raise by exact Hrun. destruct (is_ValueError e); reflexivity.
Qed.

(** X22: [delete_task] of the interface never raises.  Unless the line typed
    at the confirmation prompt is, once stripped and lowered, [yes] or [y],
    it changes nothing and ends with no id, with no task found or with the
    deletion cancelled.  With such a line and an id, it leaves the world as
    [delete_task] of the manager does, and reports a deletion exactly when the
    manager returned [True]. *)
Theorem cli_delete_needs_confirmation (task_id confirm_line : string) (w : World) :
  (exists d w', CLI.delete_task task_id confirm_line w = (Return d, w')) /\
  (Str.lower (Str.strip confirm_line) ∉ ["yes"; "y"] ->
   exists d, CLI.delete_task task_id confirm_line w = (Return d, w) /\
             d ∈ [CLI.NoId; CLI.NotFound; CLI.Cancelled]) /\
  (Str.lower (Str.strip confirm_line) ∈ ["yes"; "y"] -> task_id <> "" ->
   snd (CLI.delete_task task_id confirm_line w)
   = snd (TaskManager.delete_task task_id w) /\
   (fst (CLI.delete_task task_id confirm_line w) = Return CLI.Deleted <->
    fst (TaskManager.delete_task task_id w) = Return true)).
Proof.
  rewrite cli_delete_task_run.
  destruct (Str.truthy task_id) eqn:Et; cbn [negb].
  2:{ split; [eauto|]. split.
      - intros _. exists CLI.NoId. split; [reflexivity|left].
      - intros _ Hne. apply truthy_false in Et. contradiction. }
  pose proof (get_task_run task_id w) as Hget. rewrite Hget. cbn [fst].
  destruct (match PyDict.getitem task_id (_tasks w) with
            | Some task => Some task
            | None => TaskManager.first_partial (Str.lower task_id) (_tasks w)
            end) as [task|] eqn:Hfound.
  2:{ assert (Hdel : TaskManager.delete_task task_id w = (Return false, w)).
      { unfold TaskManager.delete_task. erewrite bind_Return by exact Hget.
        reflexivity. }
      split; [eauto|]. split.
      - intros _. exists CLI.NotFound. split; [reflexivity|right; left].
      - intros _ _. rewrite Hdel. simpl. split; [reflexivity|].
        split; discriminate. }
  destruct (bool_decide (Str.lower (Str.strip confirm_line) ∈ ["yes"; "y"])) eqn:Ec.
  - apply bool_decide_eq_true in Ec.
    destruct (TaskManager.delete_task task_id w) as [[[|]|e] w'] eqn:Hrun; simpl;
      (split; [eauto|]); (split; [intros Hno; contradiction|]); intros _ _;
      (split; [reflexivity|]); split; try discriminate; reflexivity.
  - apply bool_decide_eq_false in Ec.
    split; [eauto|]. split; [|intros Hyes; contradiction].
    intros _. exists CLI.Cancelled. split; [reflexivity|right; right; left].
Qed.

Lemma cli_delete_needs_confirmation_witness :
  Str.lower (Str.strip " YES ") ∈ ["yes"; "y"] /\ "0c0ffee0" <> "" /\
  snd (CLI.delete_task "0c0ffee0" " YES " two_task_world)
  = snd (TaskManager.delete_task "0c0ffee0" two_task_world).
Proof.
  assert (Hyes : Str.lower (Str.strip " YES ") ∈ ["yes"; "y"]) by (vm_compute; left).
  assert (Hne : "0c0ffee0" <> "") by discriminate.
  split; [exact Hyes|]. split; [exact Hne|].
  exact (proj1 (proj2 (proj2 (cli_delete_needs_confirmation "0c0ffee0" " YES " two_task_world))
                  Hyes Hne)).
Defined.

(** ** task_manager.py: adding, then deleting *)

Lemma delitem_setitem_fresh {V} k (v : V) d :
  k ∉ PyDict.keys d -> PyDict.delitem k (PyDict.setitem k v d) = d.
Proof.
  induction d as [|[k0 v0] d IH]; simpl; intros Hk.
  - rewrite String.eqb_refl. reflexivity.
  - apply not_elem_of_cons in Hk as [Hne Hk].
    destruct (String.eqb k0 k) eqn:E; [apply String.eqb_eq in E; congruence|].
    simpl. rewrite E, IH by exact Hk. reflexivity.
Qed.

Lemma remove_first_app_fresh task_id doc : forall c,
  VStr task_id ∉ map DatabaseHandler.doc_key c ->
  DatabaseHandler.matches task_id doc = true ->
  DatabaseHandler.remove_first task_id (c ++ [doc]) = (c, true).
Proof.
  induction c as [|d c IH]; simpl; intros Hfresh Hm.
  - rewrite Hm. reflexivity.
  - apply not_elem_of_cons in Hfresh as [Hne Hfresh].
    destruct (DatabaseHandler.matches task_id d) eqn:E.
    + apply matches_doc_key in E. congruence.
    + rewrite IH by assumption. reflexivity.
Qed.

Lemma filter_all {A} (p : A -> bool) l :
  (forall x, x ∈ l -> p x = true) -> List.filter p l = l.
Proof.
  intros H. rewrite <- (filter_true l) at 2. apply List.filter_ext_in.
  intros x Hx. apply H, list_elem_of_In, Hx.
Qed.

(** X23: in a world the manager reaches, deleting the task [add_task] has
    just returned, under its id, returns [True] and brings the dictionary,
    the list and the collection of the store back to what they were before
    the task was added. *)
Theorem add_then_delete_restores
    (title description : string) (due_date : datetime) (priority : string)
    (status : option string) (w : World) (task : loc) (w1 : World) :
  reachable w ->
  TaskManager.add_task title description due_date priority status w = (Return task, w1) ->
  exists w2,
    TaskManager.delete_task (_task_id (heap w1 task)) w1 = (Return true, w2) /\
    _tasks w2 = _tasks w /\ _task_list w2 = _task_list w /\
    db_collection w2 = db_collection w.
Proof.
  intros Hreach Hadd. pose proof (reachable_inv w Hreach) as Hinv.
  destruct (add_task_Return _ _ _ _ _ _ _ _ Hadd)
    as (title' & priority' & status' & Ht & Hp & Hs & Ha & Hf & Hfresh).
  destruct (add_task_run title description due_date priority status w _ _ _
              Ht Hp Hs Ha Hf Hfresh)
    as (w' & Hrun & Hh & Hn & Ha1 & Hf1 & Hc & Hd & Hl).
  rewrite Hadd in Hrun. injection Hrun as -> <-.
  set (k := uuid_src w (uuid_pos w)) in *.
  assert (Hid : _task_id (heap w1 (heap_next w)) = k)
    by (rewrite Hh, fn_lookup_insert; reflexivity).
  assert (Hnew : k ∉ PyDict.keys (_tasks w)).
  { intros Hk. apply Hfresh, (inv_sub _ Hinv), Hk. }
  rewrite Hid. unfold TaskManager.delete_task.
  erewrite bind_Return.
  2:{ rewrite get_task_run, Hd, getitem_setitem, String.eqb_refl. reflexivity. }
  unfold read, get. erewrite bind_Return by reflexivity. rewrite Hid.
  unfold try_except.
  assert (Hdb : DatabaseHandler.delete_task k w1
                = (Return true, with_collection (db_collection w) w1)).
  { unfold DatabaseHandler.delete_task, DatabaseHandler.is_connected,
      DatabaseHandler.delete_one, DatabaseHandler.on_server.
    unfold_M. rewrite Ha1. simpl. rewrite Hf1. simpl. rewrite Hc.
    rewrite remove_first_app_fresh; [reflexivity|exact Hfresh|].
    apply matches_doc_key. rewrite doc_key_to_dict. reflexivity. }
  erewrite bind_Return by exact Hdb.
  erewrite bind_Return by reflexivity. simpl. rewrite Hd.
  unfold PyDict.contains. rewrite getitem_setitem, String.eqb_refl.
  unfold_M. simpl. eexists. split; [reflexivity|]. simpl.
  split; [apply delitem_setitem_fresh, Hnew|]. split; [|reflexivity].
  rewrite Hl, List.filter_app. simpl. rewrite Hid, String.eqb_refl. simpl.
  rewrite app_nil_r. apply filter_all. intros t Hin.
  destruct (cache_inv_consistent w Hinv) as (Hget & _).
  pose proof (Hget t Hin) as Hk. apply getitem_Some_elem in Hk.
  assert (Hlt : (t < heap_next w)%nat).
  { pose proof (inv_alloc _ Hinv) as Hal. rewrite Forall_forall in Hal.
    apply (Hal _ Hk). }
  rewrite Hh, fn_lookup_insert_ne by lia.
  apply negb_true_iff, String.eqb_neq. intros Heq. apply Hnew.
  unfold PyDict.keys. apply list_elem_of_fmap.
  exists (_task_id (heap w t), t). split; [symmetry; exact Heq|exact Hk].
Qed.

Lemma add_then_delete_restores_witness :
  reachable two_task_world /\
  exists w1 w2,
    TaskManager.add_task "Call plumber" "" (mk_datetime 2024 2 1 0 0 0 0) "low" None
      two_task_world = (Return 2%nat, w1) /\
    TaskManager.delete_task (_task_id (heap w1 2%nat)) w1 = (Return true, w2) /\
    _task_list w2 = _task_list two_task_world.
Proof.
  split; [exact two_task_world_reachable|].
  set (r := TaskManager.add_task "Call plumber" "" (mk_datetime 2024 2 1 0 0 0 0)
              "low" None two_task_world).
  assert (Hadd : r = (Return 2%nat, snd r)) by (vm_compute; reflexivity).
  destruct (add_then_delete_restores _ _ _ _ _ _ _ _ two_task_world_reachable Hadd)
    as (w2 & Hdel & _ & Hl & _).
  exists (snd r), w2. split; [exact Hadd|]. split; [exact Hdel|exact Hl].
Defined.

(** ** task_manager.py: sorting what is sorted *)

Lemma stable_sort_fixed {A} (key : A -> sort_key) l :
  StronglySorted (ascending key) l -> stable_sort key l = l.
Proof.
  induction 1 as [|x l Hs IH Hx]; [reflexivity|].
  change (stable_sort key (x :: l)) with (insert_sorted key x (stable_sort key l)).
  rewrite IH. destruct l as [|y l]; [reflexivity|]. simpl.
  apply Forall_cons in Hx as [Hy _]. unfold ascending in Hy. rewrite Hy. reflexivity.
Qed.

Lemma sorted_idem {A} (key : A -> sort_key) (reverse : bool) l :
  (forall a b, same_kind (key a) (key b)) ->
  sorted key reverse (sorted key reverse l) = sorted key reverse l.
Proof.
  intros Hkind. unfold sorted. destruct reverse.
  - rewrite rev_involutive. f_equal.
    apply stable_sort_fixed, stable_sort_ascending, Hkind.
  - apply stable_sort_fixed, stable_sort_ascending, Hkind.
Qed.

(** X24: what [sort_tasks] returns is a fixed point of it: sorted again by the
    same field in the same direction, in a world where the tasks have not
    changed, the list comes back as it is. *)
Theorem sort_tasks_idempotent (tasks : list loc) (sort_by : string) (reverse : bool)
    (w : World) (out : list loc) :
  TaskManager.sort_tasks tasks sort_by reverse w = (Return out, w) ->
  TaskManager.sort_tasks out sort_by reverse w = (Return out, w).
Proof.
  unfold TaskManager.sort_tasks.
  destruct (bool_decide (sort_by ∈ TaskManager.valid_sort_fields)); simpl;
    [|discriminate].
  unfold_M. intros [= <-]. rewrite sorted_idem; [reflexivity|].
  intros a b. apply get_sort_key_same_kind.
Qed.

Lemma sort_tasks_idempotent_witness :
  TaskManager.sort_tasks [0; 1; 2]%nat "priority" true three_task_world
  = (Return [0; 2; 1]%nat, three_task_world) /\
  TaskManager.sort_tasks [0; 2; 1]%nat "priority" true three_task_world
  = (Return [0; 2; 1]%nat, three_task_world).
Proof.
  assert (H : TaskManager.sort_tasks [0; 1; 2]%nat "priority" true three_task_world
              = (Return [0; 2; 1]%nat, three_task_world)).
  { vm_compute. reflexivity. }
  split; [exact H|].
  exact (sort_tasks_idempotent _ _ _ _ _ H).
Defined.
